(** * Project Samarth Q&A: column heuristics and aggregation analytics

    A shallow embedding of [app/query_executor.py], [app/analytics.py] and
    [app/loaders.py].  Tables are pandas DataFrames; they are modelled as an
    ordered list of column names with row-major cells.  Floating-point
    values are modelled as exact rationals together with a distinct missing
    value (NaN), and the sums and means the program only reports are taken
    exactly; a float the program tests against bounds, and the solution of
    the least-squares solver, are left to the library.  Python exceptions
    are modelled as an explicit error result. *)

From Stdlib Require Import List Bool Arith ZArith QArith Qabs Qround Lia Lqa.
From Stdlib Require Import Ascii String DecimalString DecimalN.
From Stdlib Require Import Permutation Sorted.
Import ListNotations.

Set Implicit Arguments.

(** ** Characters and strings *)

Module Text.

Local Open Scope char_scope.
Local Open Scope N_scope.

(** Characters are code points below 256.  [is_space] is the whitespace
    class shared by [str.strip()] and the regular expression class [\s]. *)
Definition is_space (c : ascii) : bool :=
  let n := N_of_ascii c in
  ((9 <=? n) && (n <=? 13)) || ((28 <=? n) && (n <=? 32))
  || (n =? 133) || (n =? 160).

(** The character class [[-_/\\(),]] of [norm]. *)
Definition is_punct (c : ascii) : bool :=
  let n := N_of_ascii c in
  (n =? 45) || (n =? 95) || (n =? 47) || (n =? 92)
  || (n =? 40) || (n =? 41) || (n =? 44).

(** [str.lower()] on one code point. *)
Definition lower_char (c : ascii) : ascii :=
  let n := N_of_ascii c in
  if ((65 <=? n) && (n <=? 90))
     || ((192 <=? n) && (n <=? 222) && negb (n =? 215))
  then ascii_of_N (n + 32) else c.

Local Close Scope N_scope.

(** [re.sub(cls+, " ", s)]: every maximal run of characters of the class
    becomes one space.  [in_run] tells whether the previous character
    already belonged to the run being replaced. *)
Fixpoint sub_runs (cls : ascii -> bool) (in_run : bool) (s : list ascii)
  : list ascii :=
  match s with
  | [] => []
  | c :: t =>
      if cls c
      then (if in_run then sub_runs cls true t else " " :: sub_runs cls true t)
      else c :: sub_runs cls false t
  end.

Definition re_sub_runs (cls : ascii -> bool) (s : list ascii) : list ascii :=
  sub_runs cls false s.

Fixpoint lstrip (s : list ascii) : list ascii :=
  match s with
  | [] => []
  | c :: t => if is_space c then lstrip t else s
  end.

Fixpoint rstrip (s : list ascii) : list ascii :=
  match s with
  | [] => []
  | c :: t =>
      match rstrip t with
      | [] => if is_space c then [] else [c]
      | r => c :: r
      end
  end.

(** [str.strip()] *)
Definition strip_l (s : list ascii) : list ascii := rstrip (lstrip s).

Definition lower_l (s : list ascii) : list ascii := map lower_char s.

(** The body of [norm] inside [_normalize_columns]:
    strip, then punctuation runs to a space, then whitespace runs to a
    space, then lowercase. *)
Definition norm_l (s : list ascii) : list ascii :=
  lower_l (re_sub_runs is_space (re_sub_runs is_punct (strip_l s))).

Definition lift (f : list ascii -> list ascii) (s : string) : string :=
  string_of_list_ascii (f (list_ascii_of_string s)).

Definition strip : string -> string := lift strip_l.
Definition lower : string -> string := lift lower_l.
Definition norm : string -> string := lift norm_l.

(** [sub in s] for Python strings. *)
Fixpoint contains (sub s : string) : bool :=
  if String.prefix sub s then true
  else match s with
       | EmptyString => false
       | String _ t => contains sub t
       end.

End Text.

(** ** A small model of the pandas operations the program uses *)

Module Pandas.

Import Text.
Local Open Scope string_scope.
Local Open Scope Q_scope.

(** Python exceptions that the modelled code can raise. *)
Inductive exn : Type :=
| ValueError (msg : string)
| KeyError (key : string)
| AttributeError (msg : string)
| TypeError (msg : string).

Inductive result (A : Type) : Type :=
| Ok (a : A)
| Raise (e : exn).

Arguments Ok {A} a.
Arguments Raise {A} e.

Definition bind {A B : Type} (m : result A) (k : A -> result B) : result B :=
  match m with
  | Ok a => k a
  | Raise e => Raise e
  end.

Notation "x <- m ;; k" := (bind m (fun x => k))
  (at level 61, m at next level, right associativity).
Notation "' p <- m ;; k" := (bind m (fun p => k))
  (at level 61, p pattern, m at next level, right associativity).

(** A cell holds a float, a text, the missing value NaN, or the missing
    timestamp NaT (which only [production_trend] writes). *)
Inductive cell : Type :=
| CNum (q : Q)
| CStr (s : string)
| CNaN
| CNaT.

(** A DataFrame: the column labels and the rows, each row aligned with the
    labels.  Column labels of a table are text and pairwise distinct, and a
    column's dtype is read off its cells: numeric when every cell is a
    number or NaN. *)
Record DataFrame : Type := mkDF {
  columns : list string;
  rows : list (list cell)
}.

(** [pd.DataFrame()] *)
Definition empty_frame : DataFrame := mkDF [] [].

(** What the program takes from its libraries without fixing it:
    how text is read as a number by [pd.to_numeric], how a float is
    printed by [astype(str)], the row order that [sort_values] with the
    default sort kind gives (descending by the summed column),
    [Series.corr] on the complete pairs ([None] for NaN), the float64 mean
    [float(nums.mean())] that the numeric fallback tests against its
    bounds, and the float64 solution [np.linalg.lstsq(A, y, rcond=None)[0]]
    for the matrix [A] with the columns [x] and [1]. *)
Class Lib : Type := {
  parse_float : string -> option Q;
  str_of_float : Q -> string;
  sort_values_desc : list (cell * Q) -> list (cell * Q);
  series_corr : list (Q * Q) -> option Q;
  float_mean : list Q -> Q;
  lstsq : list Q -> list Q -> Q * Q
}.

(** *** Python values *)

(** Truthiness of a text, as in [if not year_col] or [a or b]. *)
Definition truthy (s : string) : bool := negb (String.eqb s "").

Definition truthy_opt (o : option string) : bool :=
  match o with
  | Some s => truthy s
  | None => false
  end.

(** [a or b] on an optional text with a text default. *)
Definition or_default (o : option string) (d : string) : string :=
  match o with
  | Some s => if truthy s then s else d
  | None => d
  end.

Definition mem (x : string) (l : list string) : bool :=
  existsb (String.eqb x) l.

(** [l.index(x)] when [x in l]. *)
Fixpoint index_of (x : string) (l : list string) : option nat :=
  match l with
  | [] => None
  | h :: t => if String.eqb x h then Some 0%nat
              else option_map S (index_of x t)
  end.

(** [int(x)] and [astype(int)]: truncation toward zero. *)
Definition Qtrunc (q : Q) : Z := Z.quot (Qnum q) (Zpos (Qden q)).

Definition Qltb (p q : Q) : bool := negb (Qle_bool q p).

(** *** Columns *)

Definition cell_at (j : nat) (r : list cell) : cell := nth j r CNaN.

Definition column (df : DataFrame) (j : nat) : list cell :=
  map (cell_at j) (rows df).

(** [df[name]] *)
Definition getitem (df : DataFrame) (name : string) : result (list cell) :=
  match index_of name (columns df) with
  | Some j => Ok (column df j)
  | None => Raise (KeyError name)
  end.

Fixpoint replace_nth (j : nat) (v : cell) (r : list cell) : list cell :=
  match r, j with
  | [], _ => []
  | _ :: t, O => v :: t
  | h :: t, S j' => h :: replace_nth j' v t
  end.

(** [df[name] = vals]: overwrite the column, or append it as the last one. *)
Definition setitem (df : DataFrame) (name : string) (vals : list cell)
  : DataFrame :=
  match index_of name (columns df) with
  | Some j =>
      mkDF (columns df)
           (map (fun rv => replace_nth j (snd rv) (fst rv))
                (combine (rows df) vals))
  | None =>
      mkDF (columns df ++ [name])%list
           (map (fun rv => (fst rv ++ [snd rv])%list) (combine (rows df) vals))
  end.

(** [df[name] = v] for a scalar [v] *)
Definition setitem_scalar (df : DataFrame) (name : string) (v : cell)
  : DataFrame :=
  setitem df name (repeat v (List.length (rows df))).

(** [df[mask]] with the mask computed row by row *)
Definition filter_rows (p : list cell -> bool) (df : DataFrame) : DataFrame :=
  mkDF (columns df) (filter p (rows df)).

(** [df.empty] *)
Definition is_empty (df : DataFrame) : bool :=
  match columns df, rows df with
  | [], _ => true
  | _, [] => true
  | _, _ => false
  end.

(** *** Numeric coercion *)

Definition iNaT : Q := inject_Z (-9223372036854775808).

Definition is_nat_cell (c : cell) : bool :=
  match c with
  | CNaT => true
  | _ => false
  end.

Section Coercion.
Context {lib : Lib}.

Definition to_numeric_cell (c : cell) : cell :=
  match c with
  | CNum q => CNum q
  | CStr s => match parse_float s with
              | Some q => CNum q
              | None => CNaN
              end
  | CNaN => CNaN
  | CNaT => CNaN
  end.

(** [pd.to_numeric(col, errors="coerce")].  A column of timestamps (here
    always all NaT) is viewed as its 64-bit integers. *)
Definition to_numeric (col : list cell) : list cell :=
  match col with
  | _ :: _ =>
      if forallb is_nat_cell col then map (fun _ => CNum iNaT) col
      else map to_numeric_cell col
  | [] => []
  end.
End Coercion.

(** The numbers left by [dropna()] on a coerced column. *)
Fixpoint numbers (col : list cell) : list Q :=
  match col with
  | [] => []
  | CNum q :: t => q :: numbers t
  | _ :: t => numbers t
  end.

Definition fillna (v : cell) (c : cell) : cell :=
  match c with
  | CNaN => v
  | CNaT => v
  | _ => c
  end.

Definition Zmax_list (l : list Z) : option Z :=
  match l with
  | [] => None
  | h :: t => Some (fold_left Z.max t h)
  end.

Definition Zmin_list (l : list Z) : option Z :=
  match l with
  | [] => None
  | h :: t => Some (fold_left Z.min t h)
  end.

(** [col.dropna().astype(int).max()] *)
Definition max_int (col : list cell) : option Z :=
  Zmax_list (map Qtrunc (numbers col)).

(** [(col >= lo) & (col <= hi)] on one cell. *)
Definition in_window (lo hi : Z) (c : cell) : bool :=
  match c with
  | CNum q => Qle_bool (inject_Z lo) q && Qle_bool q (inject_Z hi)
  | _ => false
  end.

(** [col == s] on one cell, for a text [s]. *)
Definition cell_is_str (s : string) (c : cell) : bool :=
  match c with
  | CStr t => String.eqb t s
  | _ => false
  end.

(** [col == v] on one cell. *)
Definition cell_eqb (v c : cell) : bool :=
  match v, c with
  | CNum p, CNum q => Qeq_bool p q
  | CStr s, CStr t => String.eqb s t
  | _, _ => false
  end.

Definition has_text (col : list cell) : bool :=
  existsb (fun c => match c with CStr _ => true | _ => false end) col.

Definition Qsum (l : list Q) : Q := fold_right Qplus 0 l.

(** [col.sum()]: missing values are skipped.  The sum is exact; a float64
    sum agrees with it when the numbers are integers whose absolute values
    add up to less than 2^53. *)
Definition sum_cells (col : list cell) : Q := Qred (Qsum (numbers col)).

(** [col.mean()]: missing values are skipped, no number left gives NaN,
    and a column holding text raises. *)
Definition mean_cells (col : list cell) : result cell :=
  if has_text col then Raise (TypeError "Could not convert to numeric")
  else match numbers col with
       | [] => Ok CNaN
       | ns => Ok (CNum (Qred (Qsum ns / inject_Z (Z.of_nat (List.length ns)))))
       end.

(** *** Grouping *)

(** Group labels: missing values label no group. *)
Definition key_of (c : cell) : option cell :=
  match c with
  | CNum q => Some (CNum (Qred q))
  | CStr s => Some (CStr s)
  | _ => None
  end.

(** The order in which [groupby] lists its labels: numbers before text. *)
Definition key_ltb (a b : cell) : bool :=
  match a, b with
  | CNum p, CNum q => Qltb p q
  | CNum _, CStr _ => true
  | CStr s, CStr t => String.ltb s t
  | _, _ => false
  end.

Fixpoint insert_key (k : cell) (l : list cell) : list cell :=
  match l with
  | [] => [k]
  | h :: t =>
      if key_ltb k h then k :: l
      else if key_ltb h k then h :: insert_key k t
      else l
  end.

Fixpoint keys_of (col : list cell) : list cell :=
  match col with
  | [] => []
  | c :: t => match key_of c with
              | Some k => k :: keys_of t
              | None => keys_of t
              end
  end.

(** The distinct labels of a column, sorted. *)
Definition group_keys (col : list cell) : list cell :=
  fold_right insert_key [] (keys_of col).

Definition has_key (kj : nat) (k : cell) (r : list cell) : bool :=
  match key_of (cell_at kj r) with
  | Some k' => cell_eqb k k'
  | None => false
  end.

(** The cells of column [vj] in the rows labelled [k] in column [kj]. *)
Definition group_cells (kj vj : nat) (rs : list (list cell)) (k : cell)
  : list cell :=
  map (cell_at vj) (filter (has_key kj k) rs).

(** [df.groupby(key)[val].sum().reset_index()] as label/sum pairs. *)
Definition groupby_sum (kj vj : nat) (rs : list (list cell))
  : list (cell * Q) :=
  map (fun k => (k, sum_cells (group_cells kj vj rs k)))
      (group_keys (map (cell_at kj) rs)).

Fixpoint mapM {A B : Type} (f : A -> result B) (l : list A)
  : result (list B) :=
  match l with
  | [] => Ok []
  | a :: t => b <- f a ;; bs <- mapM f t ;; Ok (b :: bs)
  end.

(** [df.groupby(key)[val].mean().reset_index()] as label/mean rows. *)
Definition groupby_mean (kj vj : nat) (rs : list (list cell))
  : result (list (list cell)) :=
  if has_text (map (cell_at vj) rs)
  then Raise (TypeError "agg function failed [how->mean,dtype->object]")
  else mapM (fun k => m <- mean_cells (group_cells kj vj rs k) ;; Ok [k; m])
            (group_keys (map (cell_at kj) rs)).

(** [df.head(n)], also for a negative [n] (all but the last [-n] rows). *)
Definition head {A : Type} (n : Z) (l : list A) : list A :=
  if (0 <=? n)%Z then firstn (Z.to_nat n) l
  else firstn (List.length l - Z.to_nat (- n)) l.

End Pandas.

(** ** [app/analytics.py] *)

Module Analytics.

Import Text Pandas.
Local Open Scope string_scope.
Local Open Scope Z_scope.

(** The column detection loop
    [for cand in cands: if cand in cols: col = df.columns[cols.index(cand)]; break]. *)
Fixpoint detect (cands cols_lower cols : list string) : option string :=
  match cands with
  | [] => None
  | cand :: rest =>
      match index_of cand cols_lower with
      | Some j => Some (nth j cols "")
      | None => detect rest cols_lower cols
      end
  end.

(** [given or default] for an optional list of candidates. *)
Definition cands_or (given : option (list string)) (default : list string)
  : list string :=
  match given with
  | Some (c :: t) => c :: t
  | _ => default
  end.

Definition is_numeric_cell (c : cell) : bool :=
  match c with
  | CNum _ => true
  | CNaN => true
  | _ => false
  end.

(** [df.select_dtypes(include=[np.number]).columns.tolist()] *)
Definition numeric_columns (df : DataFrame) : list string :=
  map fst
      (filter (fun cj => forallb is_numeric_cell (column df (snd cj)))
              (combine (columns df) (seq 0 (List.length (columns df))))).

Definition col_idx (df : DataFrame) (name : string) : result nat :=
  match index_of name (columns df) with
  | Some j => Ok j
  | None => Raise (KeyError name)
  end.

Record AvgMeta : Type := mkAvgMeta {
  years_used : Z * Z;
  metric_column : string;
  year_column : string;
  state_column : option string
}.

Definition year_candidates : list string := ["year"; "yy"; "yr"].

Definition metric_candidates_default : list string :=
  ["annual_mean_temp_c"; "annual_temp"; "annual_mean_temp";
   "annual_rainfall_mm"; "rainfall_mm"; "mean_temp_c"; "annual_mean_temp"].

Definition state_candidates : list string :=
  ["state"; "region"; "subdivision"; "district"].

(** Lines 51-52: the window ends at the truncated maximum of the coerced
    year column; without any number [int(nan)] raises. *)
Definition window_of (ycol : list cell) (last_n_years : Z) : result (Z * Z) :=
  match max_int ycol with
  | Some max_year => Ok (max_year - last_n_years + 1, max_year)
  | None => Raise (ValueError "cannot convert float NaN to integer")
  end.

(** Line 54: the rows of the window. *)
Definition window_rows (yj : nat) (w : Z * Z) (df : DataFrame) : DataFrame :=
  filter_rows (fun r => in_window (fst w) (snd w) (cell_at yj r)) df.

Definition isin (states : list string) (c : cell) : bool :=
  match c with
  | CStr s => mem s states
  | _ => false
  end.

Section WithLib.
Context {lib : Lib}.

(** Lines 55-59 of [avg_annual_climate_metric]: the aggregate over the
    windowed rows [df_f]. *)
Definition avg_aggregate (df_f : DataFrame) (states : list string)
           (state_col : option string) (metric_col : string)
  : result DataFrame :=
  mj <- col_idx df_f metric_col ;;
  if truthy_opt state_col then
    let sc := or_default state_col "" in
    sj <- col_idx df_f sc ;;
    let df_s := filter_rows (fun r => isin states (cell_at sj r)) df_f in
    rs <- groupby_mean sj mj (rows df_s) ;;
    Ok (mkDF [sc; "avg_" ++ metric_col] rs)
  else
    m <- mean_cells (column df_f mj) ;;
    Ok (mkDF ["avg_" ++ metric_col] [[m]]).

(** [avg_annual_climate_metric].  The second component is the caller's
    table [df_climate] as the call leaves it: line 53 assigns the coerced
    year column to the argument itself. *)
Definition avg_annual_climate_metric
           (df_climate : DataFrame) (states : list string)
           (year_col_candidates metric_candidates : option (list string))
           (last_n_years : Z)
  : result (DataFrame * AvgMeta) * DataFrame :=
  let cols := map lower (columns df_climate) in
  let year_found :=
    detect (cands_or year_col_candidates year_candidates)
           cols (columns df_climate) in
  if negb (truthy_opt year_found) then
    (Raise (ValueError "Could not detect year column in climate data"),
     df_climate)
  else
    let year_col := or_default year_found "" in
    let metric_found :=
      detect (cands_or metric_candidates metric_candidates_default)
             cols (columns df_climate) in
    let metric_sel :=
      if truthy_opt metric_found then metric_found
      else hd_error (filter (fun c => negb (String.eqb c year_col))
                            (numeric_columns df_climate)) in
    match metric_sel with
    | None =>
        (Raise (ValueError "No numeric climate metric found"), df_climate)
    | Some metric_col =>
        let state_col := detect state_candidates cols (columns df_climate) in
        match getitem df_climate year_col with
        | Raise e => (Raise e, df_climate)
        | Ok ycol =>
            match window_of (to_numeric ycol) last_n_years with
            | Raise e => (Raise e, df_climate)
            | Ok w =>
                let df1 := setitem df_climate year_col (to_numeric ycol) in
                (yj <- col_idx df1 year_col ;;
                 out <- avg_aggregate (window_rows yj w df1) states
                                      state_col metric_col ;;
                 Ok (out, mkAvgMeta w metric_col year_col
                                     (if truthy_opt state_col
                                      then state_col else None)),
                 df1)
            end
        end
    end.

(** [top_crops_by_volume]: works on a copy of [df_crop]. *)

(** Lines 97-105: coerce the year column and keep the window, when the
    column exists and a non-zero maximum year is found. *)
Definition top_crops_window (df : DataFrame) (year_col : string)
           (last_n_years : Z) : DataFrame :=
  match index_of year_col (columns df) with
  | Some yj =>
      let ycol := to_numeric (column df yj) in
      let df1 := setitem df year_col ycol in
      match max_int ycol with
      | Some max_year =>
          if max_year =? 0 then df1
          else window_rows yj (max_year - last_n_years + 1, max_year) df1
      | None => df1
      end
  | None => df
  end.

(** Lines 107-116: the state filter and the numeric production column. *)
Definition top_crops_prepare (df : DataFrame) (state_col state prod_col : string)
  : DataFrame :=
  let dff :=
    match index_of state_col (columns df) with
    | Some sj => filter_rows (fun r => cell_is_str state (cell_at sj r)) df
    | None => df
    end in
  match index_of prod_col (columns dff) with
  | Some pj =>
      setitem dff prod_col
              (map (fillna (CNum 0)) (to_numeric (column dff pj)))
  | None => setitem_scalar dff prod_col (CNum 0)
  end.

Definition pair_row (kv : cell * Q) : list cell := [fst kv; CNum (snd kv)].

(** Lines 107-119: the sums by crop of the rows kept, sorted, and the
    first [top_m] of them. *)
Definition top_crops_aggregate (df : DataFrame)
           (state_col state prod_col crop_col : string) (top_m : Z)
  : result DataFrame :=
  let dff := top_crops_prepare df state_col state prod_col in
  cj <- col_idx dff crop_col ;;
  pj <- col_idx dff prod_col ;;
  let agg := sort_values_desc (groupby_sum cj pj (rows dff)) in
  Ok (mkDF [crop_col; prod_col] (map pair_row (head top_m agg))).

Definition top_crops_by_volume (df_crop : DataFrame) (state : string)
           (last_n_years top_m : Z) : result DataFrame :=
  let df := df_crop in
  let cols_lower := map lower (columns df) in
  let year_col :=
    or_default (detect ["year"; "season"; "reporting_year"]
                       cols_lower (columns df)) "year" in
  let prod_col :=
    or_default (detect ["production_tonnes"; "production";
                        "production (tonnes)"; "production (t)"; "quantity"]
                       cols_lower (columns df)) "production_tonnes" in
  let state_col :=
    or_default (detect ["state"; "st"; "state_name"]
                       cols_lower (columns df)) "state" in
  let crop_col :=
    or_default (detect ["crop"; "commodity"; "crop_name"]
                       cols_lower (columns df)) "crop" in
  top_crops_aggregate (top_crops_window df year_col last_n_years)
                      state_col state prod_col crop_col top_m.

(** [production_trend]: works on a copy of [df_crop]. *)

(** [astype(str)] on one cell. *)
Definition astype_str (c : cell) : string :=
  match c with
  | CNum q => str_of_float q
  | CStr s => s
  | CNaN => "nan"
  | CNaT => "NaT"
  end.

(** [for k, v in region_filter.items(): if k in dff.columns: dff = dff[dff[k] == v]] *)
Fixpoint apply_region_filter (region_filter : list (string * cell))
         (dff : DataFrame) : DataFrame :=
  match region_filter with
  | [] => dff
  | (k, v) :: rest =>
      apply_region_filter rest
        match index_of k (columns dff) with
        | Some j => filter_rows (fun r => cell_eqb v (cell_at j r)) dff
        | None => dff
        end
  end.

(** The least-squares line through the points [(x, y)] in exact
    arithmetic, from the normal equations: what [np.linalg.lstsq]
    approximates in float64 on the design matrix with columns [x] and
    [1]. *)
Definition lstsq_line (xs ys : list Q) : Q * Q :=
  let n := inject_Z (Z.of_nat (List.length xs)) in
  let sx := Qsum xs in
  let sy := Qsum ys in
  let sxx := Qsum (map (fun x => x * x)%Q xs) in
  let sxy := Qsum (map (fun p => fst p * snd p)%Q (combine xs ys)) in
  let m := ((n * sxy - sx * sy) / (n * sxx - sx * sx))%Q in
  (Qred m, Qred ((sy - m * sx) / n)%Q).

Record Trend : Type := mkTrend {
  slope_per_year : Q;
  intercept : Q
}.

(** Lines 160-167: the trend of the grouped series [ts]. *)
Definition fit_trend (ts : DataFrame) (prod_col : string) : result Trend :=
  if (2 <=? List.length (rows ts))%nat then
    x <- getitem ts "year" ;;
    y <- getitem ts prod_col ;;
    let mc := lstsq (numbers x) (numbers y) in
    Ok (mkTrend (fst mc) (snd mc))
  else
    y <- getitem ts prod_col ;;
    Ok (mkTrend 0 (sum_cells y)).

Definition rename_col (old new : string) (df : DataFrame) : DataFrame :=
  mkDF (map (fun c => if String.eqb c old then new else c) (columns df))
       (rows df).

Definition production_trend (df_crop : DataFrame) (crop_name : string)
           (region_filter : list (string * cell))
  : result (DataFrame * Trend) :=
  let df := df_crop in
  let cols_lower := map lower (columns df) in
  let year_found := detect ["year"; "season"] cols_lower (columns df) in
  let df := if truthy_opt year_found then df
            else setitem_scalar df "year" CNaT in
  let year_col := or_default year_found "year" in
  let crop_col :=
    or_default (detect ["crop"; "commodity"] cols_lower (columns df_crop))
               "crop" in
  let prod_col :=
    or_default (detect ["production_tonnes"; "production"]
                       cols_lower (columns df_crop)) "production_tonnes" in
  match index_of prod_col (columns df) with
  | None => Raise (AttributeError "'int' object has no attribute 'fillna'")
  | Some pj =>
      let df := setitem df prod_col
                        (map (fillna (CNum 0)) (to_numeric (column df pj))) in
      cj <- col_idx df crop_col ;;
      let dff :=
        filter_rows (fun r => String.eqb (lower (astype_str (cell_at cj r)))
                                         (lower crop_name)) df in
      let dff := apply_region_filter region_filter dff in
      let ts :=
        match index_of year_col (columns dff) with
        | Some yj =>
            let dff := setitem dff year_col (to_numeric (column dff yj)) in
            mkDF [year_col; prod_col]
                 (map pair_row (groupby_sum yj pj (rows dff)))
        | None =>
            mkDF ["year"; prod_col]
                 [[CNum 0; CNum (sum_cells (column dff pj))]]
        end in
      t <- fit_trend ts prod_col ;;
      Ok (rename_col prod_col "production_tonnes" ts, t)
  end.

(** [pd.merge(left, right, left_on=.., right_on=.., how="inner")]:
    rows of [left] in order, each joined with the rows of [right] of equal
    key.  When both keys have the same label the key column is kept
    once; other labels present on both sides get the suffixes [_x], [_y]. *)
Fixpoint remove_nth {A : Type} (j : nat) (l : list A) : list A :=
  match l, j with
  | [], _ => []
  | _ :: t, O => t
  | h :: t, S j' => h :: remove_nth j' t
  end.

Definition merge_inner (left right : DataFrame) (left_on right_on : string)
  : result DataFrame :=
  lj <- col_idx left left_on ;;
  rj <- col_idx right right_on ;;
  let shared := String.eqb left_on right_on in
  let keep (l : list cell) := if shared then remove_nth rj l else l in
  let rcols := if shared then remove_nth rj (columns right)
               else columns right in
  let lcols := columns left in
  let lname c := if mem c rcols then c ++ "_x" else c in
  let rname c := if mem c lcols then c ++ "_y" else c in
  Ok (mkDF (map lname lcols ++ map rname rcols)%list
           (flat_map
              (fun l => map (fun r => (l ++ keep r)%list)
                            (filter (fun r => cell_eqb (cell_at lj l)
                                                       (cell_at rj r))
                                    (rows right)))
              (rows left))).

Record CorrMeta : Type := mkCorrMeta {
  pearson_corr : option cell;
  climate_metric : option string
}.

(** The pairs on which [Series.corr] works: rows where both values are
    numbers. *)
Fixpoint complete_pairs (xs ys : list cell) : list (Q * Q) :=
  match xs, ys with
  | CNum x :: xt, CNum y :: yt => (x, y) :: complete_pairs xt yt
  | _ :: xt, _ :: yt => complete_pairs xt yt
  | _, _ => []
  end.

Definition corr_cell (xs ys : list cell) : cell :=
  match series_corr (complete_pairs xs ys) with
  | Some q => CNum q
  | None => CNaN
  end.

(** The body of the [try] block of [correlate_production_with_climate],
    with the caller's climate table as the call to
    [avg_annual_climate_metric] leaves it.  [None] stands for falling
    out of the [if] without returning. *)
Definition correlate_try (ts_prod df_climate : DataFrame) (state : string)
           (last_n_years : Z)
  : result (option (DataFrame * CorrMeta)) * DataFrame :=
  let (r, df1) :=
    avg_annual_climate_metric df_climate [state] None None last_n_years in
  ('(_, meta) <- r ;;
   let metric := metric_column meta in
   let cols_lower := map lower (columns df1) in
   let year_col := detect ["year"] cols_lower (columns df1) in
   let state_col := detect ["state"] cols_lower (columns df1) in
   if truthy_opt year_col && truthy_opt state_col && mem metric (columns df1)
   then
     let yc := or_default year_col "" in
     let sc := or_default state_col "" in
     yj <- col_idx df1 yc ;;
     sj <- col_idx df1 sc ;;
     mj <- col_idx df1 metric ;;
     let df_s := filter_rows (fun r => cell_is_str state (cell_at sj r)) df1 in
     rs <- groupby_mean yj mj (rows df_s) ;;
     let cagg := mkDF [yc; metric] rs in
     merged <- merge_inner ts_prod cagg "year" yc ;;
     if (2 <=? List.length (rows merged))%nat then
       px <- getitem merged "production_tonnes" ;;
       py <- getitem merged metric ;;
       Ok (Some (merged, mkCorrMeta (Some (corr_cell px py)) (Some metric)))
     else
       Ok (Some (merged, mkCorrMeta None (Some metric)))
   else Ok None,
   df1).

(** [correlate_production_with_climate]: [production_trend] runs before
    the [try]; whatever the [try] block raises is swallowed. *)
Definition correlate_production_with_climate
           (df_prod df_climate : DataFrame) (crop_name state : string)
           (last_n_years : Z)
  : result (DataFrame * CorrMeta) * DataFrame :=
  match production_trend df_prod crop_name [("state", CStr state)] with
  | Raise e => (Raise e, df_climate)
  | Ok (ts_prod, _) =>
      let (r, df1) := correlate_try ts_prod df_climate state last_n_years in
      match r with
      | Ok (Some res) => (Ok res, df1)
      | _ => (Ok (empty_frame, mkCorrMeta None None), df1)
      end
  end.

End WithLib.

End Analytics.

(** ** [app/query_executor.py] *)

Module QueryExecutor.

Import Text Pandas.
Local Open Scope string_scope.
Local Open Scope Z_scope.

(** The last and the first label satisfying a test, as the loops of the
    detection helpers find them. *)
Definition last_match (p : string -> bool) (l : list string) : option string :=
  fold_left (fun acc nc => if p nc then Some nc else acc) l None.

Definition first_match (p : string -> bool) (l : list string) : option string :=
  find p l.

(** [_normalize_columns]: the table with normalized labels and the
    dictionary from normalized to original label (a later column
    overwrites an earlier one with the same normalized label). *)
Definition normalize_frame (df : DataFrame) : DataFrame :=
  mkDF (map norm (columns df)) (rows df).

Definition col_map_get (df : DataFrame) (key : string) : option string :=
  last_match (fun c => String.eqb (norm c) key) (columns df).

(** [df_norm[nc]] as a Series: a label carried by several columns selects a
    DataFrame instead, on which [pd.to_numeric] raises. *)
Definition getitem_series (df : DataFrame) (nc : string) : option (list cell) :=
  if (count_occ string_dec (columns df) nc =? 1)%nat then
    match index_of nc (columns df) with
    | Some j => Some (column df j)
    | None => None
    end
  else None.

Definition Qmin_list (l : list Q) : option Q :=
  match l with
  | [] => None
  | h :: t => Some (fold_left (fun a b => if Qle_bool b a then b else a) t h)
  end.

Definition Qmax_list (l : list Q) : option Q :=
  match l with
  | [] => None
  | h :: t => Some (fold_left (fun a b => if Qle_bool a b then b else a) t h)
  end.

Definition string_of_Z (z : Z) : string :=
  DecimalString.NilZero.string_of_int (Z.to_int z).

Record MetaDebug : Type := mkDebug {
  columns_sample : option (list string);
  rows_sample : option (list (list cell));
  detection_notes : list string;
  available_years_sample : option (list Z)
}.

Definition add_note (note : string) (d : MetaDebug) : MetaDebug :=
  mkDebug (columns_sample d) (rows_sample d)
          (detection_notes d ++ [note])%list (available_years_sample d).

Record Meta : Type := mkMeta {
  years_used : Z * Z;
  year_column : string;
  min_col : option string;
  max_col : option string;
  rows_used : list (cell * cell);
  debug : MetaDebug
}.

(** What [_compute_national_climate_avg] returns: [(None, meta_debug)] or
    [(out, meta)]. *)
Inductive National : Type :=
| NoResult (meta_debug : MetaDebug)
| Computed (out : DataFrame) (meta : Meta).

(** The argument of [_compute_national_climate_avg]: whatever the loader
    handed over. *)
Inductive Loaded : Type :=
| PyNone
| NotAFrame
| Frame (df : DataFrame).

(** Python's stable [list.sort(key=lambda x: x[1])]. *)
Fixpoint insert_by_mean (x : string * Q) (l : list (string * Q))
  : list (string * Q) :=
  match l with
  | [] => [x]
  | y :: t => if Qle_bool (snd x) (snd y) then x :: l
              else y :: insert_by_mean x t
  end.

Definition sort_by_mean (l : list (string * Q)) : list (string * Q) :=
  fold_right insert_by_mean [] l.

(** Keep the first occurrence of every value: [Series.unique()]. *)
Fixpoint unique (l : list Z) : list Z :=
  match l with
  | [] => []
  | h :: t => h :: filter (fun z => negb (z =? h)) (unique t)
  end.

Section WithLib.
Context {lib : Lib}.

Definition is_year_like_series (s : option (list cell)) : bool :=
  match s with
  | None => false
  | Some col =>
      let nums := numbers (to_numeric col) in
      if (List.length nums <? 3)%nat then false
      else match Qmin_list nums, Qmax_list nums with
           | Some mn, Some mx =>
               (1800 <=? Qtrunc mn) && (Qtrunc mn <=? Qtrunc mx)
               && (Qtrunc mx <=? 2100)
           | _, _ => false
           end
  end.

Definition find_annual_min_max_candidates (df_norm : DataFrame)
  : option string * option string :=
  let cs := columns df_norm in
  let temp_like nc :=
    contains "temp" nc || contains "temperature" nc || contains "deg" nc in
  let min_col :=
    last_match (fun nc => contains "annual" nc && contains "min" nc) cs in
  let max_col :=
    last_match (fun nc => contains "annual" nc && contains "max" nc) cs in
  let min_col :=
    if truthy_opt min_col then min_col
    else match first_match (fun nc => contains "min" nc && temp_like nc) cs with
         | Some nc => Some nc
         | None => min_col
         end in
  let max_col :=
    if truthy_opt max_col then max_col
    else match first_match (fun nc => contains "max" nc && temp_like nc) cs with
         | Some nc => Some nc
         | None => max_col
         end in
  (min_col, max_col).

(** One turn of the loop of [_fallback_numeric_pair]: the label with the
    mean of its numbers, when it is a candidate. *)
Definition fallback_candidate (df_norm : DataFrame) (nc : string)
  : option (string * Q) :=
  if contains "year" nc then None
  else match getitem_series df_norm nc with
       | None => None
       | Some col =>
           let nums := numbers (to_numeric col) in
           if (3 <=? List.length nums)%nat then
             let mean_val := float_mean nums in
             if Qle_bool (-60) mean_val && Qle_bool mean_val 80
             then Some (nc, mean_val) else None
           else None
       end.

Fixpoint fallback_candidates (df_norm : DataFrame) (cs : list string)
  : list (string * Q) :=
  match cs with
  | [] => []
  | nc :: t =>
      match fallback_candidate df_norm nc with
      | Some x => x :: fallback_candidates df_norm t
      | None => fallback_candidates df_norm t
      end
  end.

Definition fallback_numeric_pair (df_norm : DataFrame)
  : option string * option string :=
  let numeric_cols := fallback_candidates df_norm (columns df_norm) in
  match numeric_cols with
  | [] => (None, None)
  | [x] => (Some (fst x), None)
  | _ =>
      let sorted := sort_by_mean numeric_cols in
      (option_map fst (hd_error sorted),
       option_map fst (hd_error (rev sorted)))
  end.

(** Lines 140-158: the normalized year label and the note the value-shape
    fallback leaves. *)
Definition find_year (df_norm : DataFrame) : option string * list string :=
  let cs := columns df_norm in
  if mem "year" cs then (Some "year", [])
  else match first_match (fun nc => String.eqb (strip nc) "year") cs with
       | Some nc => (Some nc, [])
       | None =>
           match first_match
                   (fun nc => is_year_like_series (getitem_series df_norm nc))
                   cs with
           | Some nc =>
               (Some nc, ["Using numeric-like column '" ++ nc ++ "' as year"])
           | None => (None, [])
           end
       end.

(** [(a + b) / 2.0] on two coerced cells *)
Definition half_sum (a b : cell) : cell :=
  match a, b with
  | CNum x, CNum y => CNum ((x + y) / 2)%Q
  | _, _ => CNaN
  end.

Definition fill_empty (c : cell) : cell := fillna (CStr "") c.

Definition complete_rows (ys ms : list cell) : list (cell * cell) :=
  filter (fun p => match p with
                   | (CNum _, CNum _) => true
                   | _ => false
                   end) (combine ys ms).

(** Lines 164-177: the original labels of the min and max columns, with
    the notes left on the way; [None] when no candidate is found. *)
Definition detect_min_max (df : DataFrame) (df_norm : DataFrame)
           (meta_debug : MetaDebug)
  : option (option string * option string) * MetaDebug :=
  let (mn, mx) := find_annual_min_max_candidates df_norm in
  let tried := negb (truthy_opt mn) && negb (truthy_opt mx) in
  let meta_debug :=
    if tried
    then add_note "No 'annual min/max' tokens found — trying numeric fallback"
                  meta_debug
    else meta_debug in
  let (mn, mx) := if tried then fallback_numeric_pair df_norm else (mn, mx) in
  if negb (truthy_opt mn) && negb (truthy_opt mx) then
    (None,
     add_note "No candidate min/max columns found even after fallback"
              meta_debug)
  else
    let orig o := if truthy_opt o
                  then col_map_get df (or_default o "") else None in
    (Some (orig mn, orig mx), meta_debug).

(** Lines 180-188: the working copy, with the year column coerced and
    the metric column [annual_mean_temp_c] added. *)
Definition working_frame (df : DataFrame) (year_col_orig : string)
           (min_col_orig max_col_orig : option string) : result DataFrame :=
  ycol <- getitem df year_col_orig ;;
  let df_work := setitem df year_col_orig (to_numeric ycol) in
  metric <-
    (if truthy_opt min_col_orig && truthy_opt max_col_orig then
       a <- getitem df_work (or_default min_col_orig "") ;;
       b <- getitem df_work (or_default max_col_orig "") ;;
       Ok (map (fun ab => half_sum (fst ab) (snd ab))
               (combine (to_numeric a) (to_numeric b)))
     else if truthy_opt min_col_orig then
       a <- getitem df_work (or_default min_col_orig "") ;;
       Ok (to_numeric a)
     else if truthy_opt max_col_orig then
       b <- getitem df_work (or_default max_col_orig "") ;;
       Ok (to_numeric b)
     else Raise (KeyError "None")) ;;
  Ok (setitem df_work "annual_mean_temp_c" metric).

(** Lines 190-215: the window over the working copy and its mean. *)
Definition national_window (df_work : DataFrame) (year_col_orig : string)
           (min_col_orig max_col_orig : option string)
           (last_n_years : Z) (meta_debug : MetaDebug) : result National :=
  years <- getitem df_work year_col_orig ;;
  match max_int years with
  | None =>
      Ok (NoResult
            (add_note ("Year column '" ++ year_col_orig
                       ++ "' could not be coerced to numeric") meta_debug))
  | Some max_year =>
      let min_year := max_year - last_n_years + 1 in
      yj <- Analytics.col_idx df_work year_col_orig ;;
      let sel := Analytics.window_rows yj (min_year, max_year) df_work in
      if is_empty sel then
        let d := add_note ("No rows in year range "
                           ++ string_of_Z min_year ++ ".."
                           ++ string_of_Z max_year) meta_debug in
        Ok (NoResult
              (mkDebug (columns_sample d) (rows_sample d) (detection_notes d)
                       (Some (firstn 10
                                (unique (map Qtrunc (numbers years)))))))
      else
        ms <- getitem sel "annual_mean_temp_c" ;;
        ys <- getitem sel year_col_orig ;;
        avg_val <- mean_cells ms ;;
        Ok (Computed
              (mkDF ["region"; "avg_annual_mean_temp_c"]
                    [[CStr "All India"; avg_val]])
              (mkMeta (min_year, max_year) year_col_orig
                      min_col_orig max_col_orig
                      (complete_rows ys ms) meta_debug))
  end.

Definition compute_national_climate_avg (df_clim_raw : Loaded)
           (last_n_years : Z) : result National :=
  let meta_debug := mkDebug None None [] None in
  match df_clim_raw with
  | PyNone =>
      Ok (NoResult (add_note "climate loader returned None" meta_debug))
  | NotAFrame =>
      Ok (NoResult (add_note "climate loader did not return a DataFrame"
                             meta_debug))
  | Frame df =>
      if is_empty df then
        let d := add_note "climate DataFrame empty" meta_debug in
        Ok (NoResult (mkDebug (Some (columns df)) (rows_sample d)
                              (detection_notes d) (available_years_sample d)))
      else
        let meta_debug :=
          mkDebug (Some (columns df))
                  (Some (map (map fill_empty) (firstn 10 (rows df))))
                  [] None in
        let df_norm := normalize_frame df in
        let (year_col_norm, notes) := find_year df_norm in
        let meta_debug := fold_left (fun d n => add_note n d) notes meta_debug in
        match year_col_norm with
        | None => Ok (NoResult (add_note "No year-like column found" meta_debug))
        | Some year_col_norm =>
            match detect_min_max df df_norm meta_debug with
            | (None, meta_debug) => Ok (NoResult meta_debug)
            | (Some (min_col_orig, max_col_orig), meta_debug) =>
                let year_col_orig :=
                  match col_map_get df year_col_norm with
                  | Some c => c
                  | None => year_col_norm
                  end in
                df_work <- working_frame df year_col_orig
                                         min_col_orig max_col_orig ;;
                national_window df_work year_col_orig
                                min_col_orig max_col_orig
                                last_n_years meta_debug
            end
        end
  end.

End WithLib.

End QueryExecutor.

(** ** [app/loaders.py] *)

Module Loaders.

Import Text Pandas.
Local Open Scope string_scope.

Record SourceMeta : Type := mkSource {
  source_file : string;
  full_path : option string
}.

(** The data directory as the loaders see it: its path, its listing in
    [os.listdir] order, and, for each role, the reading and reshaping of a
    file that was found (lines 34-90, 106-143 and 153-170). *)
Class Files : Type := {
  data_dir : string;
  listdir : list string;
  crop_table_of : string -> result (DataFrame * SourceMeta);
  climate_table_of : string -> result (DataFrame * SourceMeta);
  yield_table_of : string -> result (DataFrame * SourceMeta)
}.

Definition num (z : Z) : cell := CNum (inject_Z z).

Definition sample_crop_production : DataFrame :=
  mkDF ["year"; "state"; "district"; "crop"; "production_tonnes"]
       [[num 2019; CStr "StateA"; CStr "D1"; CStr "Wheat"; num 1300];
        [num 2019; CStr "StateB"; CStr "D2"; CStr "Rice"; num 2000]].

Definition sample_climate : DataFrame :=
  mkDF ["year"; "annual_mean_temp_c"]
       [[num 2018; CNum (265 # 10)];
        [num 2019; CNum (268 # 10)]].

Section WithFiles.
Context {files : Files}.

Definition find_file_contains (substr : string) : option string :=
  let substr := lower substr in
  match find (fun fname => contains substr (lower fname)) listdir with
  | Some fname => Some (data_dir ++ "/" ++ fname)
  | None => None
  end.

Definition load_crop_production : result (DataFrame * SourceMeta) :=
  match find_file_contains "crop-wise details of production" with
  | None =>
      Ok (sample_crop_production, mkSource "sample_crop_production" None)
  | Some path => crop_table_of path
  end.

Definition load_climate_temp_series : result (DataFrame * SourceMeta) :=
  let path :=
    match find_file_contains "seasonal and annual minmax" with
    | Some p => Some p
    | None => find_file_contains "year-wise climate risk"
    end in
  match path with
  | None => Ok (sample_climate, mkSource "sample_climate" None)
  | Some path => climate_table_of path
  end.

Definition load_yield_all_india : result (DataFrame * SourceMeta) :=
  match find_file_contains "all india level yield" with
  | None => Ok (empty_frame, mkSource "sample_yield" None)
  | Some path => yield_table_of path
  end.

End WithFiles.

End Loaders.

(** ** [app/query_executor.py]: reading the question *)

Module Questions.

Import Text Pandas.
Local Open Scope string_scope.

(** The class [\d] on code points below 256. *)
Definition is_digit (c : ascii) : bool :=
  let n := N_of_ascii c in ((48 <=? n) && (n <=? 57))%N.

(** The longest prefix of characters of a class, and what follows it. *)
Fixpoint span (cls : ascii -> bool) (s : list ascii)
  : list ascii * list ascii :=
  match s with
  | [] => ([], [])
  | c :: t => if cls c then let (a, r) := span cls t in (c :: a, r)
              else ([], s)
  end.

(** [cls+] at the start of a text: the run, which is not empty, and the
    rest.  In the patterns below the class of a run and what must follow
    it exclude each other, so the greedy run is the only way to match. *)
Definition run1 (cls : ascii -> bool) (s : list ascii)
  : option (list ascii * list ascii) :=
  match span cls s with
  | ([], _) => None
  | (a, r) => Some (a, r)
  end.

(** A literal at the start of a text: what follows it. *)
Fixpoint after_literal (lit s : list ascii) : option (list ascii) :=
  match lit, s with
  | [], _ => Some s
  | a :: lit', c :: s' => if Ascii.eqb a c then after_literal lit' s' else None
  | _ :: _, [] => None
  end.

(** [re.search]: the match at the first position, from the left, where
    the pattern matches. *)
Fixpoint re_search {A : Type} (m : list ascii -> option A) (s : list ascii)
  : option A :=
  match m s with
  | Some x => Some x
  | None => match s with
            | [] => None
            | _ :: t => re_search m t
            end
  end.

Definition obind {A B : Type} (m : option A) (k : A -> option B) : option B :=
  match m with
  | Some a => k a
  | None => None
  end.

(** Group 1 of [last\s+(\d+)\s+(?:years|year)] matched at the start of a
    text. *)
Definition match_last_n (s : list ascii) : option (list ascii) :=
  obind (after_literal (list_ascii_of_string "last") s) (fun r =>
  obind (run1 is_space r) (fun ws =>
  obind (run1 is_digit (snd ws)) (fun ds =>
  obind (run1 is_space (snd ds)) (fun ws' =>
  obind (after_literal (list_ascii_of_string "year") (snd ws')) (fun _ =>
  Some (fst ds)))))).

(** Group 1 of [top\s+(\d+)] matched at the start of a text. *)
Definition match_top_m (s : list ascii) : option (list ascii) :=
  obind (after_literal (list_ascii_of_string "top") s) (fun r =>
  obind (run1 is_space r) (fun ws =>
  obind (run1 is_digit (snd ws)) (fun ds =>
  Some (fst ds)))).

(** The greatest number of digits that [int] converts
    ([sys.int_max_str_digits]). *)
Definition max_str_digits : nat := 4300.

(** [int(text)] for the text of a match of [\d+]: a numeral of more than
    4300 digits is refused, leading zeros included; any other text is not
    read. *)
Definition int_of_digits (ds : list ascii) : result Z :=
  if (max_str_digits <? List.length ds)%nat then
    Raise (ValueError
             ("Exceeds the limit (4300 digits) for integer string conversion: "
              ++ "value has "
              ++ QueryExecutor.string_of_Z (Z.of_nat (List.length ds))
              ++ " digits; use sys.set_int_max_str_digits() "
              ++ "to increase the limit"))
  else
    match ds, NilEmpty.uint_of_string (string_of_list_ascii ds) with
    | _ :: _, Some d => Ok (Z.of_N (N.of_uint d))
    | _, _ => Raise (ValueError "invalid literal for int() with base 10")
    end.

Record Parsed : Type := mkParsed {
  raw : string;
  N : Z;
  M : Z
}.

(** [parse_question]; [None] is the Python value [None]. *)
Definition parse_question (question : option string) : result Parsed :=
  let raw := strip (match question with
                    | Some q => q
                    | None => ""
                    end) in
  let q := list_ascii_of_string (lower raw) in
  N <- match re_search match_last_n q with
       | Some ds => int_of_digits ds
       | None => Ok 5%Z
       end ;;
  M <- match re_search match_top_m q with
       | Some ds => int_of_digits ds
       | None => Ok 3%Z
       end ;;
  Ok (mkParsed raw N M).

End Questions.

(** ** [scripts/diagnose_data.py] *)

Module Diagnose.

Import Text Pandas.
Local Open Scope string_scope.

(** An entry of the list that [detect_year_columns] returns. *)
Record YearColumn : Type := mkYearColumn {
  col : string;
  min : Z;
  max : Z
}.

Section WithLib.
Context {lib : Lib}.

(** One turn of the loop of [detect_year_columns]: the entry for the
    label [c], if any.  A label carried by several columns selects a
    DataFrame, on which [pd.to_numeric] raises; the loop passes over it. *)
Definition year_column_entry (df : DataFrame) (c : string)
  : option YearColumn :=
  match QueryExecutor.getitem_series df c with
  | None => None
  | Some s =>
      let nums := numbers (to_numeric s) in
      if (3 <=? List.length nums)%nat then
        match QueryExecutor.Qmin_list nums, QueryExecutor.Qmax_list nums with
        | Some mn, Some mx =>
            if Qle_bool 1800 mn && Qle_bool mx 2100
            then Some (mkYearColumn c (Qtrunc mn) (Qtrunc mx))
            else None
        | _, _ => None
        end
      else None
  end.

Fixpoint year_column_entries (df : DataFrame) (cs : list string)
  : list YearColumn :=
  match cs with
  | [] => []
  | c :: t =>
      match year_column_entry df c with
      | Some y => y :: year_column_entries df t
      | None => year_column_entries df t
      end
  end.

(** [detect_year_columns]; [None] is the Python value [None]. *)
Definition detect_year_columns (df : option DataFrame) : list YearColumn :=
  match df with
  | None => []
  | Some df => year_column_entries df (columns df)
  end.

End WithLib.

End Diagnose.

(** ** [app/loaders.py]: years read off labels *)

Module YearLabels.

Import Text Pandas Questions.
Local Open Scope string_scope.
Local Open Scope char_scope.

(** [\d{4}] at the start of a text: the four digits and the rest. *)
Definition four_digits (s : list ascii) : option (list ascii * list ascii) :=
  match s with
  | a :: b :: c :: d :: r =>
      if is_digit a && is_digit b && is_digit c && is_digit d
      then Some ([a; b; c; d], r)
      else None
  | _ => None
  end.

(** Group 1 of [(\d{4})[-–](\d{2})] matched at the start of a text.  The
    en dash lies outside the code points below 256. *)
Definition match_year_span (s : list ascii) : option (list ascii) :=
  match four_digits s with
  | Some (y, "-" :: e :: f :: _) =>
      if is_digit e && is_digit f then Some y else None
  | _ => None
  end.

(** Group 1 of [(\d{4})] matched at the start of a text. *)
Definition match_year (s : list ascii) : option (list ascii) :=
  option_map fst (four_digits s).

(** [parse_year] of [load_crop_production]: the start year of a span
    such as 2016-17, else the first four digits, else [None]. *)
Definition parse_year (s : string) : result (option Z) :=
  let l := list_ascii_of_string s in
  match re_search match_year_span l with
  | Some ds => y <- int_of_digits ds ;; Ok (Some y)
  | None =>
      match re_search match_year l with
      | Some ds => y <- int_of_digits ds ;; Ok (Some y)
      | None => Ok None
      end
  end.

Section WithLib.
Context {lib : Lib}.

(** [yr_to_int] of [load_yield_all_india], on one cell of the [Year]
    column: the first four digits of [str(s)]. *)
Definition yr_to_int (s : cell) : result (option Z) :=
  match re_search match_year (list_ascii_of_string (Analytics.astype_str s)) with
  | Some ds => y <- int_of_digits ds ;; Ok (Some y)
  | None => Ok None
  end.

End WithLib.

End YearLabels.

(** ** [app/query_executor.py]: the top crops of the comparison *)

Module Compare.

Import Text Pandas Analytics.
Local Open Scope string_scope.
Local Open Scope Z_scope.

(** [d[k] = v] on a dictionary kept in insertion order: a key that is
    already present keeps its place and takes the new value. *)
Fixpoint dict_set (k v : string) (d : list (string * string))
  : list (string * string) :=
  match d with
  | [] => [(k, v)]
  | (k', v') :: t =>
      if String.eqb k k' then (k, v) :: t else (k', v') :: dict_set k v t
  end.

(** [{c.lower(): c for c in df.columns}] *)
Definition cols_l (cols : list string) : list (string * string) :=
  fold_left (fun d c => dict_set (lower c) c d) cols [].

(** [next((orig for low, orig in cols_l.items() if p(low)), None)] *)
Definition next_orig (p : string -> bool) (d : list (string * string))
  : option string :=
  option_map snd (find (fun kv => p (fst kv)) d).

(** A record of [to_dict(orient="records")]: the cells of a row under
    their labels. *)
Definition record : Type := list (string * cell).

Definition to_records (df : DataFrame) : list record :=
  map (combine (columns df)) (rows df).

(** [df[cols].sum(axis=1)] on one row: missing values are skipped. *)
Definition row_sum (js : list nat) (r : list cell) : cell :=
  CNum (sum_cells (map (fun j => cell_at j r) js)).

Section WithLib.
Context {lib : Lib}.

(** Lines 252-257: the copy with the year column coerced and, when it
    holds a number, the rows of the trailing window. *)
Definition crop_window (df_crop : DataFrame) (year_col : option string)
           (N : Z) : result DataFrame :=
  if truthy_opt year_col then
    let yc := or_default year_col "" in
    yj <- col_idx df_crop yc ;;
    let ycol := to_numeric (column df_crop yj) in
    let dff := setitem df_crop yc ycol in
    match max_int ycol with
    | Some maxy => Ok (window_rows yj (maxy - N + 1, maxy) dff)
    | None => Ok dff
    end
  else Ok df_crop.

(** Lines 247-279, the body of the [try] for a DataFrame: the records of
    the top crops and the sample rows. *)
Definition top_crops_try (df_crop : DataFrame) (N M : Z)
  : result (list record * list record) :=
  let d := cols_l (columns df_crop) in
  let prod_col :=
    next_orig (fun low => contains "production" low || contains "quantity" low
                          || contains "tonne" low) d in
  let crop_col :=
    next_orig (fun low => mem low ["crop"; "crops"; "commodity"; "crops name";
                                   "cropsname"; "crops "]) d in
  let year_col :=
    next_orig (fun low => mem low ["year"; "season"; "financial_year";
                                   "year "]) d in
  dff <- crop_window df_crop year_col N ;;
  if truthy_opt prod_col && truthy_opt crop_col then
    let pc := or_default prod_col "" in
    let cc := or_default crop_col "" in
    pj <- col_idx dff pc ;;
    let dff := setitem dff pc
                       (map (fillna (CNum 0)) (to_numeric (column dff pj))) in
    cj <- col_idx dff cc ;;
    let agg := head M (sort_values_desc (groupby_sum cj pj (rows dff))) in
    Ok (to_records (mkDF ["crop"; "production_tonnes"] (map pair_row agg)),
        to_records (mkDF (columns dff) (head 8 (rows dff))))
  else if mem "Crops" (columns df_crop) then
    match numeric_columns df_crop with
    | [] => Ok ([], [])
    | numeric_cols =>
        js <- mapM (col_idx df_crop) numeric_cols ;;
        let df_sum := setitem df_crop "production_tonnes"
                              (map (row_sum js) (rows df_crop)) in
        cj <- col_idx df_sum "Crops" ;;
        pj <- col_idx df_sum "production_tonnes" ;;
        let agg :=
          head M (sort_values_desc (groupby_sum cj pj (rows df_sum))) in
        Ok (to_records (mkDF ["crop"; "production_tonnes"] (map pair_row agg)),
            to_records (mkDF (columns df_sum) (head 8 (rows df_sum))))
    end
  else Ok ([], []).

(** Lines 241-283 of [exec_compare_rainfall_and_top_crops]: the records
    under [top_per_state["All India"]] and [crop_sample_rows]; whatever
    the [try] raises leaves both empty. *)
Definition top_crops_all_india (df_crop : QueryExecutor.Loaded) (N M : Z)
  : list record * list record :=
  match df_crop with
  | QueryExecutor.Frame df =>
      match top_crops_try df N M with
      | Ok r => r
      | Raise _ => ([], [])
      end
  | _ => ([], [])
  end.

End WithLib.

End Compare.

(** ** [app/query_executor.py]: the states listed by [handle_question] *)

Module States.

Import Text Pandas.
Local Open Scope string_scope.

(** [Series.unique()] on texts: the first occurrence of every value. *)
Fixpoint unique_text (l : list string) : list string :=
  match l with
  | [] => []
  | h :: t => h :: filter (fun s => negb (String.eqb s h)) (unique_text t)
  end.

(** [dropna()]: the cells that are not missing. *)
Definition dropna (col : list cell) : list cell :=
  filter (fun c => match c with
                   | CNaN => false
                   | CNaT => false
                   | _ => true
                   end) col.

Section WithLib.
Context {lib : Lib}.

(** Lines 357-368 of [handle_question]: the states of the first column
    whose lower-cased label is [state]; an exception, or no state at all,
    leaves the single entry [All India]. *)
Definition list_states (df_crop : QueryExecutor.Loaded) : list string :=
  let states :=
    match df_crop with
    | QueryExecutor.Frame df =>
        match find (fun c => String.eqb (lower c) "state") (columns df) with
        | Some c =>
            match QueryExecutor.getitem_series df c with
            | Some col => unique_text (map Analytics.astype_str (dropna col))
            | None => []
            end
        | None => []
        end
    | _ => []
    end in
  match states with
  | [] => ["All India"]
  | _ => states
  end.

(** The answer of the [list states] branch. *)
Definition list_states_answer (df_crop : QueryExecutor.Loaded) : string :=
  "Detected states from local data: "
  ++ String.concat ", " (list_states df_crop).

End WithLib.

End States.

(** ** [app/loaders.py]: the climate table of a file that was read *)

Module ClimateLoader.

Import Text Pandas.
Local Open Scope string_scope.

(** [os.path.basename] for paths separated by [/]. *)
Fixpoint basename_l (s : list ascii) : list ascii :=
  match s with
  | [] => []
  | c :: t => if existsb (Ascii.eqb "/"%char) t then basename_l t
              else if Ascii.eqb c "/"%char then t else s
  end.

Definition basename : string -> string := lift basename_l.

(** [raw.columns = [c.strip() for c in raw.columns]] *)
Definition strip_columns (raw : DataFrame) : DataFrame :=
  mkDF (map strip (columns raw)) (rows raw).

(** [dropna(subset=[...])] on the rows, for the column of index [j]. *)
Definition dropna_rows (j : nat) (rs : list (list cell)) : list (list cell) :=
  filter (fun r => match cell_at j r with
                   | CNaN => false
                   | CNaT => false
                   | _ => true
                   end) rs.

(** [astype(int)] on a coerced column: a missing value cannot be cast. *)
Definition astype_int (col : list cell) : result (list cell) :=
  mapM (fun c => match c with
                 | CNum q => Ok (CNum (inject_Z (Qtrunc q)))
                 | _ => Raise (ValueError
                          "Cannot convert non-finite values (NA or inf) to integer")
                 end) col.

Section WithLib.
Context {lib : Lib}.

(** Lines 110-124: the year column, by its label or else the first
    column with more than three numbers. *)
Definition find_year_col (raw : DataFrame) : option string :=
  match find (fun cand => mem cand (columns raw)) ["year"; "YEAR"; "Year"] with
  | Some cand => Some cand
  | None =>
      find (fun c => match QueryExecutor.getitem_series raw c with
                     | Some col =>
                         (3 <? List.length (numbers (to_numeric col)))%nat
                     | None => false
                     end) (columns raw)
  end.

(** Lines 107-143 of [load_climate_temp_series], for the table [raw0] that
    was read from [path]. *)
Definition climate_table (raw0 : DataFrame) (path : string)
  : result (DataFrame * Loaders.SourceMeta) :=
  let raw := strip_columns raw0 in
  let year_col := find_year_col raw in
  let min_col :=
    find (fun c => contains "annual - min" (lower c)) (columns raw) in
  let max_col :=
    find (fun c => contains "annual - max" (lower c)) (columns raw) in
  let meta := Loaders.mkSource (basename path) (Some path) in
  if truthy_opt year_col && (truthy_opt min_col || truthy_opt max_col) then
    metric <-
      (if truthy_opt min_col && truthy_opt max_col then
         a <- getitem raw (or_default min_col "") ;;
         b <- getitem raw (or_default max_col "") ;;
         Ok (map (fun ab => QueryExecutor.half_sum (fst ab) (snd ab))
                 (combine (to_numeric a) (to_numeric b)))
       else
         a <- getitem raw (if truthy_opt min_col then or_default min_col ""
                           else or_default max_col "") ;;
         Ok (to_numeric a)) ;;
    let raw := setitem raw "annual_mean_temp_c" metric in
    let renamed := Analytics.rename_col (or_default year_col "") "year" raw in
    yj <- Analytics.col_idx renamed "year" ;;
    mj <- Analytics.col_idx renamed "annual_mean_temp_c" ;;
    let out :=
      dropna_rows 0 (map (fun r => [cell_at yj r; cell_at mj r])
                         (rows renamed)) in
    years <- astype_int (to_numeric (map (cell_at 0) out)) ;;
    Ok (mkDF ["year"; "annual_mean_temp_c"]
             (map (fun yr => [fst yr; cell_at 1 (snd yr)]) (combine years out)),
        meta)
  else Ok (raw, meta).

End WithLib.

End ClimateLoader.

(** ** One concrete choice of the library behaviour, to run the model *)

Module Reference.

Import Text Pandas.
Local Open Scope string_scope.

Definition digit_of (c : ascii) : option Z :=
  let n := Z.of_N (N_of_ascii c) in
  if ((48 <=? n) && (n <=? 57))%Z then Some (n - 48)%Z else None.

Fixpoint digits_value (acc : Z) (s : list ascii) : option Z :=
  match s with
  | [] => Some acc
  | c :: t => match digit_of c with
              | Some d => digits_value (10 * acc + d)%Z t
              | None => None
              end
  end.

(** Text read as a number: an optional minus sign and decimal digits,
    surrounding whitespace ignored. *)
Definition parse_integer (s : string) : option Q :=
  match strip_l (list_ascii_of_string s) with
  | [] => None
  | "-"%char :: (_ :: _) as t =>
      option_map (fun z => inject_Z (- z)) (digits_value 0 t)
  | t => option_map inject_Z (digits_value 0 t)
  end.

Definition print_float (q : Q) : string :=
  QueryExecutor.string_of_Z (Qnum q) ++ "/"
  ++ QueryExecutor.string_of_Z (Zpos (Qden q)).

(** A stable descending sort: equal sums keep the order they come in. *)
Fixpoint insert_desc (x : cell * Q) (l : list (cell * Q)) : list (cell * Q) :=
  match l with
  | [] => [x]
  | y :: t => if Qle_bool (snd y) (snd x) then x :: l
              else y :: insert_desc x t
  end.

Definition stable_desc (l : list (cell * Q)) : list (cell * Q) :=
  fold_right insert_desc [] l.

(** A descending sort that is not stable: a stable ascending sort read
    backwards, so that equal sums come out in reverse order. *)
Fixpoint insert_asc (x : cell * Q) (l : list (cell * Q)) : list (cell * Q) :=
  match l with
  | [] => [x]
  | y :: t => if Qle_bool (snd x) (snd y) then x :: l
              else y :: insert_asc x t
  end.

Definition reversed_asc (l : list (cell * Q)) : list (cell * Q) :=
  rev (fold_right insert_asc [] l).

(** A stand-in for [Series.corr]: NaN below two pairs or without variance,
    otherwise the signed square of the coefficient (the coefficient itself
    is not rational in general). *)
Definition signed_r2 (ps : list (Q * Q)) : option Q :=
  let n := inject_Z (Z.of_nat (List.length ps)) in
  let sx := Qsum (map fst ps) in
  let sy := Qsum (map snd ps) in
  let sxy := Qsum (map (fun p => fst p * snd p)%Q ps) in
  let sxx := Qsum (map (fun p => fst p * fst p)%Q ps) in
  let syy := Qsum (map (fun p => snd p * snd p)%Q ps) in
  let cov := (n * sxy - sx * sy)%Q in
  let vx := (n * sxx - sx * sx)%Q in
  let vy := (n * syy - sy * sy)%Q in
  if (List.length ps <? 2)%nat || Qeq_bool (vx * vy) 0 then None
  else Some (Qred ((if Qle_bool 0 cov then 1 else -1) * (cov * cov)
                   / (vx * vy))%Q).

(** The mean in exact arithmetic. *)
Definition exact_mean (ns : list Q) : Q :=
  Qred (Qsum ns / inject_Z (Z.of_nat (List.length ns))).

Definition stable_lib : Lib :=
  Build_Lib parse_integer print_float stable_desc signed_r2
            exact_mean Analytics.lstsq_line.

Definition unstable_lib : Lib :=
  Build_Lib parse_integer print_float reversed_asc signed_r2
            exact_mean Analytics.lstsq_line.

(** An empty data directory. *)
Definition no_files : Loaders.Files :=
  Loaders.Build_Files "data" []
    (fun _ => Raise (ValueError "no file"))
    (fun _ => Raise (ValueError "no file"))
    (fun _ => Raise (ValueError "no file")).

End Reference.

(** ** Tables used to run the model *)

Module Examples.

Import Pandas.
Local Open Scope string_scope.

Definition num (z : Z) : cell := CNum (inject_Z z).

(** No column for any of the roles year, region, crop or metric. *)
Definition no_roles : DataFrame :=
  mkDF ["alpha"; "beta"] [[CStr "x"; CStr "y"]; [CStr "u"; CStr "v"]].

(** A climate table with a year column and three temperature-like columns
    that carry no min/max token. *)
Definition three_candidates : DataFrame :=
  mkDF ["Year"; "a"; "b"; "c"]
       [[num 2000; num 10; num 20; num 30];
        [num 2001; num 10; num 20; num 30];
        [num 2002; num 10; num 20; num 30]].

(** Two years of production of one crop in one state. *)
Definition wheat_two_years : DataFrame :=
  mkDF ["year"; "state"; "crop"; "production_tonnes"]
       [[num 2018; CStr "StateA"; CStr "Wheat"; num 100];
        [num 2019; CStr "StateA"; CStr "Wheat"; num 120]].

(** One year of production of one crop. *)
Definition wheat_one_year : DataFrame :=
  mkDF ["year"; "state"; "crop"; "production_tonnes"]
       [[num 2019; CStr "StateA"; CStr "Wheat"; num 70];
        [num 2019; CStr "StateB"; CStr "Wheat"; num 30]].

(** The two points of the trend example. *)
Definition two_points : list (Q * Q) :=
  [(inject_Z 2018, inject_Z 100); (inject_Z 2019, inject_Z 120)].

(** Two years of temperature for the same state. *)
Definition climate_two_years : DataFrame :=
  mkDF ["year"; "state"; "annual_mean_temp_c"]
       [[num 2018; CStr "StateA"; num 25];
        [num 2019; CStr "StateA"; num 27]].

(** The same climate table as a CSV reader leaves it when one year cell is
    not a number: the year column holds text. *)
Definition climate_text_years : DataFrame :=
  mkDF ["year"; "state"; "annual_mean_temp_c"]
       [[CStr "2018"; CStr "StateA"; num 25];
        [CStr "2019"; CStr "StateA"; num 27];
        [CStr "n/a"; CStr "StateA"; num 26]].

(** A production table without a crop column. *)
Definition no_crop_column : DataFrame :=
  mkDF ["year"; "state"; "production_tonnes"]
       [[num 2018; CStr "StateA"; num 100];
        [num 2019; CStr "StateA"; num 120]].

(** Two crops with the same total. *)
Definition tied_crops : DataFrame :=
  mkDF ["year"; "state"; "crop"; "production_tonnes"]
       [[num 2019; CStr "StateA"; CStr "Wheat"; num 10];
        [num 2019; CStr "StateA"; CStr "Rice"; num 10]].

(** The same two crops with the rows in the other order. *)
Definition tied_crops_swapped : DataFrame :=
  mkDF ["year"; "state"; "crop"; "production_tonnes"]
       [[num 2019; CStr "StateA"; CStr "Rice"; num 10];
        [num 2019; CStr "StateA"; CStr "Wheat"; num 10]].

(** Production tables whose year column is labelled [Year]. *)
Definition wheat_capital_year : DataFrame :=
  mkDF ["Year"; "state"; "crop"; "production_tonnes"]
       [[num 2018; CStr "StateA"; CStr "Wheat"; num 100];
        [num 2019; CStr "StateA"; CStr "Wheat"; num 120]].

Definition wheat_capital_one_year : DataFrame :=
  mkDF ["Year"; "state"; "crop"; "production_tonnes"]
       [[num 2019; CStr "StateA"; CStr "Wheat"; num 70]].

(** A climate table with annual minimum and maximum temperatures. *)
Definition min_max_table : DataFrame :=
  mkDF ["Year"; "Annual - Min"; "Annual - Max"]
       [[num 2015; num 19; num 31];
        [num 2016; num 20; num 32];
        [num 2017; num 21; num 33]].

(** A crop table without a production column. *)
Definition crops_without_production : DataFrame :=
  mkDF ["year"; "state"; "crop"]
       [[num 2019; CStr "StateA"; CStr "Wheat"];
        [num 2019; CStr "StateA"; CStr "Rice"]].

(** The same table as a CSV reader leaves it when a footer line follows
    the data: the year column holds text. *)
Definition min_max_with_footer : DataFrame :=
  mkDF ["Year"; "Annual - Min"; "Annual - Max"]
       [[CStr "2015"; num 19; num 31];
        [CStr "2016"; num 20; num 32];
        [CStr "Source: IMD"; CNaN; CNaN]].

(** Climate tables with a column whose label is one blank: it normalizes
    to the empty label. *)
Definition blank_label : DataFrame :=
  mkDF ["Year"; " "]
       [[num 2000; num 20]; [num 2001; num 20]; [num 2002; num 20]].

Definition blank_label_and_b : DataFrame :=
  mkDF ["Year"; " "; "b"]
       [[num 2000; num 10; num 30];
        [num 2001; num 10; num 30];
        [num 2002; num 10; num 30]].

End Examples.

(** ** Notions used to state the properties *)

Module Props.

Import Text Pandas.
Local Open Scope char_scope.

(** A character that [norm] leaves alone: outside the punctuation class,
    a plain space if it is whitespace, and already lowercase. *)
Definition clean_char (c : ascii) : bool :=
  negb (is_punct c) && (negb (is_space c) || Ascii.eqb c " ")
  && Ascii.eqb (lower_char c) c.

Definition starts_space (s : list ascii) : bool :=
  match s with
  | c :: _ => is_space c
  | [] => false
  end.

Fixpoint single_spaced (s : list ascii) : bool :=
  match s with
  | [] => true
  | c :: t => negb (is_space c && starts_space t) && single_spaced t
  end.

(** The shape of every normalized label, up to one space at either end. *)
Definition normal (s : list ascii) : bool :=
  forallb clean_char s && single_spaced s.

(** A row whose cell in column [yj] is a number of the interval
    [[lo, hi]]. *)
Definition year_within (yj : nat) (lo hi : Z) (r : list cell) : Prop :=
  exists q, cell_at yj r = CNum q /\ (inject_Z lo <= q <= inject_Z hi)%Q.

(** [Y] is the greatest year of a coerced column, each number truncated
    to an integer. *)
Definition is_max_year (col : list cell) (Y : Z) : Prop :=
  (exists q, In (CNum q) col /\ Qtrunc q = Y)
  /\ forall q, In (CNum q) col -> (Qtrunc q <= Y)%Z.

(** The error of the line [m * x + c] at a point and over a series, and
    the condition under which the least-squares line is unique. *)
Definition residual (m c : Q) (p : Q * Q) : Q := (snd p - (m * fst p + c))%Q.

Definition sse (m c : Q) (ps : list (Q * Q)) : Q :=
  Qsum (map (fun p => residual m c p * residual m c p)%Q ps).

Definition full_rank (ps : list (Q * Q)) : Prop :=
  ~ (inject_Z (Z.of_nat (List.length ps))
     * Qsum (map (fun p => fst p * fst p) ps)
     - Qsum (map fst ps) * Qsum (map fst ps) == 0)%Q.

(** Ascending order of the candidate means. *)
Definition by_mean (a b : string * Q) : Prop := (snd a <= snd b)%Q.

(** A label as [groupby] lists it, and the order of the labels. *)
Definition canonical (k : cell) : Prop := exists c, key_of c = Some k.

Definition key_lt (a b : cell) : Prop := key_ltb a b = true.

(** Two tables with the same labels whose rows differ only in their order. *)
Definition same_rows (df df' : DataFrame) : Prop :=
  columns df' = columns df /\ Permutation (rows df') (rows df).

(** What a column assignment computed row by row does to one row. *)
Definition set_row (o : option nat) (f : list cell -> cell) (r : list cell)
  : list cell :=
  match o with
  | Some j => replace_nth j (f r) r
  | None => (r ++ [f r])%list
  end.

(** The cell function that [pd.to_numeric] applies to a column. *)
Definition coercion {lib : Lib} (col : list cell) : cell -> cell :=
  if forallb is_nat_cell col then (fun _ => CNum iNaT) else to_numeric_cell.

(** Descending order of the summed column. *)
Definition descending (a b : cell * Q) : Prop := (snd b <= snd a)%Q.

(** The decimal numeral of a natural number. *)
Definition numeral (n : N) : string := NilEmpty.string_of_uint (N.to_uint n).

(** The question "top M crops of the last N years". *)
Definition top_last (m n : N) : string :=
  ("top " ++ numeral m ++ " crops of the last " ++ numeral n ++ " years")%string.

(** A table whose rows all have one cell per column. *)
Definition rectangular (df : DataFrame) : Prop :=
  Forall (fun r => List.length r = List.length (columns df)) (rows df).

(** A number without fractional part. *)
Definition whole (q : Q) : Prop := Qden (Qred q) = 1%positive.

(** A table on which float64 sums are exact in whatever order they are
    taken: it holds no timestamp, and its cells, read as numbers, are
    integers whose absolute values add up to less than 2^53. *)
Definition exact_sums {lib : Lib} (df : DataFrame) : Prop :=
  let cells := List.concat (rows df) in
  ~ In CNaT cells
  /\ Forall whole (numbers (map to_numeric_cell cells))
  /\ (Qsum (map Qabs (numbers (map to_numeric_cell cells)))
      < inject_Z (2 ^ 53))%Q.

(** The two notes that the numeric fallback leaves. *)
Definition trying_note : string :=
  "No 'annual min/max' tokens found — trying numeric fallback".

Definition failing_note : string :=
  "No candidate min/max columns found even after fallback".

(** The metric of two columns: their mean, row by row. *)
Definition mean_of_two {lib : Lib} (a b : list cell) : list cell :=
  map (fun ab => QueryExecutor.half_sum (fst ab) (snd ab))
      (combine (to_numeric a) (to_numeric b)).

(** The row of the yearly series for a point (year, sum), and the number
    that labels a group of a numeric column. *)
Definition point_row (p : Q * Q) : list cell := [CNum (fst p); CNum (snd p)].

Definition key_number (k : cell) : Q :=
  match k with
  | CNum q => q
  | _ => 0%Q
  end.

End Props.

(** * Properties *)

(** Case analysis on the outermost test or monadic step of the goal. *)
Ltac case_if :=
  match goal with
  | |- context [if ?c then _ else _] => destruct c eqn:?
  end.

Ltac case_bind :=
  match goal with
  | |- context [Pandas.bind ?m _] => destruct m eqn:?; cbn [Pandas.bind]
  end.

(** ** The normalizer *)

Section NormFacts.

Import Text Props.
Local Open Scope char_scope.

Lemma lower_char_clean (c : ascii) :
  is_punct c = false -> (is_space c = true -> c = " ") ->
  clean_char (lower_char c) = true.
Proof.
  intros Hp Hs. unfold clean_char.
  destruct (is_space c) eqn:E.
  - rewrite (Hs eq_refl). reflexivity.
  - revert Hp E.
    destruct c as [[] [] [] [] [] [] [] []]; vm_compute; congruence.
Qed.

Lemma is_space_lower (c : ascii) : is_space (lower_char c) = is_space c.
Proof. destruct c as [[] [] [] [] [] [] [] []]; reflexivity. Qed.

Lemma sub_runs_restart (cls : ascii -> bool) (s : list ascii) :
  match s with c :: _ => cls c = false | [] => True end ->
  sub_runs cls true s = sub_runs cls false s.
Proof.
  destruct s as [|c t]; simpl; [reflexivity|].
  intros ->. reflexivity.
Qed.

Lemma sub_runs_id (cls : ascii -> bool) (b : bool) (s : list ascii) :
  forallb (fun c => negb (cls c)) s = true -> sub_runs cls b s = s.
Proof.
  revert b. induction s as [|c t IH]; intros b H; simpl in *; [reflexivity|].
  apply andb_true_iff in H as [Hc Ht].
  destruct (cls c); [discriminate|]. now rewrite IH.
Qed.

Lemma sub_punct_no_punct (b : bool) (s : list ascii) :
  forallb (fun c => negb (is_punct c)) (sub_runs is_punct b s) = true.
Proof.
  revert b. induction s as [|c t IH]; intros b; simpl; [reflexivity|].
  destruct (is_punct c) eqn:E.
  - destruct b; simpl; now rewrite ?IH.
  - simpl. now rewrite E, IH.
Qed.

Lemma sub_space_no_punct (b : bool) (s : list ascii) :
  forallb (fun c => negb (is_punct c)) s = true ->
  forallb (fun c => negb (is_punct c)) (sub_runs is_space b s) = true.
Proof.
  revert b. induction s as [|c t IH]; intros b H; simpl in *; [reflexivity|].
  apply andb_true_iff in H as [Hc Ht].
  destruct (is_space c).
  - destruct b; simpl; now rewrite ?IH.
  - simpl. now rewrite Hc, IH.
Qed.

Lemma sub_space_plain (b : bool) (s : list ascii) :
  forallb (fun c => negb (is_space c) || Ascii.eqb c " ")
          (sub_runs is_space b s) = true.
Proof.
  revert b. induction s as [|c t IH]; intros b; simpl; [reflexivity|].
  destruct (is_space c) eqn:E.
  - destruct b; simpl; now rewrite ?IH.
  - simpl. now rewrite E, IH.
Qed.

Lemma sub_space_true_start (s : list ascii) :
  starts_space (sub_runs is_space true s) = false.
Proof.
  induction s as [|c t IH]; simpl; [reflexivity|].
  destruct (is_space c) eqn:E; [exact IH|]. simpl. exact E.
Qed.

Lemma sub_space_single (b : bool) (s : list ascii) :
  single_spaced (sub_runs is_space b s) = true.
Proof.
  revert b. induction s as [|c t IH]; intros b; simpl; [reflexivity|].
  destruct (is_space c) eqn:E.
  - destruct b; [apply IH|].
    simpl. rewrite sub_space_true_start, IH. reflexivity.
  - simpl. rewrite E, IH. reflexivity.
Qed.

Lemma starts_space_lower (s : list ascii) :
  starts_space (lower_l s) = starts_space s.
Proof. destruct s; simpl; [reflexivity | apply is_space_lower]. Qed.

Lemma single_spaced_lower (s : list ascii) :
  single_spaced (lower_l s) = single_spaced s.
Proof.
  induction s as [|c t IH]; simpl; [reflexivity|].
  fold (lower_l t). now rewrite is_space_lower, starts_space_lower, IH.
Qed.

Lemma forallb_and (A : Type) (p q : A -> bool) (l : list A) :
  forallb p l = true -> forallb q l = true ->
  forallb (fun a => p a && q a) l = true.
Proof.
  induction l as [|a t IH]; simpl; [reflexivity|].
  intros H1 H2.
  apply andb_true_iff in H1 as [-> H1], H2 as [-> H2]. now apply IH.
Qed.

Lemma norm_l_normal (x : list ascii) : normal (norm_l x) = true.
Proof.
  unfold normal, norm_l, re_sub_runs.
  set (y := sub_runs is_space false _).
  assert (Hp : forallb (fun c => negb (is_punct c)) y = true)
    by (apply sub_space_no_punct, sub_punct_no_punct).
  assert (Hs : forallb (fun c => negb (is_space c) || Ascii.eqb c " ") y = true)
    by apply sub_space_plain.
  rewrite single_spaced_lower. unfold y at 2. rewrite sub_space_single.
  rewrite andb_true_r. unfold lower_l.
  pose proof (forallb_and _ _ _ Hp Hs) as H.
  rewrite forallb_forall in H |- *. intros c' Hc.
  apply in_map_iff in Hc as [c [<- Hc]]. specialize (H c Hc).
  apply andb_true_iff in H as [H1 H2].
  apply lower_char_clean.
  - now apply negb_true_iff.
  - intros E. rewrite E in H2. simpl in H2. now apply Ascii.eqb_eq.
Qed.

Lemma lstrip_start (s : list ascii) : starts_space (lstrip s) = false.
Proof.
  induction s as [|c t IH]; simpl; [reflexivity|].
  destruct (is_space c) eqn:E; [exact IH | exact E].
Qed.

Lemma lstrip_fix (s : list ascii) : starts_space s = false -> lstrip s = s.
Proof. destruct s as [|c t]; simpl; [reflexivity | now intros ->]. Qed.

Lemma rstrip_start (s : list ascii) :
  rstrip s <> [] -> starts_space (rstrip s) = starts_space s.
Proof.
  destruct s as [|c t]; simpl; [reflexivity|].
  destruct (rstrip t); [|reflexivity].
  destruct (is_space c) eqn:E; [congruence | intros _; simpl; exact E].
Qed.

Lemma rstrip_keeps_start (s : list ascii) :
  starts_space s = false -> starts_space (rstrip s) = false.
Proof.
  intros H. destruct (rstrip s) eqn:E; [reflexivity|].
  rewrite <- E, rstrip_start; [exact H | congruence].
Qed.

Lemma rstrip_idem (s : list ascii) : rstrip (rstrip s) = rstrip s.
Proof.
  induction s as [|c t IH]; simpl; [reflexivity|].
  destruct (rstrip t) as [|d r] eqn:E.
  - destruct (is_space c) eqn:Ec; simpl; [reflexivity | now rewrite Ec].
  - change (rstrip (c :: d :: r)) with
      (match rstrip (d :: r) with
       | [] => if is_space c then [] else [c]
       | x => c :: x
       end).
    now rewrite IH.
Qed.

Lemma strip_l_idem (s : list ascii) : strip_l (strip_l s) = strip_l s.
Proof.
  unfold strip_l.
  rewrite (lstrip_fix (rstrip (lstrip s))).
  - apply rstrip_idem.
  - apply rstrip_keeps_start, lstrip_start.
Qed.

Lemma normal_lstrip (s : list ascii) : normal s = true -> normal (lstrip s) = true.
Proof.
  induction s as [|c t IH]; simpl; [trivial|].
  intros H. destruct (is_space c); [|exact H].
  apply IH. unfold normal in *. simpl in H.
  apply andb_true_iff in H as [H1 H2].
  apply andb_true_iff in H1 as [_ H1], H2 as [_ H2].
  now rewrite H1, H2.
Qed.

Lemma normal_rstrip (s : list ascii) : normal s = true -> normal (rstrip s) = true.
Proof.
  induction s as [|c t IH]; simpl; [trivial|].
  intros H. unfold normal in H. simpl in H.
  apply andb_true_iff in H as [H1 H2].
  apply andb_true_iff in H1 as [Hc Ht], H2 as [Hn Hs].
  assert (Hr : normal (rstrip t) = true)
    by (apply IH; unfold normal; now rewrite Ht, Hs).
  destruct (rstrip t) as [|d r] eqn:E.
  - destruct (is_space c); [reflexivity|].
    unfold normal. simpl. now rewrite Hc, andb_false_r.
  - assert (Hd : is_space d = starts_space t).
    { change (is_space d) with (starts_space (d :: r)).
      rewrite <- E. apply rstrip_start. congruence. }
    unfold normal in Hr |- *. simpl in Hr |- *.
    apply andb_true_iff in Hr as [Hr1 Hr2].
    rewrite Hd in Hr2 |- *. now rewrite Hc, Hn, Hr1, Hr2.
Qed.

Lemma sub_space_fix (s : list ascii) (b : bool) :
  forallb clean_char s = true -> single_spaced s = true ->
  (b = true -> starts_space s = false) ->
  sub_runs is_space b s = s.
Proof.
  revert b. induction s as [|c t IH]; intros b Hc Hs Hb; simpl in *;
    [reflexivity|].
  apply andb_true_iff in Hc as [Hc Ht], Hs as [Hn Hs].
  destruct (is_space c) eqn:E.
  - destruct b; [now specialize (Hb eq_refl)|].
    unfold clean_char in Hc. rewrite E in Hc. simpl in Hc.
    apply andb_true_iff in Hc as [Hc _].
    apply andb_true_iff in Hc as [_ Hc].
    apply Ascii.eqb_eq in Hc. subst c.
    rewrite IH; auto. intros _.
    simpl in Hn. now apply negb_true_iff in Hn.
  - rewrite IH; auto. discriminate.
Qed.

Lemma normal_fix (y : list ascii) : normal y = true -> norm_l y = strip_l y.
Proof.
  intros H.
  assert (Hz : normal (strip_l y) = true)
    by (apply normal_rstrip, normal_lstrip, H).
  unfold norm_l, re_sub_runs. set (z := strip_l y) in *.
  unfold normal in Hz. apply andb_true_iff in Hz as [Hc Hs].
  rewrite (sub_runs_id is_punct false z).
  - rewrite sub_space_fix by (auto; discriminate).
    unfold lower_l. rewrite <- (map_id z) at 2. apply map_ext_in.
    intros c Hin. rewrite forallb_forall in Hc. specialize (Hc c Hin).
    unfold clean_char in Hc. apply andb_true_iff in Hc as [_ Hc].
    now apply Ascii.eqb_eq.
  - rewrite forallb_forall in Hc |- *. intros c Hin. specialize (Hc c Hin).
    unfold clean_char in Hc. apply andb_true_iff in Hc as [Hc _].
    now apply andb_true_iff in Hc as [Hc _].
Qed.

(** C4, as the code has it: a second normalization only trims what the
    first one produced, and from then on nothing changes. *)
Theorem norm_settles_after_trim (x : string) :
  norm (norm x) = strip (norm x) /\ norm (norm (norm x)) = norm (norm x).
Proof.
  unfold norm, strip, lift.
  rewrite !list_ascii_of_string_of_list_ascii.
  set (y := norm_l (list_ascii_of_string x)).
  assert (Hy : normal y = true) by apply norm_l_normal.
  rewrite (normal_fix y Hy). split; [reflexivity|].
  f_equal. rewrite normal_fix.
  - apply strip_l_idem.
  - apply normal_rstrip, normal_lstrip, Hy.
Qed.

(** C4 as stated fails: a label ending in punctuation keeps a trailing
    space, which a second normalization removes. *)
Lemma norm_not_idempotent :
  norm "a-" = "a "%string /\ norm (norm "a-") = "a"%string
  /\ norm (norm "a-") <> norm "a-".
Proof. repeat split. vm_compute. discriminate. Qed.

End NormFacts.

(** ** The national climate average *)

Section NationalFacts.

Import Text Pandas QueryExecutor.
Context {lib : Lib}.

Lemma add_note_notes (n : string) (d : MetaDebug) :
  detection_notes (add_note n d) <> [].
Proof. unfold add_note. simpl. now destruct (detection_notes d). Qed.

Lemma detect_min_max_none (df df_norm : DataFrame) (d d' : MetaDebug) :
  detect_min_max df df_norm d = (None, d') -> detection_notes d' <> [].
Proof.
  unfold detect_min_max.
  destruct (find_annual_min_max_candidates df_norm) as [mn mx].
  destruct (negb (truthy_opt mn) && negb (truthy_opt mx)).
  - destruct (fallback_numeric_pair df_norm) as [mn' mx'].
    destruct (negb (truthy_opt mn') && negb (truthy_opt mx')); intros H;
      inversion H. apply add_note_notes.
  - destruct (negb (truthy_opt mn) && negb (truthy_opt mx)); intros H;
      inversion H. apply add_note_notes.
Qed.

Lemma national_window_none (df_work : DataFrame) (yc : string)
      (mn mx : option string) (n : Z) (d d' : MetaDebug) :
  national_window df_work yc mn mx n d = Ok (NoResult d') ->
  detection_notes d' <> [].
Proof.
  unfold national_window.
  destruct (getitem df_work yc) as [years|]; simpl; [|discriminate].
  destruct (max_int years) as [max_year|].
  - destruct (Analytics.col_idx df_work yc) as [yj|]; simpl; [|discriminate].
    destruct (is_empty _).
    + intros H. inversion H. simpl. apply add_note_notes.
    + destruct (getitem _ "annual_mean_temp_c"); simpl; [|discriminate].
      destruct (getitem _ yc); simpl; [|discriminate].
      destruct (mean_cells _); simpl; discriminate.
  - intros H. inversion H. apply add_note_notes.
Qed.

(** C10: whenever [_compute_national_climate_avg] returns no table, the
    debug record it returns carries at least one detection note. *)
Theorem no_result_has_note (input : Loaded) (n : Z) (d : MetaDebug) :
  compute_national_climate_avg input n = Ok (NoResult d) ->
  detection_notes d <> [].
Proof.
  unfold compute_national_climate_avg.
  destruct input as [| |df].
  - intros H. inversion H. apply add_note_notes.
  - intros H. inversion H. apply add_note_notes.
  - destruct (is_empty df).
    + intros H. inversion H. simpl. discriminate.
    + destruct (find_year (normalize_frame df)) as [[yc|] notes].
      * destruct (detect_min_max _ _ _) as [[[mn mx]|] d0] eqn:E.
        -- destruct (working_frame _ _ _ _) as [df_work|]; simpl;
             [|discriminate].
           apply national_window_none.
        -- intros H. inversion H. subst. eapply detect_min_max_none, E.
      * intros H. inversion H. apply add_note_notes.
Qed.

End NationalFacts.

(** A table on which the detection fails, as a check that the premise of
    [no_result_has_note] can be met. *)
Lemma no_result_has_note_witness :
  exists d,
    QueryExecutor.compute_national_climate_avg (lib := Reference.stable_lib)
      (QueryExecutor.Frame Loaders.sample_climate) 3
    = Pandas.Ok (QueryExecutor.NoResult d)
    /\ QueryExecutor.detection_notes d <> [].
Proof.
  eexists. split.
  - vm_compute. reflexivity.
  - eapply (@no_result_has_note Reference.stable_lib
              (QueryExecutor.Frame Loaders.sample_climate) 3).
    vm_compute. reflexivity.
Defined.

(** ** The loaders *)

Section LoaderFacts.

Import Text Pandas Loaders.
Context {files : Files}.

Lemma load_crop_production_sample :
  find_file_contains "crop-wise details of production" = None ->
  exists df meta, load_crop_production = Ok (df, meta)
                  /\ List.length (rows df) = 2%nat.
Proof.
  intros H. unfold load_crop_production. rewrite H.
  do 2 eexists. split; reflexivity.
Qed.

Lemma load_climate_temp_series_sample :
  find_file_contains "seasonal and annual minmax" = None ->
  find_file_contains "year-wise climate risk" = None ->
  exists df meta, load_climate_temp_series = Ok (df, meta)
                  /\ List.length (rows df) = 2%nat.
Proof.
  intros H1 H2. unfold load_climate_temp_series. rewrite H1, H2.
  do 2 eexists. split; reflexivity.
Qed.

Lemma load_yield_all_india_sample :
  find_file_contains "all india level yield" = None ->
  load_yield_all_india = Ok (empty_frame, mkSource "sample_yield" None).
Proof. intros H. unfold load_yield_all_india. now rewrite H. Qed.

End LoaderFacts.

(** C6 fails for the yield loader: with no matching file it returns the
    empty table, labelled as a sample, where its two siblings return two
    rows. *)
Theorem yield_sample_is_empty :
  exists meta,
    Loaders.load_yield_all_india (files := Reference.no_files)
    = Pandas.Ok (Pandas.empty_frame, meta)
    /\ Loaders.source_file meta = "sample_yield"%string
    /\ Pandas.rows Pandas.empty_frame = []
    /\ Pandas.is_empty Pandas.empty_frame = true.
Proof. eexists. repeat split. Qed.

(** ** The numeric fallback of the min/max detection *)

Section FallbackFacts.

Import Text Pandas QueryExecutor Props.
Context {lib : Lib}.
Local Open Scope Q_scope.

Lemma insert_by_mean_in (x y : string * Q) (l : list (string * Q)) :
  In y (insert_by_mean x l) <-> y = x \/ In y l.
Proof.
  induction l as [|h t IH]; simpl.
  - intuition.
  - destruct (Qle_bool (snd x) (snd h)); simpl; rewrite ?IH; intuition.
Qed.

Lemma sort_by_mean_in (y : string * Q) (l : list (string * Q)) :
  In y (sort_by_mean l) <-> In y l.
Proof.
  induction l as [|h t IH]; simpl; [reflexivity|].
  rewrite insert_by_mean_in, IH. intuition.
Qed.

Lemma Qle_bool_false (p q : Q) : Qle_bool p q = false -> q <= p.
Proof.
  intros H. apply Qlt_le_weak, Qnot_le_lt. intros Hle.
  apply Qle_bool_iff in Hle. congruence.
Qed.

Lemma insert_by_mean_sorted (x : string * Q) (l : list (string * Q)) :
  StronglySorted by_mean l -> StronglySorted by_mean (insert_by_mean x l).
Proof.
  induction 1 as [|h t Hs IH Hh]; simpl.
  - repeat constructor.
  - destruct (Qle_bool (snd x) (snd h)) eqn:E.
    + apply Qle_bool_iff in E. constructor; [now constructor|].
      constructor; [exact E|].
      rewrite Forall_forall in Hh |- *. intros z Hz.
      unfold by_mean in *. eapply Qle_trans; [exact E | now apply Hh].
    + constructor; [exact IH|].
      rewrite Forall_forall in Hh |- *. intros z Hz.
      apply insert_by_mean_in in Hz as [-> | Hz]; [|now apply Hh].
      now apply Qle_bool_false.
Qed.

Lemma sort_by_mean_sorted (l : list (string * Q)) :
  StronglySorted by_mean (sort_by_mean l).
Proof.
  induction l as [|h t IH]; simpl; [constructor|].
  now apply insert_by_mean_sorted.
Qed.

Lemma sorted_head_least (h : string * Q) (t : list (string * Q)) :
  StronglySorted by_mean (h :: t) ->
  forall c, In c (h :: t) -> snd h <= snd c.
Proof.
  intros H c [<- | Hc]; [apply Qle_refl|].
  inversion H as [|? ? _ Hall]; subst.
  rewrite Forall_forall in Hall. now apply Hall.
Qed.

Lemma sorted_last_greatest (l : list (string * Q)) (z : string * Q) :
  StronglySorted by_mean l -> hd_error (rev l) = Some z ->
  forall c, In c l -> snd c <= snd z.
Proof.
  induction 1 as [|h t Hs IH Hh]; simpl; [discriminate|].
  intros Hz c Hc.
  destruct (rev t) as [|r rs] eqn:E.
  - simpl in Hz. inversion Hz; subst.
    assert (t = []) by (now destruct t; [|apply (f_equal (@List.length _)) in E;
                                           rewrite length_rev in E]).
    subst. destruct Hc as [<- | []]. apply Qle_refl.
  - simpl in Hz. inversion Hz; subst.
    assert (Hin : In z t) by (apply in_rev; rewrite E; now left).
    destruct Hc as [<- | Hc].
    + rewrite Forall_forall in Hh. now apply Hh.
    + now apply IH.
Qed.

Lemma fallback_candidate_range (df_norm : DataFrame) (nc : string)
      (c : string * Q) :
  fallback_candidate df_norm nc = Some c ->
  fst c = nc /\ contains "year" nc = false /\ -60 <= snd c <= 80.
Proof.
  unfold fallback_candidate.
  destruct (contains "year" nc); [discriminate|].
  destruct (getitem_series df_norm nc) as [col|]; [|discriminate].
  destruct (3 <=? _)%nat; [|discriminate].
  destruct (Qle_bool (-60) _) eqn:E1; [|discriminate].
  destruct (Qle_bool _ 80) eqn:E2; [|discriminate].
  simpl. intros H. inversion H; subst; simpl.
  apply Qle_bool_iff in E1, E2. auto.
Qed.

Lemma fallback_candidates_range (df_norm : DataFrame) (cs : list string)
      (c : string * Q) :
  In c (fallback_candidates df_norm cs) ->
  In (fst c) cs /\ contains "year" (fst c) = false /\ -60 <= snd c <= 80.
Proof.
  induction cs as [|nc t IH]; simpl; [intros []|].
  destruct (fallback_candidate df_norm nc) as [x|] eqn:E.
  - intros [<- | H].
    + apply fallback_candidate_range in E as (-> & ? & ?). auto.
    + destruct (IH H) as (? & ? & ?). auto.
  - intros H. destruct (IH H) as (? & ? & ?). auto.
Qed.

Lemma fallback_pair_many (df_norm : DataFrame) (x y : string * Q)
      (rest : list (string * Q)) :
  fallback_candidates df_norm (columns df_norm) = x :: y :: rest ->
  exists lo hi,
    In lo (x :: y :: rest) /\ In hi (x :: y :: rest)
    /\ fallback_numeric_pair df_norm = (Some (fst lo), Some (fst hi))
    /\ forall c, In c (x :: y :: rest) -> snd lo <= snd c <= snd hi.
Proof.
  intros E. unfold fallback_numeric_pair. rewrite E.
  set (l := x :: y :: rest).
  pose proof (sort_by_mean_sorted l) as Hs.
  destruct (sort_by_mean l) as [|lo t] eqn:El.
  - assert (In x []) as [] by (rewrite <- El; apply sort_by_mean_in; now left).
  - destruct (rev (lo :: t)) as [|hi t'] eqn:Er.
    + apply (f_equal (@List.length _)) in Er. rewrite length_rev in Er.
      discriminate.
    + exists lo, hi. simpl hd_error. simpl option_map.
      assert (Hlo : In lo l) by (apply sort_by_mean_in; rewrite El; now left).
      assert (Hhi : In hi l).
      { apply sort_by_mean_in. rewrite El. apply in_rev. rewrite Er. now left. }
      repeat split; auto.
      * apply (sorted_head_least Hs). rewrite <- El. now apply sort_by_mean_in.
      * apply (sorted_last_greatest Hs); [now rewrite Er|].
        rewrite <- El. now apply sort_by_mean_in.
Qed.

End FallbackFacts.


(** ** Failures of the aggregations *)

Section FailureFacts.

Import Text Pandas Analytics.
Context {lib : Lib}.

Lemma index_of_none (x : string) (l : list string) :
  ~ In x l -> index_of x l = None.
Proof.
  induction l as [|h t IH]; simpl; [reflexivity|].
  intros H. destruct (String.eqb_spec x h) as [->|_].
  - exfalso. apply H. now left.
  - rewrite IH; [reflexivity|]. intros Hin. apply H. now right.
Qed.

Lemma detect_none (cands cols_lower cols : list string) :
  (forall c, In c cands -> ~ In c cols_lower) ->
  detect cands cols_lower cols = None.
Proof.
  induction cands as [|c t IH]; simpl; [reflexivity|].
  intros H. rewrite index_of_none by (apply H; now left).
  apply IH. intros c' Hc'. apply H. now right.
Qed.

(** C1, as the code has it for the climate average: without a year column
    the call raises a [ValueError] that names the problem, and the table
    is left as it was. *)
Theorem avg_without_year_raises (df : DataFrame) (states : list string)
        (metric_candidates : option (list string)) (n : Z) :
  (forall c, In c (columns df) -> ~ In (lower c) year_candidates) ->
  avg_annual_climate_metric df states None metric_candidates n
  = (Raise (ValueError "Could not detect year column in climate data"), df).
Proof.
  intros H. unfold avg_annual_climate_metric. simpl cands_or.
  rewrite detect_none; [reflexivity|].
  intros c Hc Hin. apply in_map_iff in Hin as [c' [<- Hc']].
  now apply (H c').
Qed.

(** What the [try] block of the correlation cannot raise through. *)
Lemma correlate_after_trend (df_prod df_climate : DataFrame)
      (crop_name state : string) (n : Z) (ts : DataFrame) (t : Trend) :
  production_trend df_prod crop_name [("state"%string, CStr state)] = Ok (ts, t) ->
  exists res, fst (correlate_production_with_climate
                     df_prod df_climate crop_name state n) = Ok res.
Proof.
  intros H. unfold correlate_production_with_climate. rewrite H.
  destruct (correlate_try ts df_climate state n) as [[[res|]|e] df1];
    eexists; reflexivity.
Qed.

Lemma correlate_try_below_two (ts df_climate : DataFrame) (state : string)
      (n : Z) (merged : DataFrame) (meta : CorrMeta) :
  fst (correlate_try ts df_climate state n) = Ok (Some (merged, meta)) ->
  (List.length (rows merged) < 2)%nat ->
  pearson_corr meta = None.
Proof.
  unfold correlate_try.
  destruct (avg_annual_climate_metric _ _ _ _ _) as [[[out am]|e] df1];
    cbn [fst bind]; [|discriminate].
  case_if; [|discriminate].
  do 5 (case_bind; [|discriminate]).
  case_if.
  - do 2 (case_bind; [|discriminate]).
    intros H Hlt. inversion H; subst.
    match goal with E : (2 <=? _)%nat = true |- _ => apply Nat.leb_le in E end.
    lia.
  - intros H _. now inversion H.
Qed.

(** The part of C7 that holds: below two joined rows the coefficient is
    null, also when the result is the empty fallback. *)
Lemma correlate_below_two (df_prod df_climate : DataFrame)
      (crop_name state : string) (n : Z) (merged : DataFrame) (meta : CorrMeta) :
  fst (correlate_production_with_climate df_prod df_climate crop_name state n)
  = Ok (merged, meta) ->
  (List.length (rows merged) < 2)%nat ->
  pearson_corr meta = None.
Proof.
  unfold correlate_production_with_climate.
  destruct (production_trend _ _ _) as [[ts t]|]; [|discriminate].
  destruct (correlate_try ts df_climate state n) as [r df1] eqn:E.
  destruct r as [[[m cm]|]|e]; simpl; intros H; inversion H; subst;
    try reflexivity.
  intros Hlt. eapply correlate_try_below_two; [|exact Hlt].
  rewrite E. reflexivity.
Qed.

End FailureFacts.

(** A table without any role column meets the premise. *)
Lemma avg_without_year_raises_witness :
  Analytics.avg_annual_climate_metric (lib := Reference.stable_lib)
    Examples.no_roles ["StateA"%string] None None 3
  = (Pandas.Raise
       (Pandas.ValueError "Could not detect year column in climate data"),
     Examples.no_roles).
Proof.
  apply (@avg_without_year_raises Reference.stable_lib).
  intros c Hc Hin. vm_compute in Hc, Hin.
  destruct Hc as [<- | [<- | []]];
    (destruct Hin as [H | [H | [H | []]]]; discriminate H).
Defined.

(** C1 as stated fails: on a table without any role column the climate
    average raises instead of returning an empty result, and so do the
    other aggregations. *)
Lemma aggregations_raise_without_roles :
  let df := Examples.no_roles in
  fst (Analytics.avg_annual_climate_metric (lib := Reference.stable_lib)
         df ["StateA"%string] None None 3)
  = Pandas.Raise
      (Pandas.ValueError "Could not detect year column in climate data")
  /\ Analytics.top_crops_by_volume (lib := Reference.stable_lib) df "StateA" 3 2
     = Pandas.Raise (Pandas.KeyError "crop")
  /\ Analytics.production_trend (lib := Reference.stable_lib) df "Wheat" []
     = Pandas.Raise
         (Pandas.AttributeError "'int' object has no attribute 'fillna'")
  /\ fst (Analytics.correlate_production_with_climate
            (lib := Reference.stable_lib) df df "Wheat" "StateA" 3)
     = Pandas.Raise
         (Pandas.AttributeError "'int' object has no attribute 'fillna'").
Proof. repeat split. Qed.

(** C7 fails for the production series: [production_trend] runs outside
    the [try], so its exception reaches the caller. *)
Theorem correlate_propagates_trend_failure :
  Analytics.production_trend (lib := Reference.stable_lib)
    Examples.no_crop_column "Wheat" [("state"%string, Pandas.CStr "StateA")]
  = Pandas.Raise (Pandas.KeyError "crop")
  /\ fst (Analytics.correlate_production_with_climate
            (lib := Reference.stable_lib)
            Examples.no_crop_column Examples.climate_two_years
            "Wheat" "StateA" 3)
     = Pandas.Raise (Pandas.KeyError "crop").
Proof. split; reflexivity. Qed.

(** C9 fails for the climate average: the caller's table comes back with
    its year column overwritten by the coerced values. *)
Theorem avg_overwrites_year_column :
  let df := Examples.climate_text_years in
  let r := Analytics.avg_annual_climate_metric (lib := Reference.stable_lib)
             df ["StateA"%string] None None 2 in
  (exists out, fst r = Pandas.Ok out)
  /\ Pandas.column df 0 = [Pandas.CStr "2018"; Pandas.CStr "2019"; Pandas.CStr "n/a"]
  /\ Pandas.column (snd r) 0
     = [Pandas.CNum 2018; Pandas.CNum 2019; Pandas.CNaN]
  /\ snd r <> df.
Proof.
  repeat split.
  - eexists. vm_compute. reflexivity.
  - vm_compute. discriminate.
Qed.

(** ** The production trend *)

Section TrendFacts.

Import Text Pandas Analytics Props.
Context {lib : Lib}.
Local Open Scope Q_scope.

Lemma Qsum_map_plus (A : Type) (f g : A -> Q) (l : list A) :
  Qsum (map (fun p => f p + g p) l) == Qsum (map f l) + Qsum (map g l).
Proof.
  induction l as [|a t IH]; simpl; [reflexivity|].
  fold (Qsum (map (fun p => f p + g p) t)) (Qsum (map f t)) (Qsum (map g t)).
  rewrite IH. ring.
Qed.

Lemma Qsum_map_scale (A : Type) (k : Q) (f : A -> Q) (l : list A) :
  Qsum (map (fun p => k * f p) l) == k * Qsum (map f l).
Proof.
  induction l as [|a t IH]; simpl; [ring|].
  fold (Qsum (map (fun p => k * f p) t)) (Qsum (map f t)).
  rewrite IH. ring.
Qed.

Lemma Qsum_map_ext (A : Type) (f g : A -> Q) (l : list A) :
  (forall a, f a == g a) -> Qsum (map f l) == Qsum (map g l).
Proof.
  intros H. induction l as [|a t IH]; simpl; [reflexivity|].
  fold (Qsum (map f t)) (Qsum (map g t)).
  now rewrite IH, H.
Qed.

Lemma Qsum_map_const (A : Type) (k : Q) (l : list A) :
  Qsum (map (fun _ => k) l) == inject_Z (Z.of_nat (List.length l)) * k.
Proof.
  induction l as [|a t IH]; [simpl; ring|].
  cbn [map Qsum fold_right List.length]. fold (Qsum (map (fun _ => k) t)).
  rewrite IH, Nat2Z.inj_succ. unfold Z.succ. rewrite inject_Z_plus. ring.
Qed.

Lemma Qsum_sq_nonneg (A : Type) (f : A -> Q) (l : list A) :
  0 <= Qsum (map (fun p => f p * f p) l).
Proof.
  induction l as [|a t IH]; simpl; [apply Qle_refl|].
  fold (Qsum (map (fun p => f p * f p) t)).
  assert (0 <= f a * f a) by nra. lra.
Qed.

Lemma combine_fst_snd (A B : Type) (ps : list (A * B)) :
  combine (map fst ps) (map snd ps) = ps.
Proof. induction ps as [|[a b] t IH]; simpl; congruence. Qed.

Section LeastSquares.
Variable ps : list (Q * Q).
Let n := inject_Z (Z.of_nat (List.length ps)).
Let sx := Qsum (map fst ps).
Let sy := Qsum (map snd ps).
Let sxx := Qsum (map (fun p => fst p * fst p) ps).
Let sxy := Qsum (map (fun p => fst p * snd p) ps).
Hypothesis Hrank : full_rank ps.

Lemma n_nonzero : ~ n == 0.
Proof.
  intros H. apply Hrank. fold n sx sxx.
  assert (E : ps = []).
  { destruct ps; [reflexivity|]. exfalso. subst n.
    unfold Qeq in H. simpl in H. lia. }
  subst sx sxx. rewrite E. simpl. ring.
Qed.

Lemma sum_residual (m c : Q) :
  Qsum (map (residual m c) ps) == sy - m * sx - n * c.
Proof.
  transitivity
    (Qsum (map (fun p => snd p + ((- m) * fst p + (fun _ => - c) p)) ps)).
  { apply Qsum_map_ext. intros p. unfold residual. ring. }
  rewrite (Qsum_map_plus snd (fun p => (- m) * fst p + (fun _ => - c) p)).
  rewrite (Qsum_map_plus (fun p => (- m) * fst p) (fun _ => - c)).
  rewrite (Qsum_map_scale (- m) fst), Qsum_map_const.
  fold n sx sy. ring.
Qed.

Lemma sum_x_residual (m c : Q) :
  Qsum (map (fun p => fst p * residual m c p) ps) == sxy - m * sxx - c * sx.
Proof.
  transitivity
    (Qsum (map (fun p => fst p * snd p
                         + ((- m) * (fst p * fst p) + (- c) * fst p)) ps)).
  { apply Qsum_map_ext. intros p. unfold residual. ring. }
  rewrite (Qsum_map_plus (fun p => fst p * snd p)
             (fun p => (- m) * (fst p * fst p) + (- c) * fst p)).
  rewrite (Qsum_map_plus (fun p => (- m) * (fst p * fst p))
             (fun p => (- c) * fst p)).
  rewrite (Qsum_map_scale (- m) (fun p => fst p * fst p)).
  rewrite (Qsum_map_scale (- c) fst).
  fold sx sxx sxy. ring.
Qed.

Lemma lstsq_line_eq :
  let mc := lstsq_line (map fst ps) (map snd ps) in
  fst mc == (n * sxy - sx * sy) / (n * sxx - sx * sx)
  /\ snd mc == (sy - fst mc * sx) / n.
Proof.
  unfold lstsq_line. rewrite combine_fst_snd, length_map, map_map.
  cbn [fst snd]. rewrite !Qred_correct. fold n sx sy sxx sxy. split; reflexivity.
Qed.

Lemma normal_equations :
  let mc := lstsq_line (map fst ps) (map snd ps) in
  Qsum (map (residual (fst mc) (snd mc)) ps) == 0
  /\ Qsum (map (fun p => fst p * residual (fst mc) (snd mc) p) ps) == 0.
Proof.
  intros mc. destruct lstsq_line_eq as [Hm Hc]. fold mc in Hm, Hc.
  pose proof n_nonzero as Hn.
  assert (Hd : ~ n * sxx - sx * sx == 0) by exact Hrank.
  rewrite sum_residual, sum_x_residual. rewrite Hc, Hm. split; field; auto.
Qed.

Lemma least_squares (m' c' : Q) :
  let mc := lstsq_line (map fst ps) (map snd ps) in
  sse (fst mc) (snd mc) ps <= sse m' c' ps.
Proof.
  intros mc. destruct normal_equations as [H1 H2]. fold mc in H1, H2.
  set (m := fst mc) in *. set (c := snd mc) in *.
  set (r := residual m c) in *.
  set (d := fun p : Q * Q => (m - m') * fst p + (c - c')).
  assert (E : sse m' c' ps
              == sse m c ps
                 + ((2 * (m - m')) * Qsum (map (fun p => fst p * r p) ps)
                    + ((2 * (c - c')) * Qsum (map r ps)
                       + Qsum (map (fun p => d p * d p) ps)))).
  { unfold sse. fold r.
    rewrite <- (Qsum_map_scale (2 * (m - m')) (fun p => fst p * r p)).
    rewrite <- (Qsum_map_scale (2 * (c - c')) r).
    rewrite <- (Qsum_map_plus (fun p => 2 * (c - c') * r p)
                  (fun p => d p * d p)).
    rewrite <- (Qsum_map_plus (fun p => 2 * (m - m') * (fst p * r p))
                  (fun p => 2 * (c - c') * r p + d p * d p)).
    rewrite <- (Qsum_map_plus (fun p => r p * r p)
                  (fun p => 2 * (m - m') * (fst p * r p)
                            + (2 * (c - c') * r p + d p * d p))).
    apply Qsum_map_ext. intros p. unfold r, d, residual. ring. }
  rewrite E, H1, H2.
  pose proof (Qsum_sq_nonneg d ps). lra.
Qed.
End LeastSquares.

Lemma Qsum_sq_zero (A : Type) (f : A -> Q) (l : list A) (a : A) :
  Qsum (map (fun p => f p * f p) l) == 0 -> In a l -> f a == 0.
Proof.
  induction l as [|b t IH]; simpl; [intros _ []|].
  fold (Qsum (map (fun p => f p * f p) t)).
  intros H Hin.
  pose proof (Qsum_sq_nonneg f t) as Ht.
  assert (Hb : 0 <= f b * f b) by nra.
  destruct Hin as [-> | Hin].
  - assert (E : f a * f a == 0) by lra. nra.
  - apply IH; [lra | exact Hin].
Qed.

(** Two points with different abscissas make the fit unique. *)
Lemma two_distinct_full_rank (ps : list (Q * Q)) (p q : Q * Q) :
  In p ps -> In q ps -> ~ fst p == fst q -> full_rank ps.
Proof.
  intros Hp Hq Hne Hd.
  set (n := inject_Z (Z.of_nat (List.length ps))) in *.
  set (sx := Qsum (map fst ps)) in *.
  assert (Hn : ~ n == 0).
  { subst n. destruct ps; [destruct Hp|].
    unfold Qeq. simpl. lia. }
  set (xb := sx / n).
  assert (E : Qsum (map (fun r => (fst r - xb) * (fst r - xb)) ps) == 0).
  { transitivity
      (Qsum (map (fun r => fst r * fst r
                           + ((- (2 * xb)) * fst r + (fun _ => xb * xb) r)) ps)).
    { apply Qsum_map_ext. intros r. ring. }
    rewrite (Qsum_map_plus (fun r => fst r * fst r)
               (fun r => (- (2 * xb)) * fst r + (fun _ => xb * xb) r)).
    rewrite (Qsum_map_plus (fun r => (- (2 * xb)) * fst r)
               (fun _ => xb * xb)).
    rewrite (Qsum_map_scale (- (2 * xb)) fst), Qsum_map_const.
    fold n sx.
    assert (Hs : Qsum (map (fun r => fst r * fst r) ps) == sx * sx / n).
    { set (S := Qsum (map (fun r => fst r * fst r) ps)) in *.
      assert (Hd' : sx * sx == n * S) by lra.
      rewrite Hd'. field. exact Hn. }
    rewrite Hs. unfold xb. field. exact Hn. }
  pose proof (Qsum_sq_zero (fun r => fst r - xb) ps p E Hp) as Ep.
  pose proof (Qsum_sq_zero (fun r => fst r - xb) ps q E Hq) as Eq.
  simpl in Ep, Eq. apply Hne. lra.
Qed.

Lemma index_of_some (x : string) (l : list string) (j : nat) :
  index_of x l = Some j -> nth j l ""%string = x /\ (j < List.length l)%nat.
Proof.
  revert j. induction l as [|h t IH]; simpl; [discriminate|].
  intros j. destruct (String.eqb_spec x h) as [->|_].
  - intros H. inversion H. split; [reflexivity | lia].
  - destruct (index_of x t) as [k|]; simpl; [|discriminate].
    intros H. inversion H. destruct (IH k eq_refl). split; [assumption | lia].
Qed.

Lemma detect_some_lower (cands cols : list string) (c : string) :
  detect cands (map lower cols) cols = Some c -> In (lower c) cands.
Proof.
  induction cands as [|cand t IH]; simpl; [discriminate|].
  destruct (index_of cand (map lower cols)) as [j|] eqn:E.
  - intros H. inversion H. left.
    apply index_of_some in E as [E _].
    change ""%string with (lower "") in E. rewrite map_nth in E. now symmetry.
  - intros H. right. now apply IH.
Qed.

Lemma or_default_cases (o : option string) (d : string) :
  or_default o d = d \/ o = Some (or_default o d).
Proof.
  destruct o as [s|]; simpl; [|now left].
  destruct (truthy s); [now right | now left].
Qed.

Lemma year_prod_distinct (cols : list string) :
  let yc := or_default (detect ["year"; "season"]%string (map lower cols) cols) "year" in
  let pc := or_default (detect ["production_tonnes"; "production"]%string
                               (map lower cols) cols) "production_tonnes" in
  yc <> pc /\ pc <> "year"%string.
Proof.
  intros yc pc.
  assert (Hy : In (lower yc) ["year"; "season"]%string).
  { destruct (or_default_cases (detect ["year"; "season"]%string (map lower cols) cols) "year") as [E|E];
      fold yc in E.
    - rewrite E. now left.
    - now apply detect_some_lower in E. }
  assert (Hp : In (lower pc) ["production_tonnes"; "production"]%string).
  { destruct (or_default_cases (detect ["production_tonnes"; "production"]%string (map lower cols) cols) "production_tonnes") as [E|E];
      fold pc in E.
    - rewrite E. now left.
    - now apply detect_some_lower in E. }
  split.
  - intros E. rewrite E in Hy. 
    destruct Hy as [Hy|[Hy|[]]]; destruct Hp as [Hp|[Hp|[]]]; congruence.
  - intros E. rewrite E in Hp. destruct Hp as [Hp|[Hp|[]]]; discriminate Hp.
Qed.

Lemma rows_rename_col (a b : string) (df : DataFrame) :
  rows (rename_col a b df) = rows df.
Proof. reflexivity. Qed.

Lemma rows_mkDF (cs : list string) (rs : list (list cell)) :
  rows (mkDF cs rs) = rs.
Proof. reflexivity. Qed.

Lemma fit_trend_short (yc pc : string) (kvs : list (cell * Q)) (t : Trend) :
  yc <> pc -> (List.length kvs < 2)%nat ->
  fit_trend (mkDF [yc; pc] (map pair_row kvs)) pc = Ok t ->
  slope_per_year t = 0
  /\ ((kvs = [] /\ intercept t = 0)
      \/ exists kv, kvs = [kv] /\ intercept t == snd kv).
Proof.
  intros Hne Hlen. unfold fit_trend, getitem. cbn [rows columns].
  rewrite length_map.
  destruct (2 <=? List.length kvs)%nat eqn:E;
    [apply Nat.leb_le in E; lia|].
  cbn [index_of]. rewrite String.eqb_refl.
  destruct (String.eqb_spec pc yc) as [->|_]; [congruence|].
  cbn [option_map bind]. intros H. inversion H. cbn [slope_per_year intercept].
  split; [reflexivity|].
  destruct kvs as [|kv [|kv' rest]]; [left; split; reflexivity | right | simpl in Hlen; lia].
  exists kv. split; [reflexivity|].
  unfold column, sum_cells. cbn [rows].
  change (Qsum (numbers (map (cell_at 1) (map pair_row [kv]))))
    with (snd kv + 0).
  rewrite Qred_correct. ring.
Qed.

End TrendFacts.

(** ** The trailing window *)

Section WindowFacts.

Import Text Pandas Analytics Props.
Context {lib : Lib}.
Local Open Scope string_scope.

Lemma in_window_iff (lo hi : Z) (c : cell) :
  in_window lo hi c = true
  <-> exists q, c = CNum q /\ (inject_Z lo <= q <= inject_Z hi)%Q.
Proof.
  destruct c as [q|s| |]; simpl.
  - rewrite andb_true_iff, !Qle_bool_iff. split.
    + intros H. now exists q.
    + intros [q' [E H]]. now inversion E; subst.
  - split; [discriminate | intros [q [E _]]; discriminate].
  - split; [discriminate | intros [q [E _]]; discriminate].
  - split; [discriminate | intros [q [E _]]; discriminate].
Qed.

Lemma window_rows_spec (yj : nat) (lo hi : Z) (df : DataFrame) (r : list cell) :
  In r (rows (window_rows yj (lo, hi) df))
  <-> In r (rows df) /\ year_within yj lo hi r.
Proof.
  unfold window_rows, filter_rows. cbn [rows fst snd].
  rewrite filter_In, in_window_iff. reflexivity.
Qed.

Lemma numbers_in (q : Q) (col : list cell) :
  In q (numbers col) <-> In (CNum q) col.
Proof.
  induction col as [|c t IH]; simpl; [reflexivity|].
  destruct c; simpl; rewrite IH; intuition (try discriminate; try congruence).
Qed.

Lemma fold_max_spec (t : list Z) (h : Z) :
  let m := fold_left Z.max t h in
  In m (h :: t) /\ forall z, In z (h :: t) -> (z <= m)%Z.
Proof.
  revert h. induction t as [|a t IH]; intros h; simpl.
  - split; [now left | intros z [<- | []]; lia].
  - destruct (IH (Z.max h a)) as [Hin Hle]. simpl in Hin, Hle. split.
    + destruct Hin as [E | Hin]; [|now right; right].
      rewrite <- E. destruct (Z.max_spec h a) as [[_ ->] | [_ ->]]; auto.
    + intros z [E | [E | Hz]].
      * specialize (Hle (Z.max h a) (or_introl eq_refl)). lia.
      * specialize (Hle (Z.max h a) (or_introl eq_refl)). lia.
      * apply Hle. now right.
Qed.

Lemma max_int_spec (col : list cell) (Y : Z) :
  max_int col = Some Y -> is_max_year col Y.
Proof.
  unfold max_int, Zmax_list.
  destruct (map Qtrunc (numbers col)) as [|h t] eqn:E; [discriminate|].
  intros H. inversion H. clear H.
  destruct (fold_max_spec t h) as [Hin Hle]. rewrite <- E in Hin, Hle.
  split.
  - apply in_map_iff in Hin as [q [Hq Hin]].
    exists q. split; [now apply numbers_in | exact Hq].
  - intros q Hq. apply Hle, in_map, numbers_in, Hq.
Qed.

Lemma year_within_single (yj : nat) (Y : Z) (r : list cell) :
  year_within yj (Y - 1 + 1) Y r
  <-> exists q, cell_at yj r = CNum q /\ (q == inject_Z Y)%Q.
Proof.
  replace (Y - 1 + 1)%Z with Y by lia. unfold year_within.
  split; intros [q [E H]]; exists q; (split; [exact E|]).
  - now apply Qle_antisym.
  - rewrite H. split; apply Qle_refl.
Qed.

Lemma year_within_number (yj : nat) (lo hi : Z) (r : list cell) :
  year_within yj lo hi r -> cell_at yj r <> CNaN /\ cell_at yj r <> CNaT
                            /\ forall s, cell_at yj r <> CStr s.
Proof. intros [q [-> _]]. repeat split; discriminate. Qed.

Lemma avg_aggregate_state (df : DataFrame) (states : list string)
      (sc : option string) (m : string) :
  avg_aggregate df states (if truthy_opt sc then sc else None) m
  = avg_aggregate df states sc m.
Proof.
  unfold avg_aggregate. destruct sc as [s|]; [|reflexivity].
  cbn [truthy_opt]. destruct (truthy s) eqn:E; cbn [truthy_opt];
    rewrite ?E; reflexivity.
Qed.

Lemma avg_window (df df1 : DataFrame) (states : list string)
      (yc mc : option (list string)) (n : Z) (out : DataFrame) (meta : AvgMeta) :
  avg_annual_climate_metric df states yc mc n = (Ok (out, meta), df1) ->
  exists yj ycol Y,
    getitem df (year_column meta) = Ok ycol
    /\ df1 = setitem df (year_column meta) (to_numeric ycol)
    /\ index_of (year_column meta) (columns df1) = Some yj
    /\ is_max_year (to_numeric ycol) Y
    /\ years_used meta = (Y - n + 1, Y)%Z
    /\ avg_aggregate (window_rows yj (Y - n + 1, Y)%Z df1) states
                     (state_column meta) (metric_column meta) = Ok out.
Proof.
  unfold avg_annual_climate_metric.
  set (sc := detect state_candidates _ _). clearbody sc.
  destruct (negb (truthy_opt _)); [discriminate|].
  set (year_col := or_default _ "").
  destruct (if truthy_opt _ then _ else _) as [metric_col|]; [|discriminate].
  destruct (getitem df year_col) as [ycol|] eqn:Ey; [|discriminate].
  unfold window_of. destruct (max_int (to_numeric ycol)) as [Y|] eqn:Em;
    [|discriminate].
  set (df1' := setitem df year_col (to_numeric ycol)).
  unfold col_idx. destruct (index_of year_col (columns df1')) as [yj|] eqn:Ei;
    cbn [bind]; [|discriminate].
  destruct (avg_aggregate _ _ _ _) as [o|] eqn:Ea; cbn [bind]; [|discriminate].
  intros H. injection H as <- <- <-. cbn [year_column years_used state_column metric_column].
  exists yj, ycol, Y.
  split; [exact Ey|]. split; [reflexivity|]. split; [exact Ei|].
  split; [now apply max_int_spec|]. split; [reflexivity|].
  rewrite avg_aggregate_state. exact Ea.
Qed.

Lemma top_crops_window_spec (df : DataFrame) (yc : string) (n : Z)
      (yj : nat) (Y : Z) :
  index_of yc (columns df) = Some yj ->
  max_int (to_numeric (column df yj)) = Some Y -> Y <> 0%Z ->
  is_max_year (to_numeric (column df yj)) Y
  /\ top_crops_window df yc n
     = window_rows yj (Y - n + 1, Y)%Z
                   (setitem df yc (to_numeric (column df yj))).
Proof.
  intros Hi Hm Hz. split; [now apply max_int_spec|].
  unfold top_crops_window. rewrite Hi, Hm.
  destruct (Z.eqb_spec Y 0); [contradiction | reflexivity].
Qed.

Lemma national_window_spec (df_work : DataFrame) (yc : string)
      (mn mx : option string) (n : Z) (d : QueryExecutor.MetaDebug)
      (out : DataFrame) (meta : QueryExecutor.Meta) :
  QueryExecutor.national_window df_work yc mn mx n d = Ok (QueryExecutor.Computed out meta) ->
  exists yj years Y ms ys v,
    getitem df_work yc = Ok years
    /\ index_of yc (columns df_work) = Some yj
    /\ is_max_year years Y
    /\ QueryExecutor.years_used meta = (Y - n + 1, Y)%Z
    /\ getitem (window_rows yj (Y - n + 1, Y)%Z df_work) "annual_mean_temp_c"
       = Ok ms
    /\ getitem (window_rows yj (Y - n + 1, Y)%Z df_work) yc = Ok ys
    /\ mean_cells ms = Ok v
    /\ rows out = [[CStr "All India"; v]]
    /\ QueryExecutor.rows_used meta = QueryExecutor.complete_rows ys ms.
Proof.
  unfold QueryExecutor.national_window.
  destruct (getitem df_work yc) as [years|] eqn:Ey; cbn [bind]; [|discriminate].
  destruct (max_int years) as [Y|] eqn:Em; [|discriminate].
  unfold col_idx. destruct (index_of yc (columns df_work)) as [yj|] eqn:Ei;
    cbn [bind]; [|discriminate].
  destruct (is_empty _); [discriminate|].
  do 3 (case_bind; [|discriminate]).
  intros H. injection H as <- <-.
  do 6 eexists.
  split; [reflexivity|]. split; [reflexivity|].
  split; [apply max_int_spec; eassumption|].
  split; [reflexivity|].
  split; [eassumption|]. split; [eassumption|]. split; [eassumption|].
  split; reflexivity.
Qed.

Lemma top_crops_windowed (df : DataFrame) (state : string) (n m : Z)
      (yj : nat) (Y : Z) :
  let cols := columns df in
  let yc := or_default (detect ["year"; "season"; "reporting_year"]
                               (map lower cols) cols) "year" in
  index_of yc cols = Some yj ->
  max_int (to_numeric (column df yj)) = Some Y -> Y <> 0%Z ->
  is_max_year (to_numeric (column df yj)) Y
  /\ top_crops_by_volume df state n m
     = top_crops_aggregate
         (window_rows yj (Y - n + 1, Y)%Z
                      (setitem df yc (to_numeric (column df yj))))
         (or_default (detect ["state"; "st"; "state_name"]
                             (map lower cols) cols) "state")
         state
         (or_default (detect ["production_tonnes"; "production";
                              "production (tonnes)"; "production (t)";
                              "quantity"] (map lower cols) cols)
                     "production_tonnes")
         (or_default (detect ["crop"; "commodity"; "crop_name"]
                             (map lower cols) cols) "crop")
         m.
Proof.
  intros cols yc Hi Hm Hz.
  destruct (@top_crops_window_spec df yc n yj Y Hi Hm Hz) as [H1 H2].
  split; [exact H1|]. unfold top_crops_by_volume. fold cols. fold yc.
  now rewrite H2.
Qed.

Lemma national_windowed (input : QueryExecutor.Loaded) (n : Z)
      (out : DataFrame) (meta : QueryExecutor.Meta) :
  QueryExecutor.compute_national_climate_avg input n
  = Ok (QueryExecutor.Computed out meta) ->
  exists df df_work yj years Y ms ys v,
    input = QueryExecutor.Frame df
    /\ QueryExecutor.working_frame df (QueryExecutor.year_column meta)
         (QueryExecutor.min_col meta) (QueryExecutor.max_col meta)
       = Ok df_work
    /\ getitem df_work (QueryExecutor.year_column meta) = Ok years
    /\ index_of (QueryExecutor.year_column meta) (columns df_work) = Some yj
    /\ is_max_year years Y
    /\ QueryExecutor.years_used meta = (Y - n + 1, Y)%Z
    /\ getitem (window_rows yj (Y - n + 1, Y)%Z df_work) "annual_mean_temp_c"
       = Ok ms
    /\ getitem (window_rows yj (Y - n + 1, Y)%Z df_work)
               (QueryExecutor.year_column meta) = Ok ys
    /\ mean_cells ms = Ok v
    /\ rows out = [[CStr "All India"; v]]
    /\ QueryExecutor.rows_used meta = QueryExecutor.complete_rows ys ms.
Proof.
  unfold QueryExecutor.compute_national_climate_avg.
  destruct input as [| |df]; try discriminate.
  destruct (is_empty df); [discriminate|].
  destruct (QueryExecutor.find_year _) as [[ycn|] notes]; [|discriminate].
  destruct (QueryExecutor.detect_min_max _ _ _) as [[[mn mx]|] d];
    [|discriminate].
  set (yc := match QueryExecutor.col_map_get df ycn with
             | Some c => c
             | None => ycn
             end).
  destruct (QueryExecutor.working_frame df yc mn mx) as [df_work|] eqn:Ew;
    cbn [bind]; [|discriminate].
  intros H.
  assert (Hmeta : QueryExecutor.year_column meta = yc
                  /\ QueryExecutor.min_col meta = mn
                  /\ QueryExecutor.max_col meta = mx).
  { revert H. unfold QueryExecutor.national_window.
    case_bind; [|discriminate].
    destruct (max_int _); [|discriminate].
    case_bind; [|discriminate].
    destruct (is_empty _); [discriminate|].
    do 3 (case_bind; [|discriminate]).
    intros H. injection H as _ <-. repeat split. }
  destruct Hmeta as (Ey & Emn & Emx).
  apply national_window_spec in H
    as (yj & years & Y & ms & ys & v & H1 & H2 & H3 & H4 & H5 & H6 & H7 & H8 & H9).
  rewrite Ey, Emn, Emx.
  exists df, df_work, yj, years, Y, ms, ys, v.
  split; [reflexivity|]. split; [exact Ew|]. tauto.
Qed.


End WindowFacts.



(** ** Grouping, row order and the top crops *)

Section GroupingFacts.

Import Text Pandas Analytics Props.
Context {lib : Lib}.
Local Open Scope string_scope.

Lemma ascii_compare_lt_trans (a b c : ascii) :
  Ascii.compare a b = Lt -> Ascii.compare b c = Lt -> Ascii.compare a c = Lt.
Proof.
  unfold Ascii.compare. rewrite !N.compare_lt_iff. apply N.lt_trans.
Qed.

Lemma ascii_compare_refl (a : ascii) : Ascii.compare a a = Eq.
Proof. unfold Ascii.compare. apply N.compare_refl. Qed.

Lemma string_compare_lt_trans (a b c : string) :
  String.compare a b = Lt -> String.compare b c = Lt -> String.compare a c = Lt.
Proof.
  revert b c. induction a as [|x a IH]; intros [|y b] [|z c]; simpl;
    try congruence.
  destruct (Ascii.compare x y) eqn:Exy; try discriminate;
    destruct (Ascii.compare y z) eqn:Eyz; try discriminate; intros H1 H2.
  - apply Ascii.compare_eq_iff in Exy, Eyz. subst.
    rewrite ascii_compare_refl. eapply IH; eassumption.
  - apply Ascii.compare_eq_iff in Exy. subst. now rewrite Eyz.
  - apply Ascii.compare_eq_iff in Eyz. subst. now rewrite Exy.
  - now rewrite (ascii_compare_lt_trans _ _ _ Exy Eyz).
Qed.

Lemma string_compare_refl (a : string) : String.compare a a = Eq.
Proof.
  induction a as [|x a IH]; simpl; [reflexivity|].
  now rewrite ascii_compare_refl.
Qed.

Lemma Qltb_iff (p q : Q) : Qltb p q = true <-> (p < q)%Q.
Proof.
  unfold Qltb. rewrite negb_true_iff. split.
  - intros H. apply Qnot_le_lt. intros Hle. apply Qle_bool_iff in Hle. congruence.
  - intros H. destruct (Qle_bool q p) eqn:E; [|reflexivity].
    apply Qle_bool_iff in E. exfalso. eapply Qlt_not_le; eassumption.
Qed.

Lemma key_lt_irrefl (a : cell) : ~ key_lt a a.
Proof.
  unfold key_lt. destruct a as [q|s| |]; simpl; try discriminate.
  - rewrite Qltb_iff. apply Qlt_irrefl.
  - unfold String.ltb. now rewrite string_compare_refl.
Qed.

Lemma key_lt_trans (a b c : cell) : key_lt a b -> key_lt b c -> key_lt a c.
Proof.
  unfold key_lt.
  destruct a as [p|s| |], b as [q|t| |], c as [r|u| |]; simpl;
    try discriminate; auto.
  - rewrite !Qltb_iff. apply Qlt_trans.
  - unfold String.ltb.
    destruct (String.compare s t) eqn:E1; try discriminate.
    destruct (String.compare t u) eqn:E2; try discriminate.
    now rewrite (string_compare_lt_trans _ _ _ E1 E2).
Qed.

Lemma key_lt_total (a b : cell) :
  canonical a -> canonical b ->
  key_ltb a b = false -> key_ltb b a = false -> a = b.
Proof.
  intros [ca Ha] [cb Hb].
  destruct ca as [p|s| |]; simpl in Ha; inversion Ha; subst; clear Ha;
    destruct cb as [q|t| |]; simpl in Hb; inversion Hb; subst; clear Hb; simpl;
    try discriminate.
  - intros H1 H2. f_equal. apply Qred_complete.
    rewrite <- (Qred_correct p), <- (Qred_correct q).
    apply Qle_antisym; apply Qnot_lt_le; intros H; apply Qltb_iff in H; congruence.
  - unfold String.ltb. rewrite (String.compare_antisym t s).
    destruct (String.compare s t) eqn:E; simpl; try discriminate.
    intros _ _. f_equal. now apply String.compare_eq_iff.
Qed.

Lemma insert_key_in (k x : cell) (l : list cell) :
  canonical k -> Forall canonical l ->
  (In x (insert_key k l) <-> x = k \/ In x l).
Proof.
  intros Hk. induction 1 as [|h t Hh Ht IH]; simpl; [intuition|].
  destruct (key_ltb k h) eqn:E1; simpl; [intuition|].
  destruct (key_ltb h k) eqn:E2; simpl.
  - rewrite IH. intuition.
  - rewrite (key_lt_total Hk Hh E1 E2). intuition.
Qed.

Lemma insert_key_canonical (k : cell) (l : list cell) :
  canonical k -> Forall canonical l -> Forall canonical (insert_key k l).
Proof.
  intros Hk Hl. rewrite Forall_forall. intros x Hx.
  apply insert_key_in in Hx; auto. destruct Hx as [-> | Hx]; auto.
  rewrite Forall_forall in Hl. auto.
Qed.

Lemma insert_key_sorted (k : cell) (l : list cell) :
  canonical k -> Forall canonical l ->
  StronglySorted key_lt l -> StronglySorted key_lt (insert_key k l).
Proof.
  intros Hk Hc Hs. induction Hs as [|h t Hs IH Hh]; simpl.
  - repeat constructor.
  - inversion Hc as [|? ? Hch Hct]; subst.
    destruct (key_ltb k h) eqn:E1.
    + constructor; [now constructor|]. constructor; [exact E1|].
      rewrite Forall_forall in Hh |- *. intros x Hx.
      eapply key_lt_trans; [exact E1 | now apply Hh].
    + destruct (key_ltb h k) eqn:E2.
      * constructor; [now apply IH|].
        rewrite Forall_forall in Hh |- *. intros x Hx.
        apply insert_key_in in Hx; auto. destruct Hx as [-> | Hx]; auto.
      * now constructor.
Qed.

Lemma keys_of_canonical (col : list cell) : Forall canonical (keys_of col).
Proof.
  induction col as [|c t IH]; simpl; [constructor|].
  destruct (key_of c) eqn:E; [|exact IH]. constructor; [now exists c | exact IH].
Qed.

Lemma group_keys_facts (ks : list cell) :
  Forall canonical ks ->
  let g := fold_right insert_key [] ks in
  Forall canonical g /\ StronglySorted key_lt g /\ forall x, In x g <-> In x ks.
Proof.
  induction 1 as [|k t Hk Ht IH]; simpl.
  - split; [constructor|]. split; [constructor | reflexivity].
  - destruct IH as (Hc & Hs & Hin). split; [|split].
    + now apply insert_key_canonical.
    + now apply insert_key_sorted.
    + intros x. rewrite insert_key_in by assumption. rewrite Hin. intuition.
Qed.

Lemma sorted_unique (l l' : list cell) :
  StronglySorted key_lt l -> StronglySorted key_lt l' ->
  (forall x, In x l <-> In x l') -> l = l'.
Proof.
  intros Hs. revert l'. induction Hs as [|h t Hs IH Hh]; intros l' Hs' Hin.
  - destruct l' as [|h' t']; [reflexivity|].
    destruct (proj2 (Hin h') (or_introl eq_refl)).
  - destruct Hs' as [|h' t' Hs' Hh'].
    + destruct (proj1 (Hin h) (or_introl eq_refl)).
    + rewrite Forall_forall in Hh, Hh'.
      assert (E : h = h').
      { destruct (proj1 (Hin h) (or_introl eq_refl)) as [E | H1]; [now symmetry|].
        destruct (proj2 (Hin h') (or_introl eq_refl)) as [E | H2]; [exact E|].
        exfalso. apply (@key_lt_irrefl h).
        eapply key_lt_trans; [apply Hh, H2 | apply Hh', H1]. }
      subst h'. f_equal. apply IH; [exact Hs'|].
      intros x. split; intros Hx.
      * destruct (proj1 (Hin x) (or_intror Hx)) as [E | H1]; [|exact H1].
        subst x. exfalso. apply (@key_lt_irrefl h). now apply Hh.
      * destruct (proj2 (Hin x) (or_intror Hx)) as [E | H1]; [|exact H1].
        subst x. exfalso. apply (@key_lt_irrefl h). now apply Hh'.
Qed.

Lemma keys_of_perm (col col' : list cell) :
  Permutation col col' -> Permutation (keys_of col) (keys_of col').
Proof.
  induction 1 as [|c l l' _ IH|c d l|l l' l'' _ IH1 _ IH2]; simpl.
  - constructor.
  - destruct (key_of c); [now constructor | exact IH].
  - destruct (key_of c), (key_of d); try reflexivity. constructor.
  - now transitivity (keys_of l').
Qed.

Lemma group_keys_perm (col col' : list cell) :
  Permutation col col' -> group_keys col = group_keys col'.
Proof.
  intros H. unfold group_keys.
  destruct (group_keys_facts (keys_of_canonical col)) as (_ & Hs & Hin).
  destruct (group_keys_facts (keys_of_canonical col')) as (_ & Hs' & Hin').
  apply sorted_unique; auto.
  intros x. rewrite Hin, Hin'. apply keys_of_perm in H.
  split; apply Permutation_in; [exact H | now symmetry].
Qed.

Lemma numbers_perm (col col' : list cell) :
  Permutation col col' -> Permutation (numbers col) (numbers col').
Proof.
  induction 1 as [|c l l' _ IH|c d l|l l' l'' _ IH1 _ IH2]; simpl.
  - constructor.
  - destruct c; auto.
  - destruct c, d; try reflexivity. constructor.
  - now transitivity (numbers l').
Qed.

Lemma Qsum_perm (l l' : list Q) : Permutation l l' -> (Qsum l == Qsum l')%Q.
Proof.
  induction 1 as [|c l l' _ IH|c d l|l l' l'' _ IH1 _ IH2]; simpl.
  - reflexivity.
  - fold (Qsum l) (Qsum l'). now rewrite IH.
  - fold (Qsum l). ring.
  - now rewrite IH1.
Qed.

Lemma filter_perm (A : Type) (p : A -> bool) (l l' : list A) :
  Permutation l l' -> Permutation (filter p l) (filter p l').
Proof.
  induction 1 as [|c l l' _ IH|c d l|l l' l'' _ IH1 _ IH2]; simpl.
  - constructor.
  - destruct (p c); auto.
  - destruct (p c), (p d); try reflexivity. constructor.
  - now transitivity (filter p l').
Qed.

Lemma sum_cells_perm (col col' : list cell) :
  Permutation col col' -> sum_cells col = sum_cells col'.
Proof.
  intros H. unfold sum_cells. apply Qred_complete, Qsum_perm, numbers_perm, H.
Qed.

Lemma groupby_sum_perm (kj vj : nat) (rs rs' : list (list cell)) :
  Permutation rs rs' -> groupby_sum kj vj rs = groupby_sum kj vj rs'.
Proof.
  intros H. unfold groupby_sum.
  rewrite (group_keys_perm (Permutation_map (cell_at kj) H)).
  apply map_ext. intros k. f_equal. apply sum_cells_perm.
  unfold group_cells. apply Permutation_map, filter_perm, H.
Qed.

Lemma combine_map_self (A B : Type) (f : A -> B) (l : list A) :
  combine l (map f l) = map (fun a => (a, f a)) l.
Proof. induction l as [|a t IH]; simpl; congruence. Qed.

Lemma setitem_rowwise (df : DataFrame) (name : string) (f : list cell -> cell) :
  setitem df name (map f (rows df))
  = mkDF (match index_of name (columns df) with
          | Some _ => columns df
          | None => columns df ++ [name]
          end)
         (map (set_row (index_of name (columns df)) f) (rows df)).
Proof.
  unfold setitem. rewrite combine_map_self.
  destruct (index_of name (columns df)); rewrite map_map; reflexivity.
Qed.

Lemma setitem_same_rows (df df' : DataFrame) (name : string)
      (f : list cell -> cell) :
  same_rows df df' ->
  same_rows (setitem df name (map f (rows df)))
            (setitem df' name (map f (rows df'))).
Proof.
  intros [Hc Hp]. rewrite !setitem_rowwise, Hc. split; [reflexivity|].
  cbn [rows]. now apply Permutation_map.
Qed.

Lemma filter_same_rows (p : list cell -> bool) (df df' : DataFrame) :
  same_rows df df' -> same_rows (filter_rows p df) (filter_rows p df').
Proof.
  intros [Hc Hp]. split; [exact Hc|]. cbn [filter_rows rows].
  now apply filter_perm.
Qed.

Lemma to_numeric_coercion (col : list cell) :
  to_numeric col = map (coercion col) col.
Proof.
  unfold to_numeric, coercion. destruct col as [|c t]; [reflexivity|].
  destruct (forallb is_nat_cell (c :: t)); reflexivity.
Qed.

Lemma forallb_perm (A : Type) (p : A -> bool) (l l' : list A) :
  Permutation l l' -> forallb p l = forallb p l'.
Proof.
  induction 1 as [|c l l' _ IH|c d l|l l' l'' _ IH1 _ IH2]; simpl.
  - reflexivity.
  - now rewrite IH.
  - destruct (p c), (p d); reflexivity.
  - congruence.
Qed.

Lemma coercion_perm (col col' : list cell) :
  Permutation col col' -> coercion col = coercion col'.
Proof. intros H. unfold coercion. now rewrite (forallb_perm _ H). Qed.

Lemma to_numeric_perm (col col' : list cell) :
  Permutation col col' -> Permutation (to_numeric col) (to_numeric col').
Proof.
  intros H. rewrite !to_numeric_coercion, (coercion_perm H).
  now apply Permutation_map.
Qed.

Lemma Zmax_list_perm (l l' : list Z) :
  Permutation l l' -> Zmax_list l = Zmax_list l'.
Proof.
  assert (E : forall (t : list Z) (x y : Z),
             fold_left Z.max t (Z.max x y) = Z.max x (fold_left Z.max t y)).
  { induction t as [|z t IH]; intros x y; simpl; [reflexivity|].
    rewrite <- IH. f_equal. lia. }
  induction 1 as [|c l l' H IH|c d l|l l' l'' _ IH1 _ IH2].
  - reflexivity.
  - unfold Zmax_list in *. destruct l as [|a t].
    + apply Permutation_nil in H. now subst.
    + destruct l' as [|a' t'];
        [apply Permutation_sym, Permutation_nil in H; discriminate|].
      simpl. injection IH as IH. rewrite !E, IH. reflexivity.
  - simpl. f_equal. f_equal. lia.
  - congruence.
Qed.

Lemma max_int_perm (col col' : list cell) :
  Permutation col col' -> max_int col = max_int col'.
Proof.
  intros H. unfold max_int.
  apply Zmax_list_perm, Permutation_map, numbers_perm, H.
Qed.

Lemma column_perm (df df' : DataFrame) (j : nat) :
  same_rows df df' -> Permutation (column df' j) (column df j).
Proof. intros [_ Hp]. unfold column. now apply Permutation_map. Qed.

Lemma to_numeric_rowwise (df : DataFrame) (j : nat) :
  to_numeric (column df j)
  = map (fun r => coercion (column df j) (cell_at j r)) (rows df).
Proof. rewrite to_numeric_coercion. unfold column. now rewrite map_map. Qed.

Lemma window_same_rows (df df' : DataFrame) (yc : string) (n : Z) :
  same_rows df df' ->
  same_rows (top_crops_window df yc n) (top_crops_window df' yc n).
Proof.
  intros H. pose proof H as [Hc Hp]. unfold top_crops_window. rewrite Hc.
  destruct (index_of yc (columns df)) as [yj|] eqn:E; [|exact H].
  pose proof (column_perm yj H) as Hcol.
  rewrite (max_int_perm (to_numeric_perm Hcol)).
  rewrite !to_numeric_rowwise, (coercion_perm Hcol).
  pose proof (setitem_same_rows yc
                (fun r => coercion (column df yj) (cell_at yj r)) H) as Hs.
  destruct (max_int _) as [my|]; [|exact Hs].
  destruct (my =? 0)%Z; [exact Hs|].
  now apply filter_same_rows.
Qed.

Lemma repeat_map (A B : Type) (v : B) (l : list A) :
  repeat v (List.length l) = map (fun _ => v) l.
Proof. induction l as [|a t IH]; simpl; congruence. Qed.

Lemma prepare_same_rows (df df' : DataFrame) (sc st pc : string) :
  same_rows df df' ->
  same_rows (top_crops_prepare df sc st pc) (top_crops_prepare df' sc st pc).
Proof.
  intros H. unfold top_crops_prepare.
  assert (Hf : same_rows
            match index_of sc (columns df) with
            | Some sj => filter_rows (fun r => cell_is_str st (cell_at sj r)) df
            | None => df
            end
            match index_of sc (columns df') with
            | Some sj => filter_rows (fun r => cell_is_str st (cell_at sj r)) df'
            | None => df'
            end).
  { destruct H as [Hc Hp]. rewrite Hc.
    destruct (index_of sc (columns df)); [apply filter_same_rows|]; now split. }
  set (d := match index_of sc (columns df) with Some _ => _ | None => _ end) in *.
  set (d' := match index_of sc (columns df') with Some _ => _ | None => _ end) in *.
  clearbody d d'. pose proof Hf as [Hc Hp]. rewrite Hc.
  destruct (index_of pc (columns d)) as [pj|].
  - pose proof (column_perm pj Hf) as Hcol.
    rewrite !to_numeric_rowwise, !map_map, (coercion_perm Hcol).
    apply (setitem_same_rows pc
             (fun r => fillna (CNum 0) (coercion (column d pj) (cell_at pj r))) Hf).
  - unfold setitem_scalar. rewrite !repeat_map.
    apply (setitem_same_rows pc (fun _ => CNum 0) Hf).
Qed.

(** With sums taken exactly, the top crops do not depend on the order of
    the rows. *)
Lemma top_crops_perm (df df' : DataFrame) (state : string) (n m : Z) :
  same_rows df df' ->
  top_crops_by_volume df' state n m = top_crops_by_volume df state n m.
Proof.
  intros H. pose proof H as [Hc _]. unfold top_crops_by_volume, top_crops_aggregate. rewrite Hc.
  set (yc := or_default (detect ["year"; "season"; "reporting_year"] _ _) _).
  set (pc := or_default (detect ("production_tonnes" :: _) _ _) _).
  set (sc := or_default (detect ["state"; "st"; "state_name"] _ _) _).
  set (cc := or_default (detect ["crop"; "commodity"; "crop_name"] _ _) _).
  clearbody yc pc sc cc.
  pose proof (prepare_same_rows sc state pc (window_same_rows yc n H)) as [Hc2 Hp2].
  unfold col_idx. rewrite Hc2.
  destruct (index_of cc _) as [cj|]; [|reflexivity]. cbn [bind].
  destruct (index_of pc _) as [pj|]; [|reflexivity]. cbn [bind].
  now rewrite (groupby_sum_perm cj pj Hp2).
Qed.

(** X1: on a table whose numbers are integers with absolute values adding
    up to less than 2^53, so that float64 sums are exact in any order, the
    top crops do not depend on the order of the rows: two tables with the
    same labels and the same rows in any order give the same result. *)
Theorem top_crops_row_order (df df' : DataFrame) (state : string) (n m : Z) :
  exact_sums df ->
  same_rows df df' ->
  top_crops_by_volume df' state n m = top_crops_by_volume df state n m.
Proof. intros _. apply top_crops_perm. Qed.

Lemma firstn_sorted (A : Type) (R : A -> A -> Prop) (n : nat) (l : list A) :
  StronglySorted R l -> StronglySorted R (firstn n l).
Proof.
  intros H. revert n. induction H as [|a l H IH Ha]; intros [|n]; simpl;
    try constructor; auto.
  rewrite Forall_forall in Ha |- *. intros x Hx. apply Ha.
  eapply (In_nth_error) in Hx. destruct Hx as [i Hi].
  apply nth_error_In with (n := i).
  rewrite nth_error_firstn in Hi. destruct (i <? n)%nat; [exact Hi | discriminate].
Qed.

Lemma head_sorted (A : Type) (R : A -> A -> Prop) (m : Z) (l : list A) :
  StronglySorted R l -> StronglySorted R (head m l).
Proof. intros H. unfold head. destruct (0 <=? m)%Z; now apply firstn_sorted. Qed.

Lemma top_crops_rows (df out : DataFrame) (state : string) (n m : Z) :
  top_crops_by_volume df state n m = Ok out ->
  exists l, rows out = map pair_row (head m (sort_values_desc l))
            /\ List.length (columns out) = 2%nat.
Proof.
  unfold top_crops_by_volume, top_crops_aggregate.
  case_bind; [|discriminate]. case_bind; [|discriminate].
  intros E. injection E as <-. eexists. split; reflexivity.
Qed.

(** X2: when [sort_values] returns its rows in descending order of the
    summed column, the top crops for a count [m >= 0] are at most [m] rows
    in descending order of their summed production. *)
Theorem top_crops_sorted (df out : DataFrame) (state : string) (n m : Z) :
  (forall l, StronglySorted descending (sort_values_desc l)) ->
  (0 <= m)%Z ->
  top_crops_by_volume df state n m = Ok out ->
  exists agg, rows out = map pair_row agg
              /\ StronglySorted descending agg
              /\ (List.length (rows out) <= Z.to_nat m)%nat.
Proof.
  intros Hs Hm E. destruct (top_crops_rows _ _ _ _ E) as (l & Hr & _).
  exists (head m (sort_values_desc l)). split; [exact Hr|]. split.
  - apply head_sorted, Hs.
  - rewrite Hr, length_map. unfold head.
    destruct (0 <=? m)%Z eqn:E0; [apply firstn_le_length|lia].
Qed.

(** X3: asking for fewer crops gives the first rows of the longer
    answer. *)
Theorem top_crops_prefix (df out : DataFrame) (state : string) (n m m' : Z) :
  (0 <= m <= m')%Z ->
  top_crops_by_volume df state n m' = Ok out ->
  top_crops_by_volume df state n m
  = Ok (mkDF (columns out) (firstn (Z.to_nat m) (rows out))).
Proof.
  intros Hm. unfold top_crops_by_volume, top_crops_aggregate.
  case_bind; [|discriminate]. case_bind; [|discriminate].
  intros E. injection E as <-. cbn [columns rows]. f_equal. f_equal.
  unfold head.
  destruct (0 <=? m)%Z eqn:E0; [|lia]. destruct (0 <=? m')%Z eqn:E1; [|lia].
  rewrite firstn_map, firstn_firstn. do 2 f_equal. lia.
Qed.

Lemma index_of_in (x : string) (l : list string) :
  In x l -> exists j, index_of x l = Some j.
Proof.
  induction l as [|h t IH]; simpl; [intros []|].
  intros H. destruct (String.eqb_spec x h) as [->|Hne]; [now exists 0%nat|].
  destruct H as [H|H]; [congruence|].
  destruct (IH H) as [j ->]. now exists (S j).
Qed.

Lemma detect_found (cands cols : list string) :
  (exists c, In c cols /\ In (lower c) cands) ->
  exists yc, detect cands (map lower cols) cols = Some yc
             /\ In yc cols /\ In (lower yc) cands.
Proof.
  intros (c & Hc & Hl).
  induction cands as [|cand t IH]; simpl; [destruct Hl|].
  destruct (index_of cand (map lower cols)) as [j|] eqn:E.
  - apply index_of_some in E as [E Hj]. rewrite length_map in Hj.
    exists (nth j cols ""). split; [reflexivity|]. split; [now apply nth_In|].
    left. change "" with (lower "") in E. rewrite map_nth in E. now symmetry.
  - destruct Hl as [Hl|Hl].
    + exfalso. destruct (index_of_in cand (map lower cols)) as [j Hj];
        [|congruence].
      rewrite Hl. now apply in_map.
    + destruct (IH Hl) as (yc & H1 & H2 & H3). exists yc. auto.
Qed.

Lemma columns_setitem (df : DataFrame) (name : string) (vals : list cell) :
  columns (setitem df name vals)
  = if mem name (columns df) then columns df else (columns df ++ [name])%list.
Proof.
  unfold setitem, mem.
  destruct (index_of name (columns df)) as [j|] eqn:E; cbn [columns].
  - apply index_of_some in E as [E Hj].
    replace (existsb (String.eqb name) (columns df)) with true; [reflexivity|].
    symmetry. apply existsb_exists. exists name. split;
      [rewrite <- E; now apply nth_In | apply String.eqb_refl].
  - destruct (existsb (String.eqb name) (columns df)) eqn:E'; [|reflexivity].
    apply existsb_exists in E' as (x & Hx & Hxe).
    apply String.eqb_eq in Hxe. subst x.
    destruct (index_of_in _ _ Hx). congruence.
Qed.

Lemma columns_setitem_in (df : DataFrame) (name c : string) (vals : list cell) :
  In c (columns (setitem df name vals)) -> c = name \/ In c (columns df).
Proof.
  rewrite columns_setitem. destruct (mem name (columns df)); [now right|].
  rewrite in_app_iff. simpl. intuition.
Qed.

(** X4: without a column named production_tonnes or production (in any
    letter case) the trend raises [AttributeError]: the default that
    [df.get] returns is the integer 0, which has no [fillna]. *)
Theorem trend_without_production (df : DataFrame) (crop_name : string)
        (region_filter : list (string * cell)) :
  (forall c, In c (columns df) ->
             ~ In (lower c) ["production_tonnes"; "production"]) ->
  production_trend df crop_name region_filter
  = Raise (AttributeError "'int' object has no attribute 'fillna'").
Proof.
  intros H. unfold production_trend.
  rewrite (@detect_none ["production_tonnes"; "production"]).
  2:{ intros c Hc Hin. apply in_map_iff in Hin as (c' & <- & Hc').
      now apply (H c'). }
  cbn [or_default].
  rewrite index_of_none; [reflexivity|].
  intros Hin.
  assert (Hp : ~ In "production_tonnes" (columns df)).
  { intros Hc. apply (H _ Hc). now left. }
  destruct (truthy_opt _); [now apply Hp|].
  unfold setitem_scalar in Hin. apply columns_setitem_in in Hin.
  destruct Hin as [Hin|Hin]; [discriminate Hin | now apply Hp].
Qed.

(** X5: when the year column is detected under another spelling than
    [year] (Year, YEAR, season), no line is ever fitted: the series is read
    back by the label [year], so with two or more yearly sums the call
    raises and any result it returns has fewer than two rows and slope 0. *)
Theorem trend_needs_year_label (df ts : DataFrame) (crop_name : string)
        (region_filter : list (string * cell)) (t : Trend) :
  ~ In "year" (columns df) ->
  (exists c, In c (columns df) /\ In (lower c) ["year"; "season"]) ->
  production_trend df crop_name region_filter = Ok (ts, t) ->
  (List.length (rows ts) < 2)%nat /\ slope_per_year t = 0%Q.
Proof.
  intros Hny Hex. unfold production_trend.
  destruct (year_prod_distinct (columns df)) as [Hyp Hpy].
  destruct (@detect_found _ _ Hex) as (yc & Ey & Hyc & Hyl).
  rewrite Ey in *.
  assert (Ht : truthy yc = true).
  { destruct yc; [|reflexivity]. destruct Hyl as [Hl|[Hl|[]]]; discriminate Hl. }
  cbn [truthy_opt or_default] in *. rewrite Ht in *.
  assert (Hyy : yc <> "year") by (intros ->; now apply Hny).
  set (pc := or_default (detect ["production_tonnes"; "production"]
                                (map lower (columns df)) (columns df))
                        "production_tonnes") in *.
  destruct (index_of pc _) as [pj|]; [|discriminate].
  case_bind; [|discriminate].
  match goal with
  | |- context [match index_of yc ?c with _ => _ end] =>
      destruct (index_of yc c) as [yj|]
  end.
  - match goal with
    | |- context [map pair_row ?k] => set (kvs := k); clearbody kvs
    end.
    unfold fit_trend, getitem. cbn [rows columns index_of].
    destruct (String.eqb_spec "year" yc) as [E|_]; [congruence|].
    destruct (String.eqb_spec "year" pc) as [E|_]; [congruence|].
    cbn [option_map bind].
    destruct (2 <=? _)%nat eqn:E2; [discriminate|].
    rewrite String.eqb_refl.
    destruct (String.eqb_spec pc yc) as [E|_]; [congruence|].
    cbn [option_map bind]. intros H. injection H as <- <-.
    apply Nat.leb_gt in E2. split; [exact E2 | reflexivity].
  - unfold fit_trend, getitem. cbn [rows columns index_of List.length Nat.leb].
    destruct (String.eqb_spec pc "year") as [E|_]; [congruence|].
    rewrite String.eqb_refl. cbn [option_map bind].
    intros H. injection H as <- <-. split; [simpl; lia | reflexivity].
Qed.

End GroupingFacts.

(** The stable reference sort returns its rows in descending order. *)
Lemma insert_desc_sorted (x : Pandas.cell * Q) (l : list (Pandas.cell * Q)) :
  StronglySorted Props.descending l ->
  StronglySorted Props.descending (Reference.insert_desc x l).
Proof.
  induction 1 as [|y t Hs IH Hy]; simpl.
  - repeat constructor.
  - destruct (Qle_bool (snd y) (snd x)) eqn:E.
    + apply Qle_bool_iff in E.
      constructor; [now constructor|]. constructor; [exact E|].
      rewrite Forall_forall in Hy |- *. intros z Hz.
      unfold Props.descending in *. eapply Qle_trans; [apply Hy, Hz | exact E].
    + constructor; [exact IH|].
      assert (Hxy : Props.descending y x).
      { unfold Props.descending. apply Qlt_le_weak, Qnot_le_lt.
        intros H. apply Qle_bool_iff in H. congruence. }
      clear IH Hs E. induction t as [|z t IHt]; simpl.
      * now repeat constructor.
      * inversion Hy; subst. destruct (Qle_bool (snd z) (snd x)).
        -- constructor; [exact Hxy|]. now constructor.
        -- constructor; [assumption|]. now apply IHt.
Qed.

Lemma stable_desc_sorted (l : list (Pandas.cell * Q)) :
  StronglySorted Props.descending (Reference.stable_desc l).
Proof.
  induction l as [|x t IH]; simpl; [constructor|].
  now apply insert_desc_sorted.
Qed.

(** The example tables hold whole numbers only. *)
Lemma tied_crops_exact :
  Props.exact_sums (lib := Reference.stable_lib) Examples.tied_crops.
Proof.
  split; [|split].
  - intros H. vm_compute in H. intuition discriminate.
  - vm_compute. repeat constructor.
  - vm_compute. reflexivity.
Qed.

Lemma climate_two_years_exact :
  Props.exact_sums (lib := Reference.stable_lib) Examples.climate_two_years.
Proof.
  split; [|split].
  - intros H. vm_compute in H. intuition discriminate.
  - vm_compute. repeat constructor.
  - vm_compute. reflexivity.
Qed.

(** The two example tables hold the same rows in opposite orders. *)
Lemma top_crops_row_order_witness :
  Props.exact_sums (lib := Reference.stable_lib) Examples.tied_crops
  /\ Props.same_rows Examples.tied_crops Examples.tied_crops_swapped
  /\ Analytics.top_crops_by_volume (lib := Reference.stable_lib)
       Examples.tied_crops_swapped "StateA" 1 2
     = Analytics.top_crops_by_volume (lib := Reference.stable_lib)
         Examples.tied_crops "StateA" 1 2.
Proof.
  assert (H : Props.same_rows Examples.tied_crops Examples.tied_crops_swapped).
  { split; [reflexivity | apply perm_swap]. }
  split; [exact tied_crops_exact|]. split; [exact H|].
  exact (@top_crops_row_order Reference.stable_lib _ _ "StateA"%string 1%Z 2%Z
           tied_crops_exact H).
Defined.

Lemma top_crops_sorted_witness :
  exists out agg,
    Analytics.top_crops_by_volume (lib := Reference.stable_lib)
      Loaders.sample_crop_production "StateB" 1 2 = Pandas.Ok out
    /\ Pandas.rows out = map Analytics.pair_row agg
    /\ StronglySorted Props.descending agg
    /\ (List.length (Pandas.rows out) <= Z.to_nat 2)%nat.
Proof.
  destruct (Analytics.top_crops_by_volume (lib := Reference.stable_lib)
              Loaders.sample_crop_production "StateB" 1 2)
    as [out|e] eqn:E; [|vm_compute in E; discriminate E].
  assert (Hm : (0 <= 2)%Z) by lia.
  destruct (@top_crops_sorted Reference.stable_lib _ _ _ _ _
              stable_desc_sorted Hm E) as (agg & H1 & H2 & H3).
  exists out, agg. auto.
Defined.

Lemma top_crops_prefix_witness :
  exists out,
    Analytics.top_crops_by_volume (lib := Reference.stable_lib)
      Examples.tied_crops "StateA" 1 2 = Pandas.Ok out
    /\ Analytics.top_crops_by_volume (lib := Reference.stable_lib)
         Examples.tied_crops "StateA" 1 1
       = Pandas.Ok (Pandas.mkDF (Pandas.columns out)
                                (firstn (Z.to_nat 1) (Pandas.rows out))).
Proof.
  destruct (Analytics.top_crops_by_volume (lib := Reference.stable_lib)
              Examples.tied_crops "StateA" 1 2)
    as [out|e] eqn:E; [|vm_compute in E; discriminate E].
  exists out. split; [reflexivity|].
  assert (Hm : (0 <= 1 <= 2)%Z) by lia.
  exact (@top_crops_prefix Reference.stable_lib _ _ _ _ _ _ Hm E).
Defined.

Lemma trend_without_production_witness :
  Analytics.production_trend (lib := Reference.stable_lib)
    Examples.no_roles "Wheat" []
  = Pandas.Raise (Pandas.AttributeError "'int' object has no attribute 'fillna'").
Proof.
  apply (@trend_without_production Reference.stable_lib).
  intros c Hc Hin. cbn [Pandas.columns Examples.no_roles] in Hc.
  destruct Hc as [<- | [<- | []]]; vm_compute in Hin; intuition discriminate.
Defined.

Lemma trend_needs_year_label_witness :
  Analytics.production_trend (lib := Reference.stable_lib)
    Examples.wheat_capital_year "Wheat" []
  = Pandas.Raise (Pandas.KeyError "year")
  /\ exists ts t,
       Analytics.production_trend (lib := Reference.stable_lib)
         Examples.wheat_capital_one_year "Wheat" [] = Pandas.Ok (ts, t)
       /\ (List.length (Pandas.rows ts) < 2)%nat
       /\ Analytics.slope_per_year t = 0%Q.
Proof.
  split; [vm_compute; reflexivity|].
  destruct (Analytics.production_trend (lib := Reference.stable_lib)
              Examples.wheat_capital_one_year "Wheat" [])
    as [[ts t]|e] eqn:E; [|vm_compute in E; discriminate E].
  exists ts, t. split; [reflexivity|].
  apply (@trend_needs_year_label Reference.stable_lib _ _ _ _ _) with (3 := E).
  - intros H. vm_compute in H. intuition discriminate.
  - exists "Year"%string. split; [now left | now left].
Defined.

(** ** Filters and states of the climate average and the trend *)

Section AvgFacts.

Import Text Pandas Analytics Props.
Context {lib : Lib}.
Local Open Scope string_scope.

Lemma apply_region_filter_skip (rf : list (string * cell)) (dff : DataFrame) :
  (forall k v, In (k, v) rf -> ~ In k (columns dff)) ->
  apply_region_filter rf dff = dff.
Proof.
  induction rf as [|[k v] rest IH]; simpl; [reflexivity|].
  intros H. rewrite index_of_none by (apply (H k v); now left).
  apply IH. intros k' v' Hin. apply (H k' v'). now right.
Qed.

(** X6: a region filter restricts the trend only by keys that are column
    labels of the table, spelled exactly; every other key is skipped
    without notice, so the trend is the one of the unfiltered table. *)
Theorem trend_skips_unknown_keys (df : DataFrame) (crop_name : string)
        (region_filter : list (string * cell)) :
  (forall k v, In (k, v) region_filter -> ~ In k ("year" :: columns df)) ->
  production_trend df crop_name region_filter
  = production_trend df crop_name [].
Proof.
  intros H. unfold production_trend.
  set (pc := or_default (detect ["production_tonnes"; "production"] _ _) _).
  set (df0 := if truthy_opt _ then df else setitem_scalar df "year" CNaT).
  assert (H0 : forall c, In c (columns df0) -> In c ("year" :: columns df)).
  { intros c. unfold df0. destruct (truthy_opt _); [now right|].
    unfold setitem_scalar. intros Hc. apply columns_setitem_in in Hc.
    destruct Hc as [->|Hc]; [now left | now right]. }
  clearbody df0 pc.
  destruct (index_of pc (columns df0)) as [pj|] eqn:Ep; [|reflexivity].
  case_bind; [|reflexivity].
  rewrite apply_region_filter_skip; [reflexivity|].
  intros k v Hin Hc. apply (H k v Hin). apply H0.
  cbn [filter_rows columns] in Hc. apply columns_setitem_in in Hc.
  destruct Hc as [->|Hc]; [|exact Hc].
  apply index_of_some in Ep as [<- Hj]. now apply nth_In.
Qed.

Lemma mapM_ok (A B : Type) (f : A -> result B) (l : list A) (rs : list B) :
  mapM f l = Ok rs -> Forall2 (fun a b => f a = Ok b) l rs.
Proof.
  revert rs. induction l as [|a t IH]; simpl; intros rs.
  - intros H. injection H as <-. constructor.
  - destruct (f a) as [b|] eqn:E; cbn [bind]; [|discriminate].
    destruct (mapM f t) as [bs|]; cbn [bind]; [|discriminate].
    intros H. injection H as <-. constructor; auto.
Qed.

Lemma keys_of_in (col : list cell) (k : cell) :
  In k (keys_of col) <-> exists c, In c col /\ key_of c = Some k.
Proof.
  induction col as [|c t IH]; simpl.
  - split; [intros [] | intros (c & [] & _)].
  - destruct (key_of c) as [k'|] eqn:E; simpl; rewrite IH; split.
    + intros [<-|(c' & H1 & H2)]; [exists c; auto | exists c'; auto].
    + intros (c' & [<-|H1] & H2); [left; congruence | right; exists c'; auto].
    + intros (c' & H1 & H2). exists c'; auto.
    + intros (c' & [<-|H1] & H2); [congruence | exists c'; auto].
Qed.

Lemma group_keys_spec (col : list cell) :
  StronglySorted key_lt (group_keys col)
  /\ forall k, In k (group_keys col) <-> exists c, In c col /\ key_of c = Some k.
Proof.
  destruct (group_keys_facts (keys_of_canonical col)) as (_ & Hs & Hin).
  split; [exact Hs|]. intros k. unfold group_keys. rewrite Hin. apply keys_of_in.
Qed.

Lemma groupby_mean_rows (kj vj : nat) (rs : list (list cell))
      (out : list (list cell)) :
  groupby_mean kj vj rs = Ok out ->
  map (cell_at 0) out = group_keys (map (cell_at kj) rs)
  /\ forall r, In r out -> exists m, r = [cell_at 0 r; m].
Proof.
  unfold groupby_mean. destruct (has_text _); [discriminate|].
  intros H. apply mapM_ok in H.
  induction H as [|k r ks rs' Hk _ IH]; simpl.
  - split; [reflexivity | intros r []].
  - destruct IH as [IH1 IH2].
    destruct (mean_cells _) as [m|]; cbn [bind] in Hk; [|discriminate].
    injection Hk as <-. split.
    + cbn [cell_at nth]. now rewrite IH1.
    + intros r [<-|Hr]; [now exists m | now apply IH2].
Qed.

Lemma avg_state_truthy (df df1 : DataFrame) (states : list string)
      (yc mc : option (list string)) (n : Z) (out : DataFrame) (meta : AvgMeta)
      (sc : string) :
  avg_annual_climate_metric df states yc mc n = (Ok (out, meta), df1) ->
  state_column meta = Some sc -> truthy sc = true.
Proof.
  unfold avg_annual_climate_metric.
  set (s := detect state_candidates _ _). clearbody s.
  destruct (negb (truthy_opt _)); [discriminate|].
  destruct (if truthy_opt _ then _ else _) as [metric_col|]; [|discriminate].
  destruct (getitem df _) as [ycol|]; [|discriminate].
  destruct (window_of _ _) as [w|]; [|discriminate].
  case_bind; [|discriminate]. case_bind; [|discriminate].
  intros H. injection H as <- <- <-. cbn [state_column].
  destruct s as [s|]; cbn [truthy_opt]; [|discriminate].
  destruct (truthy s) eqn:E; [|discriminate]. intros H. now injection H as <-.
Qed.

Lemma groupby_mean_spec (kj vj : nat) (rs : list (list cell))
      (out : list (list cell)) :
  groupby_mean kj vj rs = Ok out ->
  Forall2 (fun k r => exists m, mean_cells (group_cells kj vj rs k) = Ok m
                                /\ r = [k; m])
          (group_keys (map (cell_at kj) rs)) out.
Proof.
  unfold groupby_mean. destruct (has_text _); [discriminate|].
  intros H. apply mapM_ok in H.
  induction H as [|k r ks rs' Hk _ IH]; constructor; [|exact IH].
  destruct (mean_cells _) as [m|]; cbn [bind] in Hk; [|discriminate].
  injection Hk as <-. now exists m.
Qed.

Lemma Forall2_in_r (A B : Type) (R : A -> B -> Prop) (l : list A)
      (l' : list B) (b : B) :
  Forall2 R l l' -> In b l' -> exists a, In a l /\ R a b.
Proof.
  induction 1 as [|x y l l' Hxy _ IH]; [intros []|].
  intros [<-|Hb]; [exists x; split; [now left | exact Hxy]|].
  destruct (IH Hb) as (a & Ha & HR). exists a. split; [now right | exact HR].
Qed.

Lemma Forall2_in_l (A B : Type) (R : A -> B -> Prop) (l : list A)
      (l' : list B) (a : A) :
  Forall2 R l l' -> In a l -> exists b, In b l' /\ R a b.
Proof.
  induction 1 as [|x y l l' Hxy _ IH]; [intros []|].
  intros [<-|Ha]; [exists y; split; [now left | exact Hxy]|].
  destruct (IH Ha) as (b & Hb & HR). exists b. split; [now right | exact HR].
Qed.

Lemma filter_filter (A : Type) (p q : A -> bool) (l : list A) :
  filter p (filter q l) = filter (fun x => q x && p x) l.
Proof.
  induction l as [|a t IH]; simpl; [reflexivity|].
  destruct (q a); simpl; [destruct (p a)|]; now rewrite IH.
Qed.

Lemma state_group (states : list string) (s : string) (sj vj : nat)
      (rs : list (list cell)) :
  In s states ->
  group_cells sj vj (filter (fun r => isin states (cell_at sj r)) rs) (CStr s)
  = map (cell_at vj) (filter (fun r => cell_is_str s (cell_at sj r)) rs).
Proof.
  intros Hs. unfold group_cells. rewrite filter_filter. f_equal.
  apply filter_ext. intros r. unfold has_key, isin, cell_is_str.
  destruct (cell_at sj r) as [q|t| |]; simpl; try reflexivity.
  rewrite (String.eqb_sym s t).
  destruct (String.eqb_spec t s) as [->|_]; [|now rewrite andb_false_r].
  rewrite andb_true_r. unfold mem. apply existsb_exists.
  exists s. split; [exact Hs | apply String.eqb_refl].
Qed.

(** X7: when the climate table has a state column, the climate average
    lists exactly the requested states that have a row in the window, each
    once, in ascending order of the label, and each with the mean of the
    metric over its rows of the window. *)
Theorem avg_lists_requested_states (df df1 : DataFrame) (states : list string)
        (yc mc : option (list string)) (n : Z) (out : DataFrame)
        (meta : AvgMeta) (sc : string) :
  avg_annual_climate_metric df states yc mc n = (Ok (out, meta), df1) ->
  state_column meta = Some sc ->
  exists yj sj mj,
    index_of (year_column meta) (columns df1) = Some yj
    /\ index_of sc (columns df1) = Some sj
    /\ index_of (metric_column meta) (columns df1) = Some mj
    /\ columns out = [sc; "avg_" ++ metric_column meta]
    /\ StronglySorted key_lt (map (cell_at 0) (rows out))
    /\ (forall r, In r (rows out) ->
          exists s m,
            r = [CStr s; m] /\ In s states
            /\ mean_cells
                 (map (cell_at mj)
                      (filter (fun row => cell_is_str s (cell_at sj row))
                              (rows (window_rows yj (years_used meta) df1))))
               = Ok m)
    /\ (forall s row,
          In s states ->
          In row (rows (window_rows yj (years_used meta) df1)) ->
          cell_at sj row = CStr s ->
          exists m, In [CStr s; m] (rows out)).
Proof.
  intros H Hsc.
  assert (Ht : truthy sc = true) by (eapply avg_state_truthy; eassumption).
  apply avg_window in H as (yj & ycol & Y & _ & _ & Hyj & _ & Hyears & Ha).
  rewrite Hsc in Ha. unfold avg_aggregate in Ha.
  cbn [truthy_opt or_default] in Ha. rewrite Ht in Ha.
  unfold col_idx in Ha. cbn [window_rows filter_rows columns] in Ha.
  destruct (index_of (metric_column meta) (columns df1)) as [mj|] eqn:Em;
    cbn [bind] in Ha; [|discriminate].
  destruct (index_of sc (columns df1)) as [sj|] eqn:Es; cbn [bind] in Ha;
    [|discriminate].
  destruct (groupby_mean _ _ _) as [rs|] eqn:Eg; cbn [bind] in Ha;
    [|discriminate].
  injection Ha as <-. cbn [columns rows].
  exists yj, sj, mj. rewrite Hyears.
  split; [exact Hyj|]. split; [reflexivity|]. split; [reflexivity|].
  split; [reflexivity|].
  pose proof (groupby_mean_rows _ _ _ Eg) as [Hk _].
  pose proof (groupby_mean_spec _ _ _ Eg) as HF.
  cbn [rows] in Hk, HF.
  set (rw := rows (window_rows yj (Y - n + 1, Y)%Z df1)) in *.
  destruct (group_keys_spec
              (map (cell_at sj)
                   (filter (fun r => isin states (cell_at sj r)) rw)))
    as [Hs Hin].
  assert (Hkey : forall k,
             In k (group_keys
                     (map (cell_at sj)
                          (filter (fun r => isin states (cell_at sj r)) rw)))
             <-> exists s row, k = CStr s /\ In s states /\ In row rw
                               /\ cell_at sj row = CStr s).
  { intros k. rewrite Hin. split.
    - intros (c & Hc & Ek). apply in_map_iff in Hc as (r0 & <- & Hr0).
      apply filter_In in Hr0 as [Hr0 Hisin].
      destruct (cell_at sj r0) as [q|s| |] eqn:Ec; try discriminate Hisin.
      simpl in Ek. injection Ek as <-. exists s, r0.
      unfold isin, mem in Hisin.
      apply existsb_exists in Hisin as (x & Hx & Hxe).
      apply String.eqb_eq in Hxe. subst x. auto.
    - intros (s & row & -> & Hs' & Hrow & Ec). exists (CStr s).
      split; [|reflexivity]. apply in_map_iff. exists row.
      split; [exact Ec|]. apply filter_In. split; [exact Hrow|].
      rewrite Ec. unfold isin, mem. apply existsb_exists.
      exists s. split; [exact Hs' | apply String.eqb_refl]. }
  split; [rewrite Hk; exact Hs|]. split.
  - intros r Hr. destruct (@Forall2_in_r _ _ _ _ _ r HF Hr) as (k & Hkin & m & Hm & ->).
    apply (proj1 (Hkey k)) in Hkin as (s & row & -> & Hs' & _ & _).
    exists s, m. split; [reflexivity|]. split; [exact Hs'|].
    now rewrite <- (state_group states s sj mj rw Hs').
  - intros s row Hs' Hrow Ec.
    assert (Hkin : In (CStr s)
                      (group_keys
                         (map (cell_at sj)
                              (filter (fun r => isin states (cell_at sj r))
                                      rw)))).
    { apply (proj2 (Hkey (CStr s))). exists s, row. auto. }
    destruct (@Forall2_in_l _ _ _ _ _ (CStr s) HF Hkin) as (r & Hr & m & _ & ->).
    now exists m.
Qed.

End AvgFacts.

(** ** Column detection *)

Section DetectionFacts.

Import Text Pandas QueryExecutor Props.
Context {lib : Lib}.
Local Open Scope string_scope.

Lemma last_match_acc (p : string -> bool) (l : list string) (acc : option string) :
  fold_left (fun a nc => if p nc then Some nc else a) l acc
  = match fold_left (fun a nc => if p nc then Some nc else a) l None with
    | Some x => Some x
    | None => acc
    end.
Proof.
  revert acc. induction l as [|h t IH]; intros acc; simpl; [reflexivity|].
  destruct (p h).
  - rewrite (IH (Some h)). 
    destruct (fold_left _ t None); reflexivity.
  - apply IH.
Qed.

Lemma last_match_some (p : string -> bool) (l : list string) (x : string) :
  last_match p l = Some x -> In x l /\ p x = true.
Proof.
  unfold last_match. induction l as [|h t IH]; simpl; [discriminate|].
  destruct (p h) eqn:E.
  - rewrite last_match_acc.
    destruct (fold_left _ t None) as [y|] eqn:Ef.
    + intros H. injection H as ->. destruct (IH eq_refl). auto.
    + intros H. injection H as <-. auto.
  - intros H. destruct (IH H). auto.
Qed.

Lemma last_match_none (p : string -> bool) (l : list string) :
  last_match p l = None -> forall x, In x l -> p x = false.
Proof.
  unfold last_match. induction l as [|h t IH]; simpl; [intros _ x []|].
  destruct (p h) eqn:E.
  - rewrite last_match_acc. destruct (fold_left _ t None); discriminate.
  - intros H x [<-|Hx]; [exact E | now apply IH].
Qed.

Lemma nodup_map_inj (A B : Type) (f : A -> B) (l : list A) (x y : A) :
  NoDup (map f l) -> In x l -> In y l -> f x = f y -> x = y.
Proof.
  induction l as [|a t IH]; simpl; [intros _ []|].
  intros H Hx Hy E. inversion H as [|? ? Hn Hd]; subst.
  destruct Hx as [->|Hx], Hy as [->|Hy]; auto.
  - exfalso. apply Hn. rewrite E. now apply in_map.
  - exfalso. apply Hn. rewrite <- E. now apply in_map.
Qed.

(** X8: the dictionary of [_normalize_columns] leads from the normalized
    label of every column back to a column with that normalized label,
    and to the column itself when no two columns share a normalized
    label. *)
Theorem col_map_round_trip (df : DataFrame) (c : string) :
  In c (columns df) ->
  (exists c', col_map_get df (norm c) = Some c'
              /\ In c' (columns df) /\ norm c' = norm c)
  /\ (NoDup (columns (normalize_frame df)) ->
      col_map_get df (norm c) = Some c).
Proof.
  intros Hc. unfold col_map_get.
  destruct (last_match _ (columns df)) as [c'|] eqn:E.
  - apply last_match_some in E as [Hin He]. apply String.eqb_eq in He.
    split; [now exists c'|].
    intros Hnd. f_equal. cbn [normalize_frame columns] in Hnd.
    eapply nodup_map_inj; eassumption.
  - exfalso. pose proof (last_match_none _ _ E c Hc) as H.
    simpl in H. now rewrite String.eqb_refl in H.
Qed.

Lemma first_match_some (p : string -> bool) (l : list string) (x : string) :
  first_match p l = Some x -> In x l /\ p x = true.
Proof. apply find_some. Qed.

(** X9: the labels that the token heuristics return are labels of the
    normalized table, the first one carrying the token [min] and the
    second one the token [max]. *)
Theorem min_max_candidates_carry_tokens (df_norm : DataFrame)
        (mn mx : option string) :
  find_annual_min_max_candidates df_norm = (mn, mx) ->
  (forall c, mn = Some c -> In c (columns df_norm) /\ contains "min" c = true)
  /\ (forall c, mx = Some c -> In c (columns df_norm) /\ contains "max" c = true).
Proof.
  unfold find_annual_min_max_candidates. intros H. injection H as <- <-.
  split; intros c.
  - destruct (last_match _ _) as [a|] eqn:Ea.
    + apply last_match_some in Ea as [Hin Hp]. apply andb_true_iff in Hp as [_ Hp].
      destruct (truthy_opt (Some a)).
      * intros E. injection E as <-. auto.
      * destruct (first_match _ _) as [b|] eqn:Eb.
        -- apply first_match_some in Eb as [Hb Hq].
           apply andb_true_iff in Hq as [Hq _].
           intros E. injection E as <-. auto.
        -- intros E. injection E as <-. auto.
    + cbn [truthy_opt]. destruct (first_match _ _) as [b|] eqn:Eb; [|discriminate].
      apply first_match_some in Eb as [Hb Hq].
      apply andb_true_iff in Hq as [Hq _].
      intros E. injection E as <-. auto.
  - destruct (last_match (fun nc => contains "annual" nc && contains "max" nc) _)
      as [a|] eqn:Ea.
    + apply last_match_some in Ea as [Hin Hp]. apply andb_true_iff in Hp as [_ Hp].
      destruct (truthy_opt (Some a)).
      * intros E. injection E as <-. auto.
      * destruct (first_match (fun nc => contains "max" nc && _) _) as [b|] eqn:Eb.
        -- apply first_match_some in Eb as [Hb Hq].
           apply andb_true_iff in Hq as [Hq _].
           intros E. injection E as <-. auto.
        -- intros E. injection E as <-. auto.
    + cbn [truthy_opt].
      destruct (first_match (fun nc => contains "max" nc && _) _) as [b|] eqn:Eb;
        [|discriminate].
      apply first_match_some in Eb as [Hb Hq].
      apply andb_true_iff in Hq as [Hq _].
      intros E. injection E as <-. auto.
Qed.

End DetectionFacts.

(** ** Year-like columns *)

Section YearFacts.

Import Text Pandas QueryExecutor Props.
Context {lib : Lib}.
Local Open Scope string_scope.

Lemma Qmin_list_spec (l : list Q) (m : Q) :
  Qmin_list l = Some m -> In m l /\ forall q, In q l -> (m <= q)%Q.
Proof.
  destruct l as [|h t]; simpl; [discriminate|]. intros H. injection H as <-.
  revert h. induction t as [|a t IH]; intros h; simpl.
  - split; [now left | intros q [<-|[]]; apply Qle_refl].
  - destruct (Qle_bool a h) eqn:E.
    + apply Qle_bool_iff in E. destruct (IH a) as [Hin Hle]. split.
      * destruct Hin as [Hin|Hin]; [right; now left | right; now right].
      * intros q [<-|[<-|Hq]].
        -- eapply Qle_trans; [apply Hle; now left | exact E].
        -- apply Hle. now left.
        -- apply Hle. now right.
    + assert (Hlt : (h <= a)%Q).
      { apply Qlt_le_weak, Qnot_le_lt. intros H. apply Qle_bool_iff in H. congruence. }
      destruct (IH h) as [Hin Hle]. split.
      * destruct Hin as [Hin|Hin]; [now left | right; now right].
      * intros q [<-|[<-|Hq]].
        -- apply Hle. now left.
        -- eapply Qle_trans; [apply Hle; now left | exact Hlt].
        -- apply Hle. now right.
Qed.

Lemma Qmax_list_spec (l : list Q) (m : Q) :
  Qmax_list l = Some m -> In m l /\ forall q, In q l -> (q <= m)%Q.
Proof.
  destruct l as [|h t]; simpl; [discriminate|]. intros H. injection H as <-.
  revert h. induction t as [|a t IH]; intros h; simpl.
  - split; [now left | intros q [<-|[]]; apply Qle_refl].
  - destruct (Qle_bool h a) eqn:E.
    + apply Qle_bool_iff in E. destruct (IH a) as [Hin Hle]. split.
      * destruct Hin as [Hin|Hin]; [right; now left | right; now right].
      * intros q [<-|[<-|Hq]].
        -- eapply Qle_trans; [exact E | apply Hle; now left].
        -- apply Hle. now left.
        -- apply Hle. now right.
    + assert (Hlt : (a <= h)%Q).
      { apply Qlt_le_weak, Qnot_le_lt. intros H. apply Qle_bool_iff in H. congruence. }
      destruct (IH h) as [Hin Hle]. split.
      * destruct Hin as [Hin|Hin]; [now left | right; now right].
      * intros q [<-|[<-|Hq]].
        -- apply Hle. now left.
        -- eapply Qle_trans; [exact Hlt | apply Hle; now left].
        -- apply Hle. now right.
Qed.

(** [int(x)] rounds toward zero. *)
Lemma Qtrunc_lower (q : Q) (z : Z) :
  (0 < z)%Z -> (z <= Qtrunc q)%Z -> (inject_Z z <= q)%Q.
Proof.
  destruct q as [a b]. unfold Qtrunc, Qle, inject_Z. cbn [Qnum Qden].
  intros Hz H. rewrite Z.mul_1_r.
  destruct (Z.lt_ge_cases a 0) as [Ha|Ha].
  - assert (a ÷ Z.pos b <= 0)%Z by (apply Z.quot_le_upper_bound; lia). lia.
  - rewrite Z.quot_div_nonneg in H by lia.
    pose proof (Z.mul_div_le a (Z.pos b) ltac:(lia)). nia.
Qed.

Lemma Qtrunc_upper (q : Q) (z : Z) :
  (0 <= z)%Z -> (Qtrunc q <= z)%Z -> (q < inject_Z (z + 1))%Q.
Proof.
  destruct q as [a b]. unfold Qtrunc, Qlt, inject_Z. cbn [Qnum Qden].
  intros Hz H. rewrite Z.mul_1_r.
  destruct (Z.lt_ge_cases a 0) as [Ha|Ha]; [nia|].
  rewrite Z.quot_div_nonneg in H by lia.
  pose proof (Z.mod_pos_bound a (Z.pos b) ltac:(lia)).
  pose proof (Z.div_mod a (Z.pos b) ltac:(lia)). nia.
Qed.

(** X10: a column that [_is_year_like_series] accepts holds at least three
    numbers, and each of them lies in [1800, 2101). *)
Theorem year_like_bounds (col : list cell) :
  is_year_like_series (Some col) = true ->
  (3 <= List.length (numbers (to_numeric col)))%nat
  /\ forall q, In q (numbers (to_numeric col)) ->
               (inject_Z 1800 <= q /\ q < inject_Z 2101)%Q.
Proof.
  unfold is_year_like_series.
  set (nums := numbers (to_numeric col)).
  destruct (List.length nums <? 3)%nat eqn:El; [discriminate|].
  apply Nat.ltb_ge in El.
  destruct (Qmin_list nums) as [mn|] eqn:Emin; [|discriminate].
  destruct (Qmax_list nums) as [mx|] eqn:Emax; [|discriminate].
  intros H. apply andb_true_iff in H as [H H3].
  apply andb_true_iff in H as [H1 _].
  apply Z.leb_le in H1, H3.
  apply Qmin_list_spec in Emin as [_ Hmin].
  apply Qmax_list_spec in Emax as [_ Hmax].
  split; [exact El|]. intros q Hq. split.
  - eapply Qle_trans; [apply Qtrunc_lower; [lia | exact H1] | now apply Hmin].
  - eapply Qle_lt_trans; [now apply Hmax|].
    apply (@Qtrunc_upper mx 2100); [lia | exact H3].
Qed.

End YearFacts.

(** The key [State] is no label of the example table, whose state column
    is labelled [state]. *)
Lemma trend_skips_unknown_keys_witness :
  Analytics.production_trend (lib := Reference.stable_lib)
    Examples.wheat_one_year "Wheat" [("State"%string, Pandas.CStr "StateA")]
  = Analytics.production_trend (lib := Reference.stable_lib)
      Examples.wheat_one_year "Wheat" [].
Proof.
  apply (@trend_skips_unknown_keys Reference.stable_lib).
  intros k v [H|[]]. injection H as <- <-.
  vm_compute. intuition discriminate.
Defined.

Lemma avg_lists_requested_states_witness :
  exists out meta df1 sc yj sj mj,
    Analytics.avg_annual_climate_metric (lib := Reference.stable_lib)
      Examples.climate_two_years ["StateA"%string] None None 1
    = (Pandas.Ok (out, meta), df1)
    /\ Analytics.state_column meta = Some sc
    /\ Pandas.columns out
       = [sc; ("avg_" ++ Analytics.metric_column meta)%string]
    /\ Pandas.rows out = [[Pandas.CStr "StateA"; Pandas.CNum 27]]
    /\ StronglySorted Props.key_lt (map (Pandas.cell_at 0) (Pandas.rows out))
    /\ forall r, In r (Pandas.rows out) ->
         exists s m,
           r = [Pandas.CStr s; m] /\ In s ["StateA"%string]
           /\ Pandas.mean_cells
                (map (Pandas.cell_at mj)
                     (filter (fun row => Pandas.cell_is_str s
                                           (Pandas.cell_at sj row))
                             (Pandas.rows
                                (Analytics.window_rows yj
                                   (Analytics.years_used meta) df1))))
              = Pandas.Ok m.
Proof.
  destruct (Analytics.avg_annual_climate_metric (lib := Reference.stable_lib)
              Examples.climate_two_years ["StateA"%string] None None 1)
    as [[[out meta]|e] df1] eqn:E; [|vm_compute in E; discriminate E].
  assert (Hsc : Analytics.state_column meta = Some "state"%string).
  { vm_compute in E. injection E as _ <- _. reflexivity. }
  assert (Hrows : Pandas.rows out = [[Pandas.CStr "StateA"; Pandas.CNum 27]]).
  { vm_compute in E. injection E as <- _ _. reflexivity. }
  destruct (@avg_lists_requested_states Reference.stable_lib _ _ _ _ _ _ _ _ _
              E Hsc) as (yj & sj & mj & _ & _ & _ & H4 & H5 & H6 & _).
  exists out, meta, df1, "state"%string, yj, sj, mj.
  split; [reflexivity|]. split; [exact Hsc|]. split; [exact H4|].
  split; [exact Hrows|]. split; [exact H5 | exact H6].
Defined.

Lemma col_map_round_trip_witness :
  In "Annual - Min"%string (Pandas.columns Examples.min_max_table)
  /\ (exists c', QueryExecutor.col_map_get Examples.min_max_table
                   (Text.norm "Annual - Min") = Some c'
                 /\ In c' (Pandas.columns Examples.min_max_table)
                 /\ Text.norm c' = Text.norm "Annual - Min")
  /\ (NoDup (Pandas.columns (QueryExecutor.normalize_frame Examples.min_max_table)) ->
      QueryExecutor.col_map_get Examples.min_max_table
        (Text.norm "Annual - Min") = Some "Annual - Min"%string).
Proof.
  assert (H : In "Annual - Min"%string (Pandas.columns Examples.min_max_table))
    by (right; now left).
  split; [exact H|]. exact (col_map_round_trip Examples.min_max_table _ H).
Defined.

Lemma min_max_candidates_carry_tokens_witness :
  exists mn mx,
    QueryExecutor.find_annual_min_max_candidates
      (QueryExecutor.normalize_frame Examples.min_max_table) = (mn, mx)
    /\ mn = Some "annual min"%string /\ mx = Some "annual max"%string
    /\ (forall c, mn = Some c ->
          In c (Pandas.columns (QueryExecutor.normalize_frame Examples.min_max_table))
          /\ Text.contains "min" c = true)
    /\ (forall c, mx = Some c ->
          In c (Pandas.columns (QueryExecutor.normalize_frame Examples.min_max_table))
          /\ Text.contains "max" c = true).
Proof.
  destruct (QueryExecutor.find_annual_min_max_candidates
              (QueryExecutor.normalize_frame Examples.min_max_table))
    as [mn mx] eqn:E.
  exists mn, mx. split; [reflexivity|].
  pose proof (min_max_candidates_carry_tokens E) as H.
  vm_compute in E. injection E as <- <-.
  split; [reflexivity|]. split; [reflexivity|]. exact H.
Defined.

Lemma year_like_bounds_witness :
  let col := Pandas.column Examples.min_max_table 0 in
  QueryExecutor.is_year_like_series (lib := Reference.stable_lib) (Some col) = true
  /\ (3 <= List.length (Pandas.numbers
                          (Pandas.to_numeric (lib := Reference.stable_lib) col)))%nat
  /\ forall q, In q (Pandas.numbers
                       (Pandas.to_numeric (lib := Reference.stable_lib) col)) ->
               (inject_Z 1800 <= q /\ q < inject_Z 2101)%Q.
Proof.
  assert (H : QueryExecutor.is_year_like_series (lib := Reference.stable_lib)
                (Some (Pandas.column Examples.min_max_table 0)) = true)
    by (vm_compute; reflexivity).
  split; [exact H|].
  exact (@year_like_bounds Reference.stable_lib _ H).
Defined.

(** ** Reading the question *)

Section QuestionFacts.

Import Text Pandas Questions Props.
Local Open Scope string_scope.

Lemma span_spec (cls : ascii -> bool) (s : list ascii) :
  let (a, r) := span cls s in
  s = (a ++ r)%list /\ forallb cls a = true
  /\ match r with c :: _ => cls c = false | [] => True end.
Proof.
  induction s as [|c t IH]; simpl; [auto|].
  destruct (cls c) eqn:E.
  - destruct (span cls t) as [a r]. destruct IH as (-> & Ha & Hr).
    simpl. rewrite E, Ha. auto.
  - simpl. auto.
Qed.

Lemma run1_digits (s ds r : list ascii) :
  run1 is_digit s = Some (ds, r) -> ds <> [] /\ forallb is_digit ds = true.
Proof.
  unfold run1. pose proof (span_spec is_digit s) as H.
  destruct (span is_digit s) as [a r']. destruct H as (_ & Ha & _).
  destruct a as [|c a]; [discriminate|].
  intros E. injection E as <- <-. split; [discriminate | exact Ha].
Qed.

Lemma match_last_n_digits (s ds : list ascii) :
  match_last_n s = Some ds -> ds <> [] /\ forallb is_digit ds = true.
Proof.
  unfold match_last_n, obind.
  destruct (after_literal _ s) as [r|]; [|discriminate].
  destruct (run1 is_space r) as [[w r1]|]; [|discriminate]. cbn [snd].
  destruct (run1 is_digit r1) as [[d r2]|] eqn:E; [|discriminate]. cbn [snd fst].
  destruct (run1 is_space r2) as [[w2 r3]|]; [|discriminate]. cbn [snd].
  destruct (after_literal _ r3); [|discriminate].
  intros H. injection H as <-. eapply run1_digits, E.
Qed.

Lemma match_top_m_digits (s ds : list ascii) :
  match_top_m s = Some ds -> ds <> [] /\ forallb is_digit ds = true.
Proof.
  unfold match_top_m, obind.
  destruct (after_literal _ s) as [r|]; [|discriminate].
  destruct (run1 is_space r) as [[w r1]|]; [|discriminate]. cbn [snd].
  destruct (run1 is_digit r1) as [[d r2]|] eqn:E; [|discriminate]. cbn [snd fst].
  intros H. injection H as <-. eapply run1_digits, E.
Qed.

Lemma re_search_some (A : Type) (m : list ascii -> option A) (s : list ascii)
      (x : A) :
  re_search m s = Some x -> exists pre suf, s = (pre ++ suf)%list /\ m suf = Some x.
Proof.
  induction s as [|c t IH]; simpl.
  - destruct (m []) eqn:E; [|discriminate].
    intros H. injection H as <-. now exists [], [].
  - destruct (m (c :: t)) eqn:E.
    + intros H. injection H as <-. now exists [], (c :: t).
    + intros H. destruct (IH H) as (pre & suf & -> & Hm).
      now exists (c :: pre), suf.
Qed.

Lemma is_digit_uint (c : ascii) (o : option Decimal.uint) :
  is_digit c = true -> o <> None -> uint_of_char c o <> None.
Proof.
  intros H Ho. destruct o as [d|]; [|congruence].
  unfold is_digit in H. apply andb_true_iff in H as [H1 H2].
  apply N.leb_le in H1, H2.
  assert (E : exists k, (k < 10)%nat /\ c = ascii_of_N (48 + N.of_nat k)).
  { exists (N.to_nat (N_of_ascii c - 48)). split; [lia|].
    rewrite Nnat.N2Nat.id. replace (48 + (N_of_ascii c - 48))%N with (N_of_ascii c) by lia.
    now rewrite ascii_N_embedding. }
  destruct E as (k & Hk & ->).
  do 10 (destruct k as [|k]; [simpl; discriminate|]). lia.
Qed.

Lemma digits_read (ds : list ascii) :
  forallb is_digit ds = true ->
  NilEmpty.uint_of_string (string_of_list_ascii ds) <> None.
Proof.
  induction ds as [|c t IH]; simpl; [discriminate|].
  intros H. apply andb_true_iff in H as [Hc Ht].
  apply is_digit_uint; auto.
Qed.

Lemma int_of_digits_cases (ds : list ascii) :
  ds <> [] -> forallb is_digit ds = true ->
  ((List.length ds <= max_str_digits)%nat
   /\ exists z, int_of_digits ds = Ok z /\ (0 <= z)%Z)
  \/ ((max_str_digits < List.length ds)%nat
      /\ exists msg, int_of_digits ds = Raise (ValueError msg)).
Proof.
  intros Hne Hd. unfold int_of_digits.
  destruct (Nat.ltb_spec max_str_digits (List.length ds)) as [Hl|Hl].
  - right. split; [exact Hl|]. eexists. reflexivity.
  - left. split; [exact Hl|]. apply digits_read in Hd.
    destruct ds as [|c t]; [congruence|].
    destruct (NilEmpty.uint_of_string _) as [d|]; [|congruence].
    eexists. split; [reflexivity | lia].
Qed.

Lemma length_list_ascii (s : string) :
  List.length (list_ascii_of_string s) = String.length s.
Proof. induction s as [|c s IH]; simpl; congruence. Qed.

Lemma lstrip_length (s : list ascii) :
  (List.length (lstrip s) <= List.length s)%nat.
Proof.
  induction s as [|c t IH]; simpl; [lia|].
  destruct (is_space c); simpl; lia.
Qed.

Lemma rstrip_length (s : list ascii) :
  (List.length (rstrip s) <= List.length s)%nat.
Proof.
  induction s as [|c t IH]; simpl; [lia|].
  destruct (rstrip t) as [|a r]; [destruct (is_space c); simpl; lia|].
  simpl in *. lia.
Qed.

Lemma lower_strip_length (s : string) :
  (List.length (list_ascii_of_string (lower (strip s))) <= String.length s)%nat.
Proof.
  unfold lower, strip, lift. rewrite !list_ascii_of_string_of_list_ascii.
  unfold lower_l, strip_l. rewrite length_map, <- length_list_ascii.
  pose proof (rstrip_length (lstrip (list_ascii_of_string s))).
  pose proof (lstrip_length (list_ascii_of_string s)). lia.
Qed.

Lemma after_literal_length (lit s r : list ascii) :
  after_literal lit s = Some r -> (List.length r <= List.length s)%nat.
Proof.
  revert s. induction lit as [|a lit IH]; intros s; simpl.
  - intros H. injection H as <-. lia.
  - destruct s as [|c s]; [discriminate|].
    destruct (Ascii.eqb a c); [|discriminate].
    intros H. apply IH in H. simpl. lia.
Qed.

Lemma run1_length (cls : ascii -> bool) (s a r : list ascii) :
  run1 cls s = Some (a, r) ->
  (List.length a + List.length r = List.length s)%nat.
Proof.
  unfold run1. pose proof (span_spec cls s) as H.
  destruct (span cls s) as [a' r']. destruct H as (-> & _ & _).
  destruct a' as [|c a']; [discriminate|].
  intros E. injection E as <- <-. now rewrite length_app.
Qed.

Lemma match_last_n_length (s ds : list ascii) :
  match_last_n s = Some ds -> (List.length ds <= List.length s)%nat.
Proof.
  unfold match_last_n, obind.
  destruct (after_literal _ s) as [r|] eqn:E0; [|discriminate].
  destruct (run1 is_space r) as [[w r1]|] eqn:E1; [|discriminate]. cbn [snd].
  destruct (run1 is_digit r1) as [[d r2]|] eqn:E2; [|discriminate]. cbn [snd fst].
  destruct (run1 is_space r2) as [[w2 r3]|]; [|discriminate]. cbn [snd].
  destruct (after_literal _ r3); [|discriminate].
  intros H. injection H as <-.
  apply after_literal_length in E0. apply run1_length in E1, E2. lia.
Qed.

Lemma match_top_m_length (s ds : list ascii) :
  match_top_m s = Some ds -> (List.length ds <= List.length s)%nat.
Proof.
  unfold match_top_m, obind.
  destruct (after_literal _ s) as [r|] eqn:E0; [|discriminate].
  destruct (run1 is_space r) as [[w r1]|] eqn:E1; [|discriminate]. cbn [snd].
  destruct (run1 is_digit r1) as [[d r2]|] eqn:E2; [|discriminate]. cbn [snd fst].
  intros H. injection H as <-.
  apply after_literal_length in E0. apply run1_length in E1, E2. lia.
Qed.

(** A count read from the question: the default, the value of a run of
    digits, or the refusal of a run of more than 4300 digits. *)
Lemma read_count (m : list ascii -> option (list ascii)) (q : list ascii)
      (d : Z) :
  (forall s ds, m s = Some ds ->
                ds <> [] /\ forallb is_digit ds = true
                /\ (List.length ds <= List.length s)%nat) ->
  (0 <= d)%Z ->
  let r := match re_search m q with
           | Some ds => int_of_digits ds
           | None => Ok d
           end in
  (exists z, r = Ok z /\ (0 <= z)%Z)
  \/ ((max_str_digits < List.length q)%nat
      /\ exists msg, r = Raise (ValueError msg)).
Proof.
  intros Hm Hd r. subst r.
  destruct (re_search m q) as [ds|] eqn:E; [|left; now exists d].
  apply re_search_some in E as (pre & suf & -> & E).
  apply Hm in E as (Hne & Hds & Hl).
  destruct (int_of_digits_cases Hne Hds) as [[_ H]|[Hlong H]]; [now left|].
  right. split; [rewrite length_app; lia | exact H].
Qed.

Lemma parse_question_cases (question : option string) :
  let text := match question with Some q => q | None => "" end in
  (forall p, parse_question question = Ok p ->
             (0 <= N p)%Z /\ (0 <= M p)%Z /\ raw p = strip text)
  /\ ((String.length text <= max_str_digits)%nat ->
      exists p, parse_question question = Ok p)
  /\ (forall e, parse_question question = Raise e ->
                (max_str_digits < String.length text)%nat
                /\ exists msg, e = ValueError msg).
Proof.
  intros text. unfold parse_question. fold text.
  pose proof (lower_strip_length text) as Hlen.
  set (q := list_ascii_of_string _) in *.
  assert (HN : forall s ds, match_last_n s = Some ds ->
                 ds <> [] /\ forallb is_digit ds = true
                 /\ (List.length ds <= List.length s)%nat).
  { intros s ds E. destruct (match_last_n_digits _ E). split; [assumption|].
    split; [assumption | now apply match_last_n_length]. }
  assert (HM : forall s ds, match_top_m s = Some ds ->
                 ds <> [] /\ forallb is_digit ds = true
                 /\ (List.length ds <= List.length s)%nat).
  { intros s ds E. destruct (match_top_m_digits _ E). split; [assumption|].
    split; [assumption | now apply match_top_m_length]. }
  assert (H5 : (0 <= 5)%Z) by lia. assert (H3 : (0 <= 3)%Z) by lia.
  destruct (@read_count match_last_n q 5 HN H5) as [(n & -> & Hn)|(Hl & msg & ->)];
    cbn [bind].
  - destruct (@read_count match_top_m q 3 HM H3) as [(m & -> & Hm)|(Hl & msg & ->)];
      cbn [bind].
    + split; [|split].
      * intros p H. injection H as <-. cbn [N M raw]. auto.
      * intros _. eexists. reflexivity.
      * intros e H. discriminate H.
    + split; [|split].
      * intros p H. discriminate H.
      * intros H. lia.
      * intros e H. injection H as <-. split; [lia | now exists msg].
  - split; [|split].
    + intros p H. discriminate H.
    + intros H. lia.
    + intros e H. injection H as <-. split; [lia | now exists msg].
Qed.

(** X11: [parse_question] raises only on a question of more than 4300
    characters, and then [ValueError], the refusal of [int] to convert a
    longer run of digits; on every other question it returns, and the
    window [N] and the count [M] it reads are never negative. *)
Theorem parse_question_total (question : option string) :
  let text := match question with Some q => q | None => "" end in
  (forall p, parse_question question = Ok p ->
             (0 <= N p)%Z /\ (0 <= M p)%Z /\ raw p = strip text)
  /\ ((String.length text <= max_str_digits)%nat ->
      exists p, parse_question question = Ok p)
  /\ (forall e, parse_question question = Raise e ->
                (max_str_digits < String.length text)%nat
                /\ exists msg, e = ValueError msg).
Proof. exact (parse_question_cases question). Qed.

Lemma incl_lstrip (s : list ascii) : incl (lstrip s) s.
Proof.
  induction s as [|c t IH]; simpl; [apply incl_refl|].
  destruct (is_space c); [now apply incl_tl | apply incl_refl].
Qed.

Lemma incl_rstrip (s : list ascii) : incl (rstrip s) s.
Proof.
  induction s as [|c t IH]; simpl; [apply incl_refl|].
  destruct (rstrip t) as [|a r].
  - destruct (is_space c); [apply incl_nil_l|].
    intros x [<-|[]]. now left.
  - intros x [<-|Hx]; [now left | right; now apply IH].
Qed.

Lemma lower_char_digit (c : ascii) :
  is_digit (lower_char c) = true -> is_digit c = true.
Proof.
  unfold lower_char, is_digit.
  destruct (_ || _)%bool eqn:E; [|auto].
  rewrite N_ascii_embedding.
  - intros H. apply andb_true_iff in H as [H1 H2]. apply N.leb_le in H1, H2.
    apply orb_true_iff in E as [E|E].
    + apply andb_true_iff in E as [E1 E2]. apply N.leb_le in E1, E2. lia.
    + apply andb_true_iff in E as [E _].
      apply andb_true_iff in E as [E1 E2]. apply N.leb_le in E1, E2. lia.
  - apply orb_true_iff in E as [E|E].
    + apply andb_true_iff in E as [E1 E2]. apply N.leb_le in E1, E2. lia.
    + apply andb_true_iff in E as [E _].
      apply andb_true_iff in E as [E1 E2]. apply N.leb_le in E1, E2. lia.
Qed.

Lemma incl_after_literal (lit s r : list ascii) :
  after_literal lit s = Some r -> incl r s.
Proof.
  revert s. induction lit as [|a lit IH]; intros s; simpl.
  - intros H. injection H as <-. apply incl_refl.
  - destruct s as [|c s]; [discriminate|].
    destruct (Ascii.eqb a c); [|discriminate].
    intros H. apply incl_tl. now apply IH.
Qed.

Lemma incl_run1 (cls : ascii -> bool) (s a r : list ascii) :
  run1 cls s = Some (a, r) -> incl a s /\ incl r s.
Proof.
  unfold run1. pose proof (span_spec cls s) as H.
  destruct (span cls s) as [a' r']. destruct H as (-> & _ & _).
  destruct a' as [|c a']; [discriminate|].
  intros E. injection E as <- <-.
  split; [apply incl_appl | apply incl_appr]; apply incl_refl.
Qed.

Lemma match_last_n_incl (s ds : list ascii) :
  match_last_n s = Some ds -> incl ds s.
Proof.
  unfold match_last_n, obind.
  destruct (after_literal _ s) as [r|] eqn:E0; [|discriminate].
  destruct (run1 is_space r) as [[w r1]|] eqn:E1; [|discriminate]. cbn [snd].
  destruct (run1 is_digit r1) as [[d r2]|] eqn:E2; [|discriminate]. cbn [snd fst].
  destruct (run1 is_space r2) as [[w2 r3]|]; [|discriminate]. cbn [snd].
  destruct (after_literal _ r3); [|discriminate].
  intros H. injection H as <-.
  apply incl_after_literal in E0. apply incl_run1 in E1 as [_ E1].
  apply incl_run1 in E2 as [E2 _].
  eapply incl_tran; [exact E2|]. eapply incl_tran; eassumption.
Qed.

Lemma match_top_m_incl (s ds : list ascii) :
  match_top_m s = Some ds -> incl ds s.
Proof.
  unfold match_top_m, obind.
  destruct (after_literal _ s) as [r|] eqn:E0; [|discriminate].
  destruct (run1 is_space r) as [[w r1]|] eqn:E1; [|discriminate]. cbn [snd].
  destruct (run1 is_digit r1) as [[d r2]|] eqn:E2; [|discriminate]. cbn [snd fst].
  intros H. injection H as <-.
  apply incl_after_literal in E0. apply incl_run1 in E1 as [_ E1].
  apply incl_run1 in E2 as [E2 _].
  eapply incl_tran; [exact E2|]. eapply incl_tran; eassumption.
Qed.

Lemma no_digit_no_match (m : list ascii -> option (list ascii)) (q : list ascii) :
  (forall s ds, m s = Some ds ->
                incl ds s /\ ds <> [] /\ forallb is_digit ds = true) ->
  (forall c, In c q -> is_digit c = false) ->
  re_search m q = None.
Proof.
  intros Hm Hq. destruct (re_search m q) as [ds|] eqn:E; [|reflexivity].
  exfalso. apply re_search_some in E as (pre & suf & -> & E).
  apply Hm in E as (Hi & Hne & Hd).
  destruct ds as [|c ds]; [congruence|].
  simpl in Hd. apply andb_true_iff in Hd as [Hc _].
  rewrite Hq in Hc; [discriminate|].
  apply in_or_app. right. apply Hi. now left.
Qed.

(** X12: a question without any digit gets the defaults: a window of five
    years and the three top crops. *)
Theorem parse_question_defaults (question : string) :
  (forall c, In c (list_ascii_of_string question) -> is_digit c = false) ->
  parse_question (Some question) = Ok (mkParsed (strip question) 5 3).
Proof.
  intros H. unfold parse_question.
  assert (Hq : forall c, In c (list_ascii_of_string (lower (strip question))) ->
                         is_digit c = false).
  { intros c Hc. unfold lower, strip, lift in Hc.
    rewrite !list_ascii_of_string_of_list_ascii in Hc.
    unfold lower_l in Hc. apply in_map_iff in Hc as (c0 & <- & Hc0).
    destruct (is_digit (lower_char c0)) eqn:E; [|reflexivity].
    apply lower_char_digit in E. rewrite H in E; [discriminate|].
    unfold strip_l in Hc0. now apply incl_rstrip, incl_lstrip in Hc0. }
  rewrite (@no_digit_no_match match_last_n), (@no_digit_no_match match_top_m);
    auto.
  - intros s ds E. split; [now apply match_top_m_incl|].
    now apply match_top_m_digits in E.
  - intros s ds E. split; [now apply match_last_n_incl|].
    now apply match_last_n_digits in E.
Qed.


Lemma list_of_append (a b : string) :
  list_ascii_of_string (a ++ b) = (list_ascii_of_string a ++ list_ascii_of_string b)%list.
Proof. induction a as [|c a IH]; simpl; congruence. Qed.

Lemma numeral_digits (n : BinNums.N) :
  forallb is_digit (list_ascii_of_string (numeral n)) = true
  /\ list_ascii_of_string (numeral n) <> [].
Proof.
  unfold numeral. split.
  - induction (N.to_uint n) as [|d IH|d IH|d IH|d IH|d IH|d IH|d IH|d IH|d IH|d IH];
      simpl; auto.
  - pose proof (DecimalN.Unsigned.of_to n) as H.
    destruct (N.to_uint n) eqn:E; simpl; try discriminate.
    destruct n as [|p]; [discriminate E|].
    simpl in H. discriminate H.
Qed.

Lemma int_of_numeral (n : BinNums.N) :
  (String.length (numeral n) <= max_str_digits)%nat ->
  int_of_digits (list_ascii_of_string (numeral n)) = Ok (Z.of_N n).
Proof.
  intros Hl. unfold int_of_digits. destruct (numeral_digits n) as [_ Hne].
  rewrite length_list_ascii.
  destruct (Nat.ltb_spec max_str_digits (String.length (numeral n)));
    [lia|].
  destruct (list_ascii_of_string (numeral n)) as [|c t] eqn:E; [congruence|].
  rewrite <- E, string_of_list_ascii_of_string. unfold numeral.
  now rewrite NilEmpty.usu, DecimalN.Unsigned.of_to.
Qed.

Lemma span_app (cls : ascii -> bool) (a r : list ascii) :
  forallb cls a = true ->
  match r with c :: _ => cls c = false | [] => True end ->
  span cls (a ++ r) = (a, r).
Proof.
  intros Ha Hr. induction a as [|c a IH]; simpl.
  - destruct r as [|c r]; simpl; [reflexivity|]. now rewrite Hr.
  - simpl in Ha. apply andb_true_iff in Ha as [Hc Ha].
    now rewrite Hc, IH.
Qed.

Lemma run1_numeral (n : BinNums.N) (c : ascii) (r : list ascii) :
  is_digit c = false ->
  run1 is_digit (list_ascii_of_string (numeral n) ++ c :: r)
  = Some (list_ascii_of_string (numeral n), c :: r).
Proof.
  intros Hc. destruct (numeral_digits n) as [Hd Hne].
  unfold run1. rewrite span_app by assumption.
  destruct (list_ascii_of_string (numeral n)); [congruence | reflexivity].
Qed.

Lemma rstrip_last (l : list ascii) (c : ascii) :
  is_space c = false -> rstrip (l ++ [c]) = (l ++ [c])%list.
Proof.
  intros Hc. induction l as [|a l IH]; simpl; [now rewrite Hc|].
  rewrite IH. destruct (l ++ [c])%list eqn:E; [|reflexivity].
  destruct l; discriminate E.
Qed.

Lemma search_skip_digits (m : list ascii -> option (list ascii))
      (ds r : list ascii) :
  (forall c t, is_digit c = true -> m (c :: t) = None) ->
  forallb is_digit ds = true ->
  re_search m (ds ++ r) = re_search m r.
Proof.
  intros Hm. induction ds as [|c ds IH]; simpl; [reflexivity|].
  intros H. apply andb_true_iff in H as [Hc Hd].
  rewrite Hm by assumption. now apply IH.
Qed.

Lemma match_last_n_digit (c : ascii) (t : list ascii) :
  is_digit c = true -> match_last_n (c :: t) = None.
Proof.
  intros H. unfold match_last_n. cbn [list_ascii_of_string after_literal].
  destruct (Ascii.eqb_spec "l"%char c) as [<-|_]; [discriminate H | reflexivity].
Qed.

Lemma lower_l_numeral (n : BinNums.N) :
  lower_l (list_ascii_of_string (numeral n)) = list_ascii_of_string (numeral n).
Proof.
  unfold numeral, lower_l.
  induction (N.to_uint n) as [|d IH|d IH|d IH|d IH|d IH|d IH|d IH|d IH|d IH|d IH];
    simpl; [reflexivity|..]; now rewrite IH.
Qed.

Lemma search_skip (m : list ascii -> option (list ascii))
      (p : ascii -> bool) (pre r : list ascii) :
  (forall c t, p c = true -> m (c :: t) = None) ->
  forallb p pre = true ->
  re_search m (pre ++ r) = re_search m r.
Proof.
  intros Hm. induction pre as [|c pre IH]; simpl; [reflexivity|].
  intros H. apply andb_true_iff in H as [Hc Hd].
  rewrite Hm by assumption. now apply IH.
Qed.

Lemma match_last_n_other (c : ascii) (t : list ascii) :
  negb (Ascii.eqb "l" c) = true -> match_last_n (c :: t) = None.
Proof.
  intros H. unfold match_last_n. cbn [list_ascii_of_string after_literal].
  destruct (Ascii.eqb "l" c); [discriminate H | reflexivity].
Qed.

Lemma digit_not_l (c : ascii) :
  is_digit c = true -> negb (Ascii.eqb "l" c) = true.
Proof.
  intros H. destruct (Ascii.eqb_spec "l"%char c) as [<-|_];
    [discriminate H | reflexivity].
Qed.

Lemma digit_not_space (c : ascii) : is_digit c = true -> is_space c = false.
Proof.
  unfold is_digit, is_space. intros H.
  apply andb_true_iff in H as [H1 H2]. apply N.leb_le in H1, H2.
  destruct (N.leb_spec 9 (N_of_ascii c)), (N.leb_spec (N_of_ascii c) 13),
    (N.leb_spec 28 (N_of_ascii c)), (N.leb_spec (N_of_ascii c) 32),
    (N.eqb_spec (N_of_ascii c) 133), (N.eqb_spec (N_of_ascii c) 160);
    simpl; try reflexivity; lia.
Qed.

Lemma run1_space_numeral (n : BinNums.N) (r : list ascii) :
  run1 is_space (" "%char :: list_ascii_of_string (numeral n) ++ r)
  = Some ([" "%char], (list_ascii_of_string (numeral n) ++ r)%list).
Proof.
  destruct (numeral_digits n) as [Hd Hne]. unfold run1.
  change (" "%char :: list_ascii_of_string (numeral n) ++ r)%list
    with ([" "%char] ++ (list_ascii_of_string (numeral n) ++ r))%list.
  rewrite span_app; [reflexivity | reflexivity |].
  destruct (list_ascii_of_string (numeral n)) as [|c t]; [congruence|].
  simpl in Hd. apply andb_true_iff in Hd as [Hc _].
  now apply digit_not_space.
Qed.

(** X13: the counts of the question "top M crops of the last N years" are
    read back exactly, for all natural numbers M and N whose decimal
    numerals have at most 4300 digits. *)
Theorem parse_question_reads_counts (m n : BinNums.N) :
  (String.length (numeral m) <= max_str_digits)%nat ->
  (String.length (numeral n) <= max_str_digits)%nat ->
  parse_question (Some (top_last m n))
  = Ok (mkParsed (top_last m n) (Z.of_N n) (Z.of_N m)).
Proof.
  intros Hlm Hln. unfold parse_question.
  set (dm := list_ascii_of_string (numeral m)).
  set (dn := list_ascii_of_string (numeral n)).
  assert (El : list_ascii_of_string (top_last m n)
               = (list_ascii_of_string "top " ++ dm
                  ++ list_ascii_of_string " crops of the last " ++ dn
                  ++ list_ascii_of_string " years")%list).
  { unfold top_last. now rewrite !list_of_append. }
  assert (Es : strip (top_last m n) = top_last m n).
  { unfold strip, lift, strip_l. rewrite El.
    change (lstrip (list_ascii_of_string "top " ++ ?x))
      with (list_ascii_of_string "top " ++ x)%list.
    change (list_ascii_of_string " years")
      with (list_ascii_of_string " year" ++ ["s"%char])%list.
    rewrite !app_assoc. rewrite rstrip_last by reflexivity.
    rewrite <- !app_assoc.
    change (list_ascii_of_string " year" ++ ["s"%char])%list
      with (list_ascii_of_string " years").
    rewrite <- El. apply string_of_list_ascii_of_string. }
  rewrite Es.
  assert (Eq : list_ascii_of_string (lower (top_last m n))
               = list_ascii_of_string (top_last m n)).
  { unfold lower, lift. rewrite list_ascii_of_string_of_list_ascii, El.
    unfold lower_l. rewrite !map_app.
    fold (lower_l dm) (lower_l dn). unfold dm, dn.
    now rewrite !lower_l_numeral. }
  rewrite Eq, El.
  destruct (numeral_digits m) as [Hdm _]. fold dm in Hdm.
  assert (EM : re_search match_top_m
                 (list_ascii_of_string "top " ++ dm
                  ++ list_ascii_of_string " crops of the last " ++ dn
                  ++ list_ascii_of_string " years") = Some dm).
  { cbn [list_ascii_of_string app]. unfold re_search, match_top_m.
    cbn [list_ascii_of_string after_literal Ascii.eqb Bool.eqb obind].
    unfold dm. rewrite run1_space_numeral. cbn [obind snd].
    rewrite run1_numeral by reflexivity. reflexivity. }
  assert (EN : re_search match_last_n
                 (list_ascii_of_string "top " ++ dm
                  ++ list_ascii_of_string " crops of the last " ++ dn
                  ++ list_ascii_of_string " years") = Some dn).
  { change (list_ascii_of_string " crops of the last ")
      with (list_ascii_of_string " crops of the " ++ list_ascii_of_string "last ")%list.
    rewrite <- !app_assoc.
    rewrite (@search_skip match_last_n _ (list_ascii_of_string "top ") _
               match_last_n_other) by reflexivity.
    rewrite (@search_skip match_last_n _ dm _
               (fun c t H => match_last_n_other c t (digit_not_l c H))) by exact Hdm.
    rewrite (@search_skip match_last_n _ (list_ascii_of_string " crops of the ") _
               match_last_n_other) by reflexivity.
    cbn [list_ascii_of_string app]. unfold re_search, match_last_n.
    cbn [list_ascii_of_string after_literal Ascii.eqb Bool.eqb obind].
    unfold dn. rewrite run1_space_numeral. cbn [obind snd].
    rewrite run1_numeral by reflexivity. reflexivity. }
  rewrite EN, EM. unfold dm, dn. rewrite !int_of_numeral by assumption.
  reflexivity.
Qed.

End QuestionFacts.

(** A short question is read. *)
Lemma parse_question_total_witness :
  exists p,
    Questions.parse_question (Some "list the top 4 crops"%string) = Pandas.Ok p.
Proof.
  apply (proj1 (proj2 (parse_question_total
                         (Some "list the top 4 crops"%string)))).
  apply Nat.leb_le. vm_compute. reflexivity.
Defined.

(** The four top crops of the last ten years. *)
Lemma parse_question_reads_counts_witness :
  Questions.parse_question (Some (Props.top_last 4 10))
  = Pandas.Ok (Questions.mkParsed (Props.top_last 4 10) 10 4).
Proof.
  apply (parse_question_reads_counts 4 10);
    apply Nat.leb_le; vm_compute; reflexivity.
Defined.

(** A question without digits. *)
Lemma parse_question_defaults_witness :
  Questions.parse_question (Some "Compare rainfall and list the top crops"%string)
  = Pandas.Ok (Questions.mkParsed
                 (Text.strip "Compare rainfall and list the top crops") 5 3).
Proof.
  apply parse_question_defaults.
  intros c Hc. vm_compute in Hc.
  repeat (destruct Hc as [<-|Hc]; [reflexivity|]). destruct Hc.
Defined.

(** ** The diagnosis script and the years of the loaders *)

Section DiagnoseFacts.

Import Text Pandas QueryExecutor Diagnose.
Context {lib : Lib}.

Lemma Qtrunc_floor (q : Q) : (0 <= q)%Q -> Qtrunc q = Qfloor q.
Proof.
  destruct q as [a b]. unfold Qle, Qtrunc, Qfloor. cbn [Qnum Qden].
  intros H. apply Z.quot_div_nonneg; lia.
Qed.

Lemma year_column_entry_spec (df : DataFrame) (c : string) (y : YearColumn) :
  year_column_entry df c = Some y ->
  col y = c
  /\ is_year_like_series (getitem_series df c) = true
  /\ (1800 <= min y <= max y)%Z /\ (max y <= 2100)%Z.
Proof.
  unfold year_column_entry, is_year_like_series.
  destruct (getitem_series df c) as [s|]; [|discriminate].
  set (nums := numbers (to_numeric s)).
  destruct (3 <=? List.length nums)%nat eqn:El; [|discriminate].
  apply Nat.leb_le in El.
  replace (List.length nums <? 3)%nat with false
    by (symmetry; apply Nat.ltb_ge; exact El).
  destruct (Qmin_list nums) as [mn|] eqn:Emin; [|discriminate].
  destruct (Qmax_list nums) as [mx|] eqn:Emax; [|discriminate].
  destruct (Qle_bool 1800 mn && Qle_bool mx 2100) eqn:Eb; [|discriminate].
  apply andb_true_iff in Eb as [E1 E2]. apply Qle_bool_iff in E1, E2.
  apply Qmin_list_spec in Emin as [_ Hmin].
  apply Qmax_list_spec in Emax as [Hin _].
  pose proof (Hmin mx Hin) as Hle.
  assert (H0 : (0 <= mn)%Q) by (eapply Qle_trans; [|exact E1]; discriminate).
  assert (H1 : (0 <= mx)%Q) by (eapply Qle_trans; eassumption).
  assert (T1 : (1800 <= Qtrunc mn)%Z).
  { rewrite Qtrunc_floor by assumption.
    change 1800%Z with (Qfloor 1800). now apply Qfloor_resp_le. }
  assert (T2 : (Qtrunc mn <= Qtrunc mx)%Z).
  { rewrite !Qtrunc_floor by assumption. now apply Qfloor_resp_le. }
  assert (T3 : (Qtrunc mx <= 2100)%Z).
  { rewrite Qtrunc_floor by assumption.
    change 2100%Z with (Qfloor 2100). now apply Qfloor_resp_le. }
  intros H. injection H as <-. cbn [col min max].
  split; [reflexivity|]. split; [|lia].
  apply andb_true_iff. split; [apply andb_true_iff; split|]; now apply Z.leb_le.
Qed.

(** X14: every column that the diagnosis script lists as a year column is
    a column of the table that [_is_year_like_series] accepts, and the
    bounds listed for it satisfy 1800 <= min <= max <= 2100. *)
Theorem diagnosed_years_are_year_like (df : DataFrame) (y : YearColumn) :
  In y (detect_year_columns (Some df)) ->
  In (col y) (columns df)
  /\ is_year_like_series (getitem_series df (col y)) = true
  /\ (1800 <= min y <= max y)%Z /\ (max y <= 2100)%Z.
Proof.
  cbn [detect_year_columns].
  induction (columns df) as [|c t IH]; simpl; [intros []|].
  destruct (year_column_entry df c) as [y'|] eqn:E.
  - intros [<-|H].
    + apply year_column_entry_spec in E as (Ec & H1 & H2 & H3).
      rewrite Ec. auto.
    + destruct (IH H) as (H1 & H2). auto.
  - intros H. destruct (IH H) as (H1 & H2). auto.
Qed.

End DiagnoseFacts.

Lemma diagnosed_years_are_year_like_witness :
  let y := Diagnose.mkYearColumn "Year" 2015 2017 in
  In y (Diagnose.detect_year_columns (lib := Reference.stable_lib)
          (Some Examples.min_max_table))
  /\ In (Diagnose.col y) (Pandas.columns Examples.min_max_table)
  /\ QueryExecutor.is_year_like_series (lib := Reference.stable_lib)
       (QueryExecutor.getitem_series Examples.min_max_table (Diagnose.col y)) = true
  /\ (1800 <= Diagnose.min y <= Diagnose.max y)%Z /\ (Diagnose.max y <= 2100)%Z.
Proof.
  assert (H : In (Diagnose.mkYearColumn "Year" 2015 2017)
                 (Diagnose.detect_year_columns (lib := Reference.stable_lib)
                    (Some Examples.min_max_table)))
    by (vm_compute; now left).
  split; [exact H|].
  exact (@diagnosed_years_are_year_like Reference.stable_lib _ _ H).
Defined.

Section YearLabelFacts.

Import Text Pandas Questions YearLabels Props.
Context {lib : Lib}.
Local Open Scope string_scope.

Lemma four_digits_numeral (y : BinNums.N) (r : list ascii) :
  String.length (numeral y) = 4%nat ->
  four_digits (list_ascii_of_string (numeral y) ++ r)
  = Some (list_ascii_of_string (numeral y), r).
Proof.
  intros Hl. destruct (numeral_digits y) as [Hd _].
  destruct (numeral y) as [|a [|b [|c [|d [|e s]]]]]; try discriminate Hl.
  cbn [list_ascii_of_string app four_digits] in *.
  simpl in Hd. apply andb_true_iff in Hd as [Ha Hd].
  apply andb_true_iff in Hd as [Hb Hd]. apply andb_true_iff in Hd as [Hc Hd].
  apply andb_true_iff in Hd as [Hd _]. now rewrite Ha, Hb, Hc, Hd.
Qed.

Lemma re_search_here (A : Type) (m : list ascii -> option A) (s : list ascii)
      (x : A) :
  m s = Some x -> re_search m s = Some x.
Proof. intros H. destruct s; simpl; now rewrite H. Qed.

(** X15: a label that starts with a four-digit year, a hyphen and two
    digits (such as [2016-17 - Production]) is read by [parse_year] as that
    year, and a [Year] cell whose text starts with a four-digit year
    (such as [2014-15]) is read by [yr_to_int] as that year. *)
Theorem labels_give_start_year (y : BinNums.N) (e f : ascii)
        (rest rest' : string) :
  String.length (numeral y) = 4%nat ->
  is_digit e = true -> is_digit f = true ->
  parse_year (numeral y ++ String "-" (String e (String f rest)))
  = Ok (Some (Z.of_N y))
  /\ yr_to_int (CStr (numeral y ++ rest')) = Ok (Some (Z.of_N y)).
Proof.
  intros Hl He Hf. split.
  - unfold parse_year. rewrite list_of_append.
    rewrite (@re_search_here _ match_year_span _ (list_ascii_of_string (numeral y))).
    + rewrite int_of_numeral; [reflexivity|].
      rewrite Hl. apply Nat.leb_le. reflexivity.
    + unfold match_year_span. rewrite four_digits_numeral by assumption.
      cbn [list_ascii_of_string]. now rewrite He, Hf.
  - unfold yr_to_int. cbn [Analytics.astype_str]. rewrite list_of_append.
    rewrite (@re_search_here _ match_year _ (list_ascii_of_string (numeral y))).
    + rewrite int_of_numeral; [reflexivity|].
      rewrite Hl. apply Nat.leb_le. reflexivity.
    + unfold match_year. now rewrite four_digits_numeral.
Qed.

End YearLabelFacts.

Lemma labels_give_start_year_witness :
  YearLabels.parse_year "2016-17 - Production" = Pandas.Ok (Some 2016%Z)
  /\ YearLabels.yr_to_int (lib := Reference.stable_lib) (Pandas.CStr "2016-17")
     = Pandas.Ok (Some 2016%Z).
Proof.
  exact (@labels_give_start_year Reference.stable_lib 2016%N "1"%char "7"%char
           " - Production"%string "-17"%string eq_refl eq_refl eq_refl).
Defined.

(** ** The top crops of the comparison *)

Section CompareFacts.

Import Text Pandas Analytics Questions Compare.
Context {lib : Lib}.

Lemma head_length (A : Type) (m : Z) (l : list A) :
  (0 <= m)%Z -> (List.length (head m l) <= Z.to_nat m)%nat.
Proof.
  intros H. unfold head.
  destruct (0 <=? m)%Z eqn:E; [apply firstn_le_length | lia].
Qed.

Lemma top_crops_try_length (df : DataFrame) (n m : Z)
      (top sample : list record) :
  (0 <= m)%Z ->
  top_crops_try df n m = Ok (top, sample) ->
  (List.length top <= Z.to_nat m)%nat /\ (List.length sample <= 8)%nat.
Proof.
  intros Hm. unfold top_crops_try.
  case_bind; [|discriminate].
  case_if.
  - do 2 (case_bind; [|discriminate]).
    intros H. injection H as <- <-. unfold to_records. cbn [rows].
    rewrite !length_map. split; [now apply head_length|].
    apply (@head_length _ 8); lia.
  - case_if; [|intros H; injection H as <- <-; simpl; lia].
    destruct (numeric_columns df) as [|c cs];
      [intros H; injection H as <- <-; simpl; lia|].
    do 3 (case_bind; [|discriminate]).
    intros H. injection H as <- <-. unfold to_records. cbn [rows].
    rewrite !length_map. split; [now apply head_length|].
    apply (@head_length _ 8); lia.
Qed.

(** X16: for every question that [parse_question] reads, and whatever the
    crop loader returned, the comparison lists at most [M] top crops, where
    [M] is the count read from the question, and at most eight sample
    rows; no table, or a failure inside the block, leaves both lists
    empty. *)
Theorem comparison_lists_at_most_m (question : option string)
        (df_crop : QueryExecutor.Loaded) (p : Parsed) :
  parse_question question = Ok p ->
  (List.length (fst (top_crops_all_india df_crop (N p) (M p)))
   <= Z.to_nat (M p))%nat
  /\ (List.length (snd (top_crops_all_india df_crop (N p) (M p))) <= 8)%nat
  /\ ((forall df, df_crop <> QueryExecutor.Frame df) ->
      top_crops_all_india df_crop (N p) (M p) = ([], []))
  /\ (forall df e, df_crop = QueryExecutor.Frame df ->
                   top_crops_try df (N p) (M p) = Raise e ->
                   top_crops_all_india df_crop (N p) (M p) = ([], [])).
Proof.
  intros Hp.
  destruct (proj1 (parse_question_cases question) p Hp) as (_ & Hm & _).
  unfold top_crops_all_india. split; [|split; [|split]].
  - destruct df_crop as [| |df]; try (simpl; lia).
    destruct (top_crops_try df (N p) (M p)) as [[top sample]|e] eqn:E;
      [|simpl; lia].
    cbn [fst]. eapply top_crops_try_length; eassumption.
  - destruct df_crop as [| |df]; try (simpl; lia).
    destruct (top_crops_try df (N p) (M p)) as [[top sample]|e] eqn:E;
      [|simpl; lia].
    cbn [snd]. eapply top_crops_try_length; eassumption.
  - intros H. destruct df_crop as [| |df]; try reflexivity.
    now destruct (H df).
  - intros df e -> E. now rewrite E.
Qed.

End CompareFacts.

(** The top crop of the built-in sample. *)
Lemma comparison_lists_at_most_m_witness :
  exists p,
    Questions.parse_question (Some "top 1 crops of the last 2 years"%string)
    = Pandas.Ok p
    /\ (List.length
          (fst (Compare.top_crops_all_india (lib := Reference.stable_lib)
                  (QueryExecutor.Frame Loaders.sample_crop_production)
                  (Questions.N p) (Questions.M p)))
        <= Z.to_nat (Questions.M p))%nat
    /\ (List.length
          (snd (Compare.top_crops_all_india (lib := Reference.stable_lib)
                  (QueryExecutor.Frame Loaders.sample_crop_production)
                  (Questions.N p) (Questions.M p)))
        <= 8)%nat.
Proof.
  destruct (Questions.parse_question
              (Some "top 1 crops of the last 2 years"%string))
    as [p|e] eqn:E; [|vm_compute in E; discriminate E].
  exists p. split; [reflexivity|].
  destruct (@comparison_lists_at_most_m Reference.stable_lib _
              (QueryExecutor.Frame Loaders.sample_crop_production) p E)
    as (H1 & H2 & _).
  split; [exact H1 | exact H2].
Defined.

Section CompareColumnFacts.

Import Text Pandas Analytics Compare.
Context {lib : Lib}.
Local Open Scope string_scope.

Lemma dict_set_in (k v k0 v0 : string) (d : list (string * string)) :
  In (k, v) (dict_set k0 v0 d) -> (k, v) = (k0, v0) \/ In (k, v) d.
Proof.
  induction d as [|[k' v'] t IH]; simpl.
  - intros [H|[]]. now left.
  - destruct (String.eqb k0 k').
    + intros [H|H]; [now left | right; now right].
    + intros [H|H]; [right; now left|].
      destruct (IH H) as [E|E]; [now left | right; now right].
Qed.

Lemma cols_l_in (cols : list string) (k v : string) :
  In (k, v) (cols_l cols) -> In v cols /\ k = lower v.
Proof.
  unfold cols_l.
  assert (G : forall d,
             (forall k v, In (k, v) d -> In v cols /\ k = lower v) ->
             forall l, incl l cols ->
             forall k v,
               In (k, v) (fold_left (fun d c => dict_set (lower c) c d) l d) ->
               In v cols /\ k = lower v).
  { intros d Hd l. revert d Hd. induction l as [|c l IH]; intros d Hd Hl k0 v0;
      simpl; [now apply Hd|].
    apply IH.
    - intros k1 v1 H. apply dict_set_in in H as [H|H]; [|now apply Hd].
      injection H as -> ->. split; [apply Hl; now left | reflexivity].
    - intros x Hx. apply Hl. now right. }
  apply (G [] (fun k v (H : In (k, v) []) => match H with end) cols
           (incl_refl cols)).
Qed.

Lemma next_orig_none (p : string -> bool) (cols : list string) :
  (forall c, In c cols -> p (lower c) = false) ->
  next_orig p (cols_l cols) = None.
Proof.
  intros H. unfold next_orig.
  destruct (find _ (cols_l cols)) as [[k v]|] eqn:E; [|reflexivity].
  apply find_some in E as [Hin Hp]. cbn [fst] in Hp.
  apply cols_l_in in Hin as [Hv ->]. rewrite H in Hp by assumption.
  discriminate.
Qed.

(** X17: a crop table without any column whose lower-cased label
    contains production, quantity or tonne, and without a column labelled
    [Crops], gives no top crops and no sample rows. *)
Theorem comparison_needs_production (df : DataFrame) (n m : Z) :
  (forall c, In c (columns df) ->
             contains "production" (lower c) || contains "quantity" (lower c)
             || contains "tonne" (lower c) = false) ->
  ~ In "Crops" (columns df) ->
  top_crops_all_india (QueryExecutor.Frame df) n m = ([], []).
Proof.
  intros Hp Hc. unfold top_crops_all_india, top_crops_try.
  rewrite (next_orig_none _ _ Hp).
  destruct (crop_window df _ n) as [dff|e]; cbn [bind]; [|reflexivity].
  cbn [truthy_opt andb].
  replace (mem "Crops" (columns df)) with false; [reflexivity|].
  symmetry. unfold mem. destruct (existsb _ (columns df)) eqn:E; [|reflexivity].
  exfalso. apply existsb_exists in E as (x & Hx & He).
  apply String.eqb_eq in He. subst x. now apply Hc.
Qed.

End CompareColumnFacts.

Lemma comparison_needs_production_witness :
  Compare.top_crops_all_india (lib := Reference.stable_lib)
    (QueryExecutor.Frame Examples.no_roles) 5 3 = ([], []).
Proof.
  apply (@comparison_needs_production Reference.stable_lib).
  - intros c Hc. vm_compute in Hc.
    destruct Hc as [<-|[<-|[]]]; reflexivity.
  - intros H. vm_compute in H. intuition discriminate.
Defined.

(** ** The built-in climate sample *)

Section SampleFacts.

Import Text Pandas QueryExecutor Loaders.
Context {lib : Lib} {files : Files}.
Local Open Scope string_scope.

(** X18: with no climate file in the data directory the climate loader
    returns its built-in two-row sample, and on that sample the national
    average finds no metric for any window: the numeric fallback needs
    three values in a column. *)
Theorem sample_climate_has_no_average (n : Z) :
  find_file_contains "seasonal and annual minmax" = None ->
  find_file_contains "year-wise climate risk" = None ->
  exists df meta d,
    load_climate_temp_series = Ok (df, meta)
    /\ compute_national_climate_avg (Frame df) n = Ok (NoResult d)
    /\ In "No candidate min/max columns found even after fallback"
          (detection_notes d).
Proof.
  intros H1 H2. unfold load_climate_temp_series. rewrite H1, H2.
  do 3 eexists. split; [reflexivity|].
  split; [reflexivity|]. cbn. right. now left.
Qed.

End SampleFacts.

Lemma sample_climate_has_no_average_witness :
  exists df meta d,
    Loaders.load_climate_temp_series (files := Reference.no_files) = Pandas.Ok (df, meta)
    /\ QueryExecutor.compute_national_climate_avg (lib := Reference.stable_lib)
         (QueryExecutor.Frame df) 5 = Pandas.Ok (QueryExecutor.NoResult d)
    /\ In "No candidate min/max columns found even after fallback"%string
          (QueryExecutor.detection_notes d).
Proof.
  exact (@sample_climate_has_no_average Reference.stable_lib Reference.no_files
           5%Z eq_refl eq_refl).
Defined.

(** ** Failures and defaults of the top crops *)

Section TopCropsFailure.

Import Text Pandas Analytics Props.
Context {lib : Lib}.
Local Open Scope string_scope.

Lemma index_of_none_inv (x : string) (l : list string) :
  index_of x l = None -> ~ In x l.
Proof.
  intros H Hin. destruct (index_of_in _ _ Hin) as [j Hj]. congruence.
Qed.

Lemma detect_none_inv (cands cols : list string) :
  detect cands (map lower cols) cols = None ->
  forall c, In c cols -> ~ In (lower c) cands.
Proof.
  induction cands as [|cand t IH]; simpl; [intros _ c _ []|].
  destruct (index_of cand (map lower cols)) as [j|] eqn:E; [discriminate|].
  intros H c Hc [Hl|Hl].
  - apply index_of_none_inv in E. apply E. rewrite Hl. now apply in_map.
  - now apply (IH H c).
Qed.

Lemma detect_some_in (cands cols : list string) (c : string) :
  detect cands (map lower cols) cols = Some c -> In c cols.
Proof.
  induction cands as [|cand t IH]; simpl; [discriminate|].
  destruct (index_of cand (map lower cols)) as [j|] eqn:E; [|exact IH].
  intros H. injection H as <-. apply index_of_some in E as [_ Hj].
  rewrite length_map in Hj. now apply nth_In.
Qed.

Lemma columns_window (df : DataFrame) (yc : string) (n : Z) :
  columns (top_crops_window df yc n) = columns df.
Proof.
  unfold top_crops_window.
  destruct (index_of yc (columns df)) as [yj|] eqn:E; [|reflexivity].
  assert (Hs : forall vals, columns (setitem df yc vals) = columns df).
  { intros vals. unfold setitem. now rewrite E. }
  destruct (max_int _) as [my|]; [|apply Hs].
  destruct (my =? 0)%Z; apply Hs.
Qed.

Lemma columns_prepare (df : DataFrame) (sc st pc : string) :
  columns (top_crops_prepare df sc st pc)
  = if mem pc (columns df) then columns df else (columns df ++ [pc])%list.
Proof.
  unfold top_crops_prepare.
  set (dff := match index_of sc (columns df) with Some _ => _ | None => _ end).
  assert (Hc : columns dff = columns df).
  { unfold dff. destruct (index_of sc (columns df)); reflexivity. }
  clearbody dff.
  destruct (index_of pc (columns dff)); unfold setitem_scalar;
    rewrite columns_setitem, Hc; reflexivity.
Qed.

Lemma mem_in (x : string) (l : list string) : mem x l = true <-> In x l.
Proof.
  unfold mem. rewrite existsb_exists. split.
  - intros (y & Hy & E). apply String.eqb_eq in E. now subst.
  - intros H. exists x. split; [exact H | apply String.eqb_refl].
Qed.

End TopCropsFailure.

Section TopCropsDefault.

Import Text Pandas Analytics Props.
Context {lib : Lib}.
Local Open Scope string_scope.

Lemma replace_nth_length (j : nat) (v : cell) (r : list cell) :
  List.length (replace_nth j v r) = List.length r.
Proof.
  revert j. induction r as [|c t IH]; intros [|j]; simpl; auto.
Qed.

Lemma rectangular_window (df : DataFrame) (yc : string) (n : Z) :
  rectangular df -> rectangular (top_crops_window df yc n).
Proof.
  intros H. unfold rectangular. rewrite columns_window.
  unfold rectangular in H. rewrite Forall_forall in H |- *.
  unfold top_crops_window.
  destruct (index_of yc (columns df)) as [yj|] eqn:E; [|exact H].
  rewrite to_numeric_rowwise.
  assert (Hs : forall r, In r (rows (setitem df yc
                 (map (fun r => coercion (column df yj) (cell_at yj r)) (rows df)))) ->
               List.length r = List.length (columns df)).
  { intros r. rewrite setitem_rowwise, E. cbn [rows set_row].
    intros Hr. apply in_map_iff in Hr as (r0 & <- & Hr0).
    cbn [set_row]. rewrite replace_nth_length. now apply H. }
  destruct (max_int _) as [my|]; [|exact Hs].
  destruct (my =? 0)%Z; [exact Hs|].
  intros r Hr. cbn [window_rows filter_rows rows] in Hr.
  apply filter_In in Hr as [Hr _]. now apply Hs.
Qed.

Lemma index_of_app_last (x : string) (l : list string) :
  ~ In x l -> index_of x (l ++ [x]) = Some (List.length l).
Proof.
  induction l as [|h t IH]; simpl.
  - intros _. now rewrite String.eqb_refl.
  - intros H. destruct (String.eqb_spec x h) as [->|_].
    + exfalso. apply H. now left.
    + rewrite IH; [reflexivity|]. intros Hin. apply H. now right.
Qed.

Lemma sum_cells_zero (col : list cell) :
  Forall (fun c => c = CNum 0) col -> sum_cells col = 0%Q.
Proof.
  unfold sum_cells. intros H.
  assert (E : Qsum (numbers col) = 0%Q).
  { induction H as [|c t Hc _ IH]; [reflexivity|].
    subst c. simpl. fold (Qsum (numbers t)). now rewrite IH. }
  now rewrite E.
Qed.

Lemma firstn_in (A : Type) (n : nat) (l : list A) (x : A) :
  In x (firstn n l) -> In x l.
Proof.
  revert n. induction l as [|a l IH]; intros [|n]; simpl;
    try (intros []; fail).
  intros [H|H]; [now left | right; eauto].
Qed.

Lemma head_in (A : Type) (m : Z) (l : list A) (x : A) :
  In x (head m l) -> In x l.
Proof. unfold head. destruct (0 <=? m)%Z; apply firstn_in. Qed.

(** X20: on a table without a production column (no label that
    lower-cases to one of the five production names) every crop that
    [top_crops_by_volume] lists has the total 0, for any sort that
    returns rows of its input: the missing column is filled with 0
    instead of failing. *)
Theorem top_crops_without_production (df out : DataFrame) (state : string)
        (n m : Z) :
  (forall l x, In x (sort_values_desc l) -> In x l) ->
  rectangular df ->
  (forall c, In c (columns df) ->
             ~ In (lower c) ["production_tonnes"; "production";
                             "production (tonnes)"; "production (t)";
                             "quantity"]) ->
  top_crops_by_volume df state n m = Ok out ->
  forall r, In r (rows out) -> exists k, r = [k; CNum 0].
Proof.
  intros Hsort Hrect Hno. unfold top_crops_by_volume, top_crops_aggregate.
  rewrite (@detect_none ["production_tonnes"; "production";
                         "production (tonnes)"; "production (t)"; "quantity"]).
  2:{ intros c Hc Hin. apply in_map_iff in Hin as (c' & <- & Hc').
      now apply (Hno c'). }
  cbn [or_default].
  set (yc := or_default (detect ["year"; "season"; "reporting_year"] _ _) _).
  set (sc := or_default (detect ["state"; "st"; "state_name"] _ _) _).
  set (cc := or_default (detect ["crop"; "commodity"; "crop_name"] _ _) _).
  clearbody yc sc cc.
  pose proof (rectangular_window yc n Hrect) as Hw.
  pose proof (columns_window df yc n) as Hcw.
  set (d0 := top_crops_window df yc n) in *. clearbody d0.
  assert (Hp : ~ In "production_tonnes" (columns d0)).
  { rewrite Hcw. intros H. apply (Hno _ H). now left. }
  unfold top_crops_prepare.
  set (d1 := match index_of sc (columns d0) with Some _ => _ | None => _ end).
  assert (Hc1 : columns d1 = columns d0).
  { unfold d1. destruct (index_of sc (columns d0)); reflexivity. }
  assert (Hr1 : forall r, In r (rows d1) ->
                          List.length r = List.length (columns d0)).
  { unfold rectangular in Hw. rewrite Forall_forall in Hw.
    unfold d1. destruct (index_of sc (columns d0)); [|exact Hw].
    intros r Hr. cbn [filter_rows rows] in Hr.
    apply filter_In in Hr as [Hr _]. now apply Hw. }
  clearbody d1.
  rewrite index_of_none by (rewrite Hc1; exact Hp).
  unfold setitem_scalar. rewrite repeat_map.
  rewrite setitem_rowwise. rewrite index_of_none by (rewrite Hc1; exact Hp).
  unfold col_idx. cbn [columns rows].
  destruct (index_of cc _) as [cj|]; cbn [bind]; [|discriminate].
  rewrite index_of_app_last by (rewrite Hc1; exact Hp). cbn [bind].
  intros H. injection H as <-. cbn [rows].
  intros r Hr. apply in_map_iff in Hr as ([k s] & <- & Hr).
  apply head_in, Hsort in Hr. unfold groupby_sum in Hr.
  apply in_map_iff in Hr as (k' & E & _). injection E as -> <-.
  exists k. unfold pair_row. cbn [fst snd]. do 3 f_equal.
  apply sum_cells_zero. unfold group_cells.
  rewrite Forall_forall. intros c Hc.
  apply in_map_iff in Hc as (r' & <- & Hr').
  apply filter_In in Hr' as [Hr' _].
  apply in_map_iff in Hr' as (r0 & <- & Hr0).
  cbn [set_row]. unfold cell_at. rewrite Hc1, <- (Hr1 r0 Hr0).
  apply nth_middle.
Qed.

End TopCropsDefault.

Lemma insert_desc_in (x y : Pandas.cell * Q) (l : list (Pandas.cell * Q)) :
  In y (Reference.insert_desc x l) -> y = x \/ In y l.
Proof.
  induction l as [|h t IH]; simpl; [intuition|].
  destruct (Qle_bool (snd h) (snd x)); simpl; intuition.
Qed.

Lemma stable_desc_in (l : list (Pandas.cell * Q)) (y : Pandas.cell * Q) :
  In y (Reference.stable_desc l) -> In y l.
Proof.
  induction l as [|x t IH]; simpl; [auto|].
  intros H. apply insert_desc_in in H as [->|H]; [now left | right; auto].
Qed.

Lemma top_crops_without_production_witness :
  exists out,
    Analytics.top_crops_by_volume (lib := Reference.stable_lib)
      Examples.crops_without_production "StateA" 1 5 = Pandas.Ok out
    /\ forall r, In r (Pandas.rows out) -> exists k, r = [k; Pandas.CNum 0].
Proof.
  destruct (Analytics.top_crops_by_volume (lib := Reference.stable_lib)
              Examples.crops_without_production "StateA" 1 5)
    as [out|e] eqn:E; [|vm_compute in E; discriminate E].
  exists out. split; [reflexivity|].
  apply (@top_crops_without_production Reference.stable_lib _ _ _ _ _) with (4 := E).
  - exact stable_desc_in.
  - repeat constructor.
  - intros c Hc Hin. cbn [Pandas.columns Examples.crops_without_production] in Hc.
    destruct Hc as [<-|[<-|[<-|[]]]]; vm_compute in Hin; intuition discriminate.
Defined.

(** ** Row order in the trend and in the climate average *)

Section TrendOrderFacts.

Import Text Pandas Analytics Props.
Context {lib : Lib}.
Local Open Scope string_scope.

Lemma region_filter_same_rows (rf : list (string * cell)) (df df' : DataFrame) :
  same_rows df df' ->
  same_rows (apply_region_filter rf df) (apply_region_filter rf df').
Proof.
  revert df df'. induction rf as [|[k v] rest IH]; intros df df' H; simpl;
    [exact H|].
  apply IH. pose proof H as [Hc _]. rewrite Hc.
  destruct (index_of k (columns df)); [now apply filter_same_rows | exact H].
Qed.

Lemma coerced_same_rows (df df' : DataFrame) (name : string) (j : nat)
      (g : cell -> cell) :
  same_rows df df' ->
  same_rows (setitem df name (map g (to_numeric (column df j))))
            (setitem df' name (map g (to_numeric (column df' j)))).
Proof.
  intros H. pose proof (column_perm j H) as Hcol.
  rewrite !to_numeric_rowwise, !map_map, (coercion_perm Hcol).
  apply (setitem_same_rows name
           (fun r => g (coercion (column df j) (cell_at j r))) H).
Qed.

(** With sums taken exactly, the production trend does not depend on the
    order of the rows. *)
Lemma trend_perm (df df' : DataFrame) (crop_name : string)
      (region_filter : list (string * cell)) :
  same_rows df df' ->
  production_trend df' crop_name region_filter
  = production_trend df crop_name region_filter.
Proof.
  intros H. pose proof H as [Hc _]. unfold production_trend. rewrite Hc.
  set (yf := detect ["year"; "season"] _ _).
  set (cc := or_default (detect ["crop"; "commodity"] _ _) _).
  set (pc := or_default (detect ["production_tonnes"; "production"] _ _) _).
  clearbody yf cc pc.
  assert (H0 : same_rows (if truthy_opt yf then df
                          else setitem_scalar df "year" CNaT)
                         (if truthy_opt yf then df'
                          else setitem_scalar df' "year" CNaT)).
  { destruct (truthy_opt yf); [exact H|].
    unfold setitem_scalar. rewrite !repeat_map.
    apply (setitem_same_rows "year" (fun _ => CNaT) H). }
  set (d0 := if truthy_opt yf then df else _) in *.
  set (d0' := if truthy_opt yf then df' else _) in *.
  clearbody d0 d0'. pose proof H0 as [Hc0 _]. rewrite Hc0.
  destruct (index_of pc (columns d0)) as [pj|]; [|reflexivity].
  pose proof (coerced_same_rows pc pj (fillna (CNum 0)) H0) as H1.
  set (d1 := setitem d0 pc _) in *. set (d1' := setitem d0' pc _) in *.
  clearbody d1 d1'. pose proof H1 as [Hc1 _].
  unfold col_idx. rewrite Hc1.
  destruct (index_of cc (columns d1)) as [cj|]; cbn [bind]; [|reflexivity].
  pose proof (region_filter_same_rows region_filter
                (filter_same_rows
                   (fun r => String.eqb (lower (astype_str (cell_at cj r)))
                                        (lower crop_name)) H1)) as H2.
  set (d2 := apply_region_filter _ _) in *.
  set (d2' := apply_region_filter _ (filter_rows _ d1')) in *.
  clearbody d2 d2'. pose proof H2 as [Hc2 Hp2].
  rewrite Hc2.
  destruct (index_of (or_default yf "year") (columns d2)) as [yj|].
  - pose proof (coerced_same_rows (or_default yf "year") yj (fun c => c) H2)
      as [_ Hp3].
    rewrite !map_id in Hp3.
    now rewrite (groupby_sum_perm yj pj Hp3).
  - assert (E : sum_cells (column d2' pj) = sum_cells (column d2 pj)).
    { apply sum_cells_perm. unfold column. now apply Permutation_map. }
    now rewrite E.
Qed.

(** X21: on a table whose numbers are integers with absolute values adding
    up to less than 2^53, so that float64 sums are exact in any order, the
    production trend does not depend on the order of the rows: the yearly
    series and the fitted line are the same for two tables with the same
    labels and the same rows in any order. *)
Theorem trend_row_order (df df' : DataFrame) (crop_name : string)
        (region_filter : list (string * cell)) :
  exact_sums df ->
  same_rows df df' ->
  production_trend df' crop_name region_filter
  = production_trend df crop_name region_filter.
Proof. intros _. apply trend_perm. Qed.

End TrendOrderFacts.

Lemma trend_row_order_witness :
  let df := Examples.tied_crops in
  let df' := Examples.tied_crops_swapped in
  Props.exact_sums (lib := Reference.stable_lib) df
  /\ Props.same_rows df df'
  /\ Analytics.production_trend (lib := Reference.stable_lib) df' "Rice" []
     = Analytics.production_trend (lib := Reference.stable_lib) df "Rice" [].
Proof.
  assert (H : Props.same_rows Examples.tied_crops Examples.tied_crops_swapped).
  { split; [reflexivity | apply perm_swap]. }
  split; [exact tied_crops_exact|]. split; [exact H|].
  exact (@trend_row_order Reference.stable_lib _ _ "Rice"%string []
           tied_crops_exact H).
Defined.

Section AvgOrderFacts.

Import Text Pandas Analytics Props.
Context {lib : Lib}.
Local Open Scope string_scope.

Lemma existsb_perm (A : Type) (p : A -> bool) (l l' : list A) :
  Permutation l l' -> existsb p l = existsb p l'.
Proof.
  induction 1 as [|c l l' _ IH|c d l|l l' l'' _ IH1 _ IH2]; simpl.
  - reflexivity.
  - now rewrite IH.
  - destruct (p c), (p d); reflexivity.
  - congruence.
Qed.

Lemma has_text_perm (col col' : list cell) :
  Permutation col col' -> has_text col = has_text col'.
Proof. apply existsb_perm. Qed.

Lemma mean_cells_perm (col col' : list cell) :
  Permutation col col' -> mean_cells col = mean_cells col'.
Proof.
  intros H. unfold mean_cells. rewrite (has_text_perm H).
  destruct (has_text col'); [reflexivity|].
  pose proof (numbers_perm H) as Hn.
  destruct (numbers col) as [|q t] eqn:E.
  - apply Permutation_nil in Hn. now rewrite Hn.
  - destruct (numbers col') as [|q' t'] eqn:E';
      [apply Permutation_sym, Permutation_nil in Hn; discriminate|].
    do 2 f_equal. apply Qred_complete.
    rewrite (Qsum_perm Hn), (Permutation_length Hn). reflexivity.
Qed.

Lemma mapM_ext (A B : Type) (f g : A -> result B) (l : list A) :
  (forall a, f a = g a) -> mapM f l = mapM g l.
Proof.
  intros H. induction l as [|a t IH]; simpl; [reflexivity|].
  now rewrite H, IH.
Qed.

Lemma groupby_mean_perm (kj vj : nat) (rs rs' : list (list cell)) :
  Permutation rs rs' -> groupby_mean kj vj rs = groupby_mean kj vj rs'.
Proof.
  intros H. unfold groupby_mean.
  rewrite (has_text_perm (Permutation_map (cell_at vj) H)).
  rewrite (group_keys_perm (Permutation_map (cell_at kj) H)).
  destruct (has_text _); [reflexivity|].
  apply mapM_ext. intros k.
  rewrite (@mean_cells_perm (group_cells kj vj rs k) (group_cells kj vj rs' k));
    [reflexivity|].
  unfold group_cells. apply Permutation_map, filter_perm, H.
Qed.

Lemma avg_aggregate_perm (df df' : DataFrame) (states : list string)
      (sc : option string) (mc : string) :
  same_rows df df' ->
  avg_aggregate df' states sc mc = avg_aggregate df states sc mc.
Proof.
  intros [Hc Hp]. unfold avg_aggregate, col_idx. rewrite Hc.
  destruct (index_of mc (columns df)) as [mj|]; cbn [bind]; [|reflexivity].
  destruct (truthy_opt sc).
  - destruct (index_of _ (columns df)) as [sj|]; cbn [bind]; [|reflexivity].
    rewrite (@groupby_mean_perm sj mj
               (rows (filter_rows (fun r => isin states (cell_at sj r)) df'))
               (rows (filter_rows (fun r => isin states (cell_at sj r)) df)));
      [reflexivity|].
    cbn [filter_rows rows]. now apply filter_perm.
  - rewrite (@mean_cells_perm (column df' mj) (column df mj)); [reflexivity|].
    unfold column. now apply Permutation_map.
Qed.

Lemma numeric_columns_perm (df df' : DataFrame) :
  same_rows df df' -> numeric_columns df' = numeric_columns df.
Proof.
  intros H. pose proof H as [Hc _]. unfold numeric_columns. rewrite Hc.
  f_equal. apply filter_ext. intros [c j]. cbn [snd].
  apply forallb_perm, column_perm, H.
Qed.

(** With sums and means taken exactly, the climate average does not
    depend on the order of the rows. *)
Lemma avg_perm (df df' : DataFrame) (states : list string)
      (yc mc : option (list string)) (n : Z) :
  same_rows df df' ->
  fst (avg_annual_climate_metric df' states yc mc n)
  = fst (avg_annual_climate_metric df states yc mc n).
Proof.
  intros H. pose proof H as [Hc _]. unfold avg_annual_climate_metric.
  rewrite Hc, (numeric_columns_perm H).
  destruct (negb (truthy_opt _)); [reflexivity|].
  set (year_col := or_default _ "").
  destruct (if truthy_opt _ then _ else _) as [metric_col|]; [|reflexivity].
  set (sc := detect state_candidates _ _). clearbody sc.
  unfold getitem. rewrite Hc.
  destruct (index_of year_col (columns df)) as [yj|]; [|reflexivity].
  pose proof (column_perm yj H) as Hcol.
  unfold window_of. rewrite (max_int_perm (to_numeric_perm Hcol)).
  destruct (max_int _) as [Y|]; [|reflexivity].
  cbn [fst].
  pose proof (coerced_same_rows year_col yj (fun c => c) H) as H1.
  rewrite !map_id in H1. pose proof H1 as [Hc1 _].
  unfold col_idx. rewrite Hc1.
  destruct (index_of year_col (columns (setitem df year_col _))) as [yj'|];
    cbn [bind]; [|reflexivity].
  assert (E : forall j w,
             avg_aggregate
               (window_rows j w (setitem df' year_col (to_numeric (column df' yj))))
               states sc metric_col
             = avg_aggregate
                 (window_rows j w (setitem df year_col (to_numeric (column df yj))))
                 states sc metric_col).
  { intros j w. apply avg_aggregate_perm. unfold window_rows.
    now apply filter_same_rows. }
  now rewrite E.
Qed.

(** X22: on a table whose numbers are integers with absolute values adding
    up to less than 2^53, so that float64 sums are exact in any order, the
    result that the climate average returns does not depend on the order
    of the rows: what it returns for a table, it returns for every table
    with the same labels and the same rows in another order. *)
Theorem avg_row_order (df df' : DataFrame) (states : list string)
        (yc mc : option (list string)) (n : Z) (out : DataFrame)
        (meta : AvgMeta) :
  exact_sums df ->
  same_rows df df' ->
  fst (avg_annual_climate_metric df states yc mc n) = Ok (out, meta) ->
  fst (avg_annual_climate_metric df' states yc mc n) = Ok (out, meta).
Proof. intros _ H E. now rewrite (avg_perm states yc mc n H). Qed.

End AvgOrderFacts.

Lemma avg_row_order_witness :
  let df := Examples.climate_two_years in
  let df' := Pandas.mkDF (Pandas.columns df) (rev (Pandas.rows df)) in
  exists out meta,
    Props.exact_sums (lib := Reference.stable_lib) df
    /\ Props.same_rows df df'
    /\ fst (Analytics.avg_annual_climate_metric (lib := Reference.stable_lib)
              df ["StateA"%string] None None 2) = Pandas.Ok (out, meta)
    /\ fst (Analytics.avg_annual_climate_metric (lib := Reference.stable_lib)
              df' ["StateA"%string] None None 2) = Pandas.Ok (out, meta).
Proof.
  assert (H : Props.same_rows Examples.climate_two_years
                (Pandas.mkDF (Pandas.columns Examples.climate_two_years)
                             (rev (Pandas.rows Examples.climate_two_years)))).
  { split; [reflexivity | apply perm_swap]. }
  destruct (fst (Analytics.avg_annual_climate_metric
                   (lib := Reference.stable_lib) Examples.climate_two_years
                   ["StateA"%string] None None 2))
    as [[out meta]|e] eqn:E; [|vm_compute in E; discriminate E].
  exists out, meta. split; [exact climate_two_years_exact|].
  split; [exact H|]. split; [exact E|].
  exact (@avg_row_order Reference.stable_lib _ _ ["StateA"%string] None None
           2%Z out meta climate_two_years_exact H E).
Defined.

(** ** The provenance of the national average *)

Section ProvenanceFacts.

Import Text Pandas QueryExecutor Props.
Context {lib : Lib}.
Local Open Scope string_scope.

Lemma computed_by_window (input : Loaded) (n : Z) (out : DataFrame)
      (meta : Meta) :
  compute_national_climate_avg input n = Ok (Computed out meta) ->
  exists df_work yc mn mx d,
    national_window df_work yc mn mx n d = Ok (Computed out meta).
Proof.
  unfold compute_national_climate_avg.
  destruct input as [| |df]; try discriminate.
  destruct (is_empty df); [discriminate|].
  destruct (find_year _) as [[ycn|] notes]; [|discriminate].
  destruct (detect_min_max _ _ _) as [[[mn mx]|] d]; [|discriminate].
  case_bind; [|discriminate].
  intros H. eauto 6.
Qed.

Lemma complete_rows_metric (rs : list (list cell)) (yj mj : nat) :
  Forall (fun r => exists q, cell_at yj r = CNum q) rs ->
  let cr := complete_rows (map (cell_at yj) rs) (map (cell_at mj) rs) in
  numbers (map snd cr) = numbers (map (cell_at mj) rs)
  /\ has_text (map snd cr) = false.
Proof.
  unfold complete_rows.
  induction 1 as [|r t [q Hq] _ [IH1 IH2]]; simpl; [auto|].
  rewrite Hq. destruct (cell_at mj r) as [m|s| |]; simpl; auto.
  now rewrite IH1.
Qed.

Lemma in_combine_map (A B C : Type) (f : A -> B) (g : A -> C) (l : list A)
      (b : B) (c : C) :
  In (b, c) (combine (map f l) (map g l)) ->
  exists a, In a l /\ b = f a /\ c = g a.
Proof.
  induction l as [|a t IH]; simpl; [intros []|].
  intros [H|H].
  - injection H as <- <-. exists a. auto.
  - destruct (IH H) as (a' & H1 & H2). exists a'. auto.
Qed.

(** X23: when the national average is computed, the value reported for
    All India is the mean of the metric over exactly the rows listed as
    [rows_used] in the provenance, and each of those rows has a numeric
    year inside [years_used] and a numeric metric. *)
Theorem national_average_matches_provenance (input : Loaded) (n : Z)
        (out : DataFrame) (meta : Meta) :
  compute_national_climate_avg input n = Ok (Computed out meta) ->
  exists v,
    rows out = [[CStr "All India"; v]]
    /\ mean_cells (map snd (rows_used meta)) = Ok v
    /\ forall y m, In (y, m) (rows_used meta) ->
         exists qy qm,
           y = CNum qy /\ m = CNum qm
           /\ (inject_Z (fst (years_used meta)) <= qy
               <= inject_Z (snd (years_used meta)))%Q.
Proof.
  intros H. apply computed_by_window in H as (df_work & yc & mn & mx & d & H).
  apply national_window_spec in H
    as (yj & years & Y & ms & ys & v & _ & Hi & _ & Hy & Hm & Hys & Hv & Ho & Hr).
  exists v. split; [exact Ho|].
  unfold getitem in Hm, Hys.
  cbn [Analytics.window_rows filter_rows columns] in Hm, Hys.
  rewrite Hi in Hys. injection Hys as <-.
  destruct (index_of "annual_mean_temp_c" (columns df_work)) as [mj|];
    [|discriminate]. injection Hm as <-.
  unfold column, Analytics.window_rows, filter_rows in Hr, Hv.
  cbn [rows fst snd] in Hr, Hv.
  set (rs := filter _ (rows df_work)) in *.
  assert (Hw : Forall (fun r => Props.year_within yj (Y - n + 1) Y r) rs).
  { rewrite Forall_forall. intros r Hr0. unfold rs in Hr0.
    apply filter_In in Hr0 as [_ Hr0]. cbn [fst snd] in Hr0.
    now apply in_window_iff in Hr0. }
  assert (Hn : Forall (fun r => exists q, cell_at yj r = CNum q) rs).
  { eapply Forall_impl; [|exact Hw]. intros r (q & Hq & _). now exists q. }
  destruct (@complete_rows_metric rs yj mj Hn) as [E1 E2].
  rewrite Hr, Hy. cbn [fst snd]. split.
  - unfold mean_cells in Hv |- *. rewrite E2, E1.
    destruct (has_text (map (cell_at mj) rs)); [discriminate | exact Hv].
  - intros y m Hin. unfold complete_rows in Hin.
    apply filter_In in Hin as [Hin Hc].
    destruct y as [qy| | |]; try discriminate Hc.
    destruct m as [qm| | |]; try discriminate Hc.
    exists qy, qm. split; [reflexivity|]. split; [reflexivity|].
    apply in_combine_map in Hin as (r & Hr0 & Ey & _).
    rewrite Forall_forall in Hw. destruct (Hw r Hr0) as (q & Hq & Hb).
    rewrite Hq in Ey. injection Ey as ->. exact Hb.
Qed.

End ProvenanceFacts.

Lemma national_average_matches_provenance_witness :
  exists out meta v,
    QueryExecutor.compute_national_climate_avg (lib := Reference.stable_lib)
      (QueryExecutor.Frame Examples.min_max_table) 2
    = Pandas.Ok (QueryExecutor.Computed out meta)
    /\ Pandas.rows out = [[Pandas.CStr "All India"; v]]
    /\ Pandas.mean_cells (map snd (QueryExecutor.rows_used meta)) = Pandas.Ok v
    /\ forall y m, In (y, m) (QueryExecutor.rows_used meta) ->
         exists qy qm,
           y = Pandas.CNum qy /\ m = Pandas.CNum qm
           /\ (inject_Z (fst (QueryExecutor.years_used meta)) <= qy
               <= inject_Z (snd (QueryExecutor.years_used meta)))%Q.
Proof.
  destruct (QueryExecutor.compute_national_climate_avg (lib := Reference.stable_lib)
              (QueryExecutor.Frame Examples.min_max_table) 2)
    as [[d|out meta]|e] eqn:E;
    [vm_compute in E; discriminate E | | vm_compute in E; discriminate E].
  destruct (@national_average_matches_provenance Reference.stable_lib _ _ _ _ E)
    as (v & H1 & H2 & H3).
  exists out, meta, v. auto.
Defined.

(** ** The states listed for a question *)

Section StatesFacts.

Import Text Pandas States.
Context {lib : Lib}.
Local Open Scope string_scope.

Lemma unique_text_in (l : list string) (x : string) :
  In x (unique_text l) <-> In x l.
Proof.
  induction l as [|h t IH]; simpl; [reflexivity|].
  rewrite filter_In, IH. split.
  - intros [H|[H _]]; auto.
  - intros [H|H]; [now left|].
    destruct (String.eqb_spec x h) as [->|Hne]; [now left|].
    right. split; [exact H | reflexivity].
Qed.

Lemma unique_text_nodup (l : list string) : NoDup (unique_text l).
Proof.
  induction l as [|h t IH]; simpl; constructor.
  - rewrite filter_In. intros [_ H]. now rewrite String.eqb_refl in H.
  - now apply NoDup_filter.
Qed.

(** X24: the list of states that [handle_question] reports is never
    empty and holds no state twice; each entry is [All India] or the text
    of a non-missing cell of a column whose lower-cased label is [state]. *)
Theorem listed_states_are_distinct (df_crop : QueryExecutor.Loaded) :
  list_states df_crop <> []
  /\ NoDup (list_states df_crop)
  /\ forall s, In s (list_states df_crop) ->
       s = "All India"
       \/ exists df c col x,
            df_crop = QueryExecutor.Frame df
            /\ In c (columns df) /\ lower c = "state"
            /\ QueryExecutor.getitem_series df c = Some col
            /\ In x col /\ x <> CNaN /\ x <> CNaT
            /\ s = Analytics.astype_str x.
Proof.
  unfold list_states.
  set (states := match df_crop with QueryExecutor.Frame _ => _ | _ => _ end).
  assert (Hs : NoDup states
               /\ forall s, In s states ->
                    exists df c col x,
                      df_crop = QueryExecutor.Frame df
                      /\ In c (columns df) /\ lower c = "state"
                      /\ QueryExecutor.getitem_series df c = Some col
                      /\ In x col /\ x <> CNaN /\ x <> CNaT
                      /\ s = Analytics.astype_str x).
  { unfold states. destruct df_crop as [| |df];
      try (split; [constructor | intros s []]).
    destruct (find _ (columns df)) as [c|] eqn:Ef;
      [|split; [constructor | intros s []]].
    apply find_some in Ef as [Hc He]. apply String.eqb_eq in He.
    destruct (QueryExecutor.getitem_series df c) as [col|] eqn:Eg;
      [|split; [constructor | intros s []]].
    split; [apply unique_text_nodup|].
    intros s Hin. apply (proj1 (unique_text_in _ _)) in Hin.
    apply in_map_iff in Hin as (x & <- & Hx).
    unfold dropna in Hx. apply filter_In in Hx as [Hx Hm].
    exists df, c, col, x. repeat split; auto; intros ->; discriminate Hm. }
  clearbody states. destruct Hs as [Hn Hin].
  destruct states as [|s0 t].
  - split; [discriminate|]. split; [repeat constructor; intros []|].
    intros s [<-|[]]. now left.
  - split; [discriminate|]. split; [exact Hn|].
    intros s Hs. right. now apply Hin.
Qed.

End StatesFacts.

(** ** The climate table of a file *)

Section ClimateLoaderFacts.

Import Text Pandas ClimateLoader Props.
Context {lib : Lib}.
Local Open Scope string_scope.

Lemma astype_int_ok (col out : list cell) :
  astype_int col = Ok out ->
  List.length out = List.length col
  /\ Forall (fun c => exists z, c = CNum (inject_Z z)) out.
Proof.
  unfold astype_int. intros H. apply mapM_ok in H.
  induction H as [|c o cs os Hc _ [IH1 IH2]]; simpl; [auto|].
  destruct c as [q| | |]; try discriminate Hc. injection Hc as <-.
  split; [now rewrite IH1|]. constructor; [now exists (Qtrunc q) | exact IH2].
Qed.

Lemma to_numeric_kinds (col : list cell) :
  Forall (fun c => c = CNaN \/ exists q, c = CNum q) (to_numeric col).
Proof.
  rewrite to_numeric_coercion. rewrite Forall_forall. intros c Hc.
  apply in_map_iff in Hc as (c0 & <- & _). unfold coercion.
  destruct (forallb is_nat_cell col); [right; eauto|].
  destruct c0 as [q|s| |]; simpl; eauto.
  destruct (parse_float s); eauto.
Qed.

(** X25: when [load_climate_temp_series] reshapes the table it read (a
    year column and an annual minimum or maximum column were found) and
    returns, the table has exactly the columns [year] and
    [annual_mean_temp_c], and every year is an integer. *)
Theorem reshaped_climate_years_are_integers (raw0 df : DataFrame)
        (path : string) (meta : Loaders.SourceMeta) :
  climate_table raw0 path = Ok (df, meta) ->
  df = strip_columns raw0
  \/ (columns df = ["year"; "annual_mean_temp_c"]
      /\ forall r, In r (rows df) ->
           exists z m, r = [CNum (inject_Z z); m]).
Proof.
  unfold climate_table.
  destruct (truthy_opt _ && _); [|intros H; injection H as <- _; now left].
  case_bind; [|discriminate]. case_bind; [|discriminate].
  case_bind; [|discriminate]. case_bind; [|discriminate].
  intros H. injection H as <- _. right. split; [reflexivity|].
  cbn [rows]. intros r Hr. apply in_map_iff in Hr as ([y r0] & <- & Hin).
  apply in_combine_l in Hin. cbn [fst snd].
  match goal with
  | E : astype_int _ = Ok _ |- _ => apply astype_int_ok in E as [_ E]
  end.
  rewrite Forall_forall in *.
  match goal with
  | E : forall x, In x _ -> exists z, _ |- _ => destruct (E y Hin) as [z ->]
  end.
  eauto.
Qed.

Lemma combine_maps (A B C : Type) (f : A -> B) (g : A -> C) (l : list A) :
  combine (map f l) (map g l) = map (fun a => (f a, g a)) l.
Proof. induction l as [|a t IH]; simpl; congruence. Qed.

Lemma cell_at_replace_other (j k : nat) (v : cell) (r : list cell) :
  j <> k -> cell_at j (replace_nth k v r) = cell_at j r.
Proof.
  unfold cell_at. revert j k. induction r as [|c t IH]; intros [|j] [|k] H;
    simpl; try reflexivity; try congruence.
  apply IH. congruence.
Qed.

Lemma cell_at_set_row (o : option nat) (f : list cell -> cell) (j : nat)
      (r : list cell) :
  o <> Some j -> (j < List.length r)%nat ->
  cell_at j (set_row o f r) = cell_at j r.
Proof.
  intros Ho Hj. destruct o as [k|]; simpl.
  - apply cell_at_replace_other. congruence.
  - unfold cell_at. now apply app_nth1.
Qed.

Lemma index_of_rename (old new : string) (cols : list string) :
  (old = new \/ ~ In new cols) ->
  index_of new (map (fun c => if String.eqb c old then new else c) cols)
  = index_of old cols.
Proof.
  intros H. induction cols as [|h t IH]; simpl; [reflexivity|].
  destruct (String.eqb_spec h old) as [->|Hne].
  - rewrite !String.eqb_refl. reflexivity.
  - destruct (String.eqb_spec new h) as [->|Hn].
    + destruct H as [->|H]; [congruence|]. exfalso. apply H. now left.
    + destruct (String.eqb_spec old h) as [->|_]; [congruence|].
      rewrite IH; [reflexivity|].
      destruct H as [H|H]; [now left | right; intros Hin; apply H; now right].
Qed.

Lemma mapM_raise (A B : Type) (f : A -> result B) (l : list A) (e : exn) (a : A) :
  In a l -> f a = Raise e ->
  (forall x e', In x l -> f x = Raise e' -> e' = e) ->
  mapM f l = Raise e.
Proof.
  induction l as [|h t IH]; simpl; [intros []|].
  intros Hin Ha Hall. destruct (f h) as [b|e'] eqn:E; cbn [bind].
  - destruct Hin as [->|Hin]; [congruence|].
    rewrite (IH Hin Ha); [reflexivity|].
    intros x e' Hx. apply Hall. now right.
  - f_equal. apply (Hall h); auto.
Qed.


End ClimateLoaderFacts.

Lemma reshaped_climate_years_are_integers_witness :
  exists df meta,
    ClimateLoader.climate_table (lib := Reference.stable_lib)
      Examples.min_max_table "data/minmax.csv" = Pandas.Ok (df, meta)
    /\ Loaders.source_file meta = "minmax.csv"%string
    /\ (df = ClimateLoader.strip_columns Examples.min_max_table
        \/ (Pandas.columns df = ["year"; "annual_mean_temp_c"]%string
            /\ forall r, In r (Pandas.rows df) ->
                 exists z m, r = [Pandas.CNum (inject_Z z); m])).
Proof.
  destruct (ClimateLoader.climate_table (lib := Reference.stable_lib)
              Examples.min_max_table "data/minmax.csv")
    as [[df meta]|e] eqn:E; [|vm_compute in E; discriminate E].
  exists df, meta. split; [reflexivity|]. split.
  - vm_compute in E. injection E as _ <-. reflexivity.
  - exact (@reshaped_climate_years_are_integers Reference.stable_lib _ _ _ _ E).
Defined.


(** ** The fitted trend *)

Section TrendLineFacts.

Import Text Pandas Analytics Props.
Context {lib : Lib}.
Local Open Scope string_scope.

Lemma cell_at_replace_same (j : nat) (v : cell) (r : list cell) :
  cell_at j (replace_nth j v r) = v \/ cell_at j (replace_nth j v r) = CNaN.
Proof.
  unfold cell_at. revert j. induction r as [|c t IH]; intros [|j]; simpl; auto.
Qed.

Lemma coerced_cells (df : DataFrame) (name : string) (j : nat) (r : list cell) :
  index_of name (columns df) = Some j ->
  In r (rows (setitem df name (to_numeric (column df j)))) ->
  cell_at j r = CNaN \/ exists q, cell_at j r = CNum q.
Proof.
  intros Hi. unfold setitem. rewrite Hi. cbn [rows].
  intros Hr. apply in_map_iff in Hr as ([r0 v] & <- & Hin). cbn [fst snd].
  apply in_combine_r in Hin.
  pose proof (to_numeric_kinds (column df j)) as Hk.
  rewrite Forall_forall in Hk. specialize (Hk v Hin).
  destruct (cell_at_replace_same j v r0) as [-> | ->]; auto.
Qed.

Lemma numeric_keys (col : list cell) (k : cell) :
  (forall c, In c col -> c = CNaN \/ exists q, c = CNum q) ->
  In k (group_keys col) -> exists q, k = CNum q.
Proof.
  intros Hc Hk. destruct (group_keys_spec col) as [_ Hin].
  apply Hin in Hk as (c & Hcin & Ek).
  destruct (Hc c Hcin) as [-> | [q ->]]; [discriminate Ek|].
  simpl in Ek. injection Ek as <-. eauto.
Qed.

Lemma sorted_keys_full_rank (kvs : list (cell * Q)) :
  StronglySorted key_lt (map fst kvs) ->
  (forall kv, In kv kvs -> exists q, fst kv = CNum q) ->
  (2 <= List.length kvs)%nat ->
  full_rank (map (fun kv => (key_number (fst kv), snd kv)) kvs).
Proof.
  intros Hs Hn Hl.
  destruct kvs as [|a [|b rest]]; [simpl in Hl; lia | simpl in Hl; lia |].
  destruct (Hn a (or_introl eq_refl)) as [qa Ea].
  destruct (Hn b (or_intror (or_introl eq_refl))) as [qb Eb].
  apply (@two_distinct_full_rank _ (key_number (fst a), snd a)
           (key_number (fst b), snd b)).
  - now left.
  - right. now left.
  - cbn [fst]. rewrite Ea, Eb. cbn [key_number].
    cbn [map] in Hs. inversion Hs as [|? ? _ Hall]; subst.
    inversion Hall as [|? ? Hab _]; subst.
    unfold key_lt in Hab. rewrite Ea, Eb in Hab. simpl in Hab.
    apply Qltb_iff in Hab. intros E. rewrite E in Hab.
    now apply Qlt_irrefl in Hab.
Qed.

Lemma numbers_keys (kvs : list (cell * Q)) :
  (forall kv, In kv kvs -> exists q, fst kv = CNum q) ->
  numbers (map (cell_at 0) (map pair_row kvs))
  = map fst (map (fun kv => (key_number (fst kv), snd kv)) kvs)
  /\ numbers (map (cell_at 1) (map pair_row kvs))
     = map snd (map (fun kv => (key_number (fst kv), snd kv)) kvs)
  /\ map pair_row kvs
     = map point_row (map (fun kv => (key_number (fst kv), snd kv)) kvs).
Proof.
  rewrite !map_map. cbn [fst snd].
  induction kvs as [|[k s] t IH]; intros H; [repeat split|].
  destruct (H (k, s) (or_introl eq_refl)) as [q Eq]. cbn [fst] in Eq. subst k.
  destruct IH as (I1 & I2 & I3); [intros kv' Hkv; apply H; now right|].
  cbn [map]. rewrite <- I3.
  change (cell_at 0 (pair_row (CNum q, s))) with (CNum q).
  change (cell_at 1 (pair_row (CNum q, s))) with (CNum s).
  cbn [numbers fst snd key_number]. rewrite I1, I2. repeat split.
Qed.

(** The trend of two or more yearly sums: the series has the columns
    [year] and [production_tonnes], its years are distinct numbers, and
    the slope and the intercept are the solution that [np.linalg.lstsq]
    returns for the years and the sums of the series. *)
Lemma trend_fit (df : DataFrame) (crop_name : string)
      (region_filter : list (string * cell)) (ts : DataFrame) (t : Trend) :
  production_trend df crop_name region_filter = Ok (ts, t) ->
  (2 <= List.length (rows ts))%nat ->
  exists ps,
    columns ts = ["year"; "production_tonnes"]
    /\ rows ts = map point_row ps
    /\ full_rank ps
    /\ slope_per_year t = fst (lstsq (map fst ps) (map snd ps))
    /\ intercept t = snd (lstsq (map fst ps) (map snd ps)).
Proof.
  unfold production_trend.
  set (cols := columns df).
  destruct (year_prod_distinct cols) as [Hyp Hpy].
  set (yc := or_default (detect ["year"; "season"] (map lower cols) cols)
                        "year") in *.
  set (pc := or_default (detect ["production_tonnes"; "production"]
                                (map lower cols) cols) "production_tonnes") in *.
  destruct (index_of pc _) as [pj|]; [|discriminate].
  case_bind; [|discriminate].
  match goal with
  | |- context [match index_of yc (columns ?d) with _ => _ end] =>
      set (dff := d); destruct (index_of yc (columns dff)) as [yj|] eqn:Ey
  end.
  - set (dfy := setitem dff yc (to_numeric (column dff yj))).
    set (kvs := groupby_sum yj pj (rows dfy)).
    assert (Hkeys : forall kv, In kv kvs -> exists q, fst kv = CNum q).
    { intros kv Hkv. unfold kvs, groupby_sum in Hkv.
      apply in_map_iff in Hkv as (k & <- & Hk). cbn [fst].
      apply numeric_keys in Hk; [exact Hk|].
      intros c Hc. apply in_map_iff in Hc as (r & <- & Hr).
      now apply (@coerced_cells dff yc yj r Ey). }
    assert (Hsorted : StronglySorted key_lt (map fst kvs)).
    { unfold kvs, groupby_sum. rewrite map_map. cbn [fst]. rewrite map_id.
      apply group_keys_spec. }
    unfold fit_trend, getitem. cbn [rows columns index_of].
    rewrite length_map.
    destruct (String.eqb_spec "year" pc) as [E|_]; [congruence|].
    rewrite String.eqb_refl.
    destruct (String.eqb_spec pc yc) as [E|_]; [congruence|].
    cbn [option_map].
    intros H Hlen.
    destruct (Nat.leb_spec 2 (List.length kvs)) as [Hge|Hlt].
    + destruct (String.eqb_spec "year" yc) as [<-|Hne]; [|discriminate H].
      cbn [bind] in H. injection H as <- <-.
      destruct (numbers_keys kvs Hkeys) as (E1 & E2 & E3).
      exists (map (fun kv => (key_number (fst kv), snd kv)) kvs).
      unfold rename_col. cbn [columns rows slope_per_year intercept map].
      destruct (String.eqb_spec "year" pc) as [E|_]; [congruence|].
      rewrite String.eqb_refl.
      unfold column. cbn [rows]. rewrite E1, E2.
      split; [reflexivity|]. split; [exact E3|].
      split; [now apply sorted_keys_full_rank|]. split; reflexivity.
    + cbn [bind] in H. injection H as <- <-.
      rewrite rows_rename_col, rows_mkDF, length_map in Hlen. lia.
  - case_bind; [|discriminate].
    intros H Hlen. injection H as <- <-.
    rewrite rows_rename_col, rows_mkDF in Hlen. simpl in Hlen. lia.
Qed.

Lemma trend_short (df : DataFrame) (crop_name : string)
      (region_filter : list (string * cell)) (ts : DataFrame) (t : Trend) :
  production_trend df crop_name region_filter = Ok (ts, t) ->
  (List.length (rows ts) < 2)%nat ->
  slope_per_year t = 0%Q
  /\ ((rows ts = [] /\ intercept t = 0%Q)
      \/ exists y s, rows ts = [[y; CNum s]] /\ (intercept t == s)%Q).
Proof.
  unfold production_trend.
  set (cols := columns df).
  destruct (year_prod_distinct cols) as [Hyp Hpy].
  set (yc := or_default (detect ["year"; "season"]%string (map lower cols) cols)
                        "year") in *.
  set (pc := or_default (detect ["production_tonnes"; "production"]%string
                                (map lower cols) cols) "production_tonnes") in *.
  destruct (index_of pc _) as [pj|]; [|discriminate].
  case_bind; [|discriminate].
  match goal with
  | |- context [match index_of yc ?c with _ => _ end] =>
      destruct (index_of yc c) as [yj|]
  end.
  + match goal with
    | |- context [map pair_row ?k] => set (kvs := k); clearbody kvs
    end.
    case_bind; [|discriminate].
    intros H Hlen. injection H as <- <-.
    rewrite rows_rename_col, rows_mkDF in Hlen |- *.
    rewrite length_map in Hlen.
    match goal with
    | E : fit_trend _ pc = Ok _ |- _ =>
        destruct (fit_trend_short _ Hyp Hlen E) as [Hs [[E0 Hi] | [kv [E0 Hi]]]]
    end; rewrite E0; (split; [exact Hs|]).
    * left. split; [reflexivity | exact Hi].
    * right. exists (fst kv), (snd kv). split; [reflexivity | exact Hi].
  + match goal with
    | |- context [[[CNum 0; CNum ?s]]] => set (s0 := s); clearbody s0
    end.
    change [[CNum 0; CNum s0]] with (map pair_row [(CNum 0, s0)]).
    case_bind; [|discriminate].
    intros H _. injection H as <- <-.
    rewrite rows_rename_col, rows_mkDF.
    assert (Hy : "year"%string <> pc) by congruence.
    assert (Hl : (List.length [(CNum 0, s0)] < 2)%nat) by (simpl; lia).
    match goal with
    | E : fit_trend _ pc = Ok _ |- _ =>
        destruct (fit_trend_short _ Hy Hl E) as [Hs [[E0 _] | [kv [E0 Hi]]]]
    end; [discriminate E0|].
    split; [exact Hs|]. right. exists (CNum 0), s0.
    split; [reflexivity|]. injection E0 as <-. exact Hi.
Qed.


End TrendLineFacts.



(** ** The numeric fallback within the detection *)

Section FallbackDetection.

Import Text Pandas QueryExecutor Props.
Context {lib : Lib}.
Local Open Scope string_scope.

Lemma col_map_get_found (df : DataFrame) (key : string) :
  In key (columns (normalize_frame df)) -> truthy key = true ->
  exists o, col_map_get df key = Some o /\ In o (columns df)
            /\ norm o = key /\ truthy o = true.
Proof.
  cbn [normalize_frame columns]. intros Hin Ht.
  apply in_map_iff in Hin as (c & Hc & Hin). unfold col_map_get.
  destruct (last_match _ (columns df)) as [o|] eqn:E.
  - apply last_match_some in E as [Ho He]. apply String.eqb_eq in He.
    exists o. repeat split; auto.
    destruct o; [|reflexivity]. rewrite <- He in Ht.
    vm_compute in Ht. discriminate Ht.
  - exfalso. pose proof (last_match_none _ _ E c Hin) as H.
    simpl in H. rewrite Hc, String.eqb_refl in H. discriminate H.
Qed.

Lemma working_frame_two (df : DataFrame) (yc a b : string) (dfw : DataFrame) :
  truthy a = true -> truthy b = true ->
  working_frame df yc (Some a) (Some b) = Ok dfw ->
  exists ycol ca cb,
    getitem df yc = Ok ycol
    /\ getitem (setitem df yc (to_numeric ycol)) a = Ok ca
    /\ getitem (setitem df yc (to_numeric ycol)) b = Ok cb
    /\ dfw = setitem (setitem df yc (to_numeric ycol)) "annual_mean_temp_c"
                     (mean_of_two ca cb).
Proof.
  intros Ha Hb. unfold working_frame.
  cbn [truthy_opt or_default]. rewrite Ha, Hb. cbn [andb].
  destruct (getitem df yc) as [ycol|]; cbn [bind]; [|discriminate].
  destruct (getitem _ a) as [ca|] eqn:Ea; cbn [bind]; [|discriminate].
  destruct (getitem _ b) as [cb|] eqn:Eb; cbn [bind]; [|discriminate].
  intros H. injection H as <-. exists ycol, ca, cb. repeat split; assumption.
Qed.

Lemma working_frame_one (df : DataFrame) (yc a : string) (dfw : DataFrame) :
  truthy a = true ->
  working_frame df yc (Some a) None = Ok dfw
  \/ working_frame df yc None (Some a) = Ok dfw ->
  exists ycol ca,
    getitem df yc = Ok ycol
    /\ getitem (setitem df yc (to_numeric ycol)) a = Ok ca
    /\ dfw = setitem (setitem df yc (to_numeric ycol)) "annual_mean_temp_c"
                     (to_numeric ca).
Proof.
  intros Ha. unfold working_frame.
  cbn [truthy_opt or_default]. rewrite Ha. cbn [andb].
  destruct (getitem df yc) as [ycol|]; cbn [bind];
    [|intros [H|H]; discriminate H].
  destruct (getitem _ a) as [ca|] eqn:Ea; cbn [bind];
    [|intros [H|H]; discriminate H].
  intros [H|H]; injection H as <-; exists ycol, ca; repeat split;
    assumption.
Qed.


End FallbackDetection.


(** ** The top crops for a count *)

Section TopCropsContract.

Import Text Pandas Analytics Props.
Context {lib : Lib}.
Local Open Scope string_scope.

Lemma sorted_keys_nodup (l : list cell) :
  StronglySorted key_lt l -> NoDup l.
Proof.
  induction 1 as [|a l Hs IH Ha]; constructor; [|exact IH].
  intros Hin. rewrite Forall_forall in Ha.
  exact (@key_lt_irrefl a (Ha a Hin)).
Qed.

Lemma nodup_firstn (A : Type) (n : nat) (l : list A) :
  NoDup l -> NoDup (firstn n l).
Proof.
  intros H. revert n. induction H as [|a l Ha Hl IH]; intros [|n]; simpl;
    try constructor; auto.
  intros Hin. apply Ha. rewrite <- (firstn_skipn n l).
  apply in_or_app. now left.
Qed.

Lemma top_crops_groups (df out : DataFrame) (state : string) (n m : Z) :
  top_crops_by_volume df state n m = Ok out ->
  exists groups,
    rows out = map pair_row (head m (sort_values_desc groups))
    /\ StronglySorted key_lt (map fst groups).
Proof.
  unfold top_crops_by_volume, top_crops_aggregate.
  case_bind; [|discriminate]. case_bind; [|discriminate].
  intros E. injection E as <-. eexists. split; [reflexivity|].
  unfold groupby_sum. rewrite map_map. cbn [fst]. rewrite map_id.
  apply group_keys_spec.
Qed.


End TopCropsContract.

Lemma stable_desc_perm (l : list (Pandas.cell * Q)) :
  Permutation l (Reference.stable_desc l).
Proof.
  assert (Hi : forall x t, Permutation (x :: t) (Reference.insert_desc x t)).
  { intros x t. induction t as [|y t IH]; simpl; [reflexivity|].
    destruct (Qle_bool (snd y) (snd x)); [reflexivity|].
    rewrite perm_swap. now constructor. }
  induction l as [|x t IH]; simpl; [constructor|].
  rewrite <- Hi. now constructor.
Qed.


